(** * Sequelize query builder: filter, sort and pagination compilers, cache,
      performance monitor and the advanced query builder.

    A shallow embedding of the TypeScript sources.  JavaScript values are a
    small inductive type; numbers are the doubles that are integers, the two
    infinities and NaN, and their arithmetic rounds as the arithmetic of
    doubles does; the signed zero is not distinguished.  Objects are
    association lists in insertion order.  Code that throws returns a
    [result]; code that mutates an object or a map threads the new state
    explicitly. *)

From Stdlib Require Import ZArith Lia.
From stdpp Require Import base option list gmap strings pretty.

Set Warnings "-register-all".

Local Open Scope string_scope.
Local Open Scope list_scope.
Local Open Scope Z_scope.

(** ** JavaScript values *)

Module Js.

(** [Int z] stands for the double whose value is the integer [z]. *)
Inductive number := Int (z : Z) | PInf | NInf | NaN.

(** [num / den] rounded to the nearest integer, a tie to the even one. *)
Definition round_half_even (num den : Z) : Z :=
  let q := num / den in
  let r := num mod den in
  if 2 * r <? den then q
  else if den <? 2 * r then q + 1
  else if Z.even q then q else q + 1.

(** The double nearest to the integer [z], which is what an arithmetic
    operation with the exact result [z] returns: [z] itself below [2^53] in
    absolute value; beyond, [z] rounded to 53 significant bits, a tie to the
    even one; an infinity when that is [2^1024] or more. *)
Definition round_double (z : Z) : number :=
  let a := Z.abs z in
  if a <? 2 ^ 53 then Int z
  else
    let e := Z.log2 a - 52 in
    let v := round_half_even a (2 ^ e) * 2 ^ e in
    if 2 ^ 1024 <=? v then (if 0 <? z then PInf else NInf)
    else Int (Z.sgn z * v).

Arguments round_double : simpl never.

(** The integers that are values of doubles. *)
Definition is_double (z : Z) : Prop := round_double z = Int z.

Definition num_neg (a : number) : number :=
  match a with Int x => Int (- x) | PInf => NInf | NInf => PInf | NaN => NaN end.

Definition num_add (a b : number) : number :=
  match a, b with
  | NaN, _ | _, NaN => NaN
  | Int x, Int y => round_double (x + y)
  | PInf, NInf | NInf, PInf => NaN
  | PInf, _ | _, PInf => PInf
  | NInf, _ | _, NInf => NInf
  end.

Definition num_sub (a b : number) : number := num_add a (num_neg b).

Definition num_mul (a b : number) : number :=
  match a, b with
  | NaN, _ | _, NaN => NaN
  | Int x, Int y => round_double (x * y)
  | Int x, PInf | PInf, Int x => if x =? 0 then NaN else if 0 <? x then PInf else NInf
  | Int x, NInf | NInf, Int x => if x =? 0 then NaN else if 0 <? x then NInf else PInf
  | PInf, PInf | NInf, NInf => PInf
  | PInf, NInf | NInf, PInf => NInf
  end.

(** [a < b]; every comparison with NaN is false. *)
Definition num_ltb (a b : number) : bool :=
  match a, b with
  | NaN, _ | _, NaN => false
  | Int x, Int y => x <? y
  | NInf, NInf => false
  | NInf, _ => true
  | PInf, _ => false
  | Int _, PInf => true
  | Int _, NInf => false
  end.

Definition num_gtb (a b : number) : bool := num_ltb b a.

(** [a <= b] *)
Definition num_leb (a b : number) : bool :=
  match a, b with
  | NaN, _ | _, NaN => false
  | Int x, Int y => x <=? y
  | NInf, _ => true
  | _, PInf => true
  | _, _ => false
  end.

Definition Math_min (a b : number) : number :=
  match a, b with
  | NaN, _ | _, NaN => NaN
  | _, _ => if num_ltb b a then b else a
  end.

(** [Math.ceil(x / y)] for integers [x] and [y <> 0].  The division rounds
    the quotient to the nearest double before the ceiling is taken: a
    quotient below 1 in absolute value stays strictly between -1 and 1,
    except that from [1 - 2^-54] on it rounds to 1; any other quotient is
    rounded to 53 significant bits, [m * 2^e] with [m] the quotient scaled
    by [2^-e] and rounded half to even. *)
Definition ceil_quotient (x y : Z) : number :=
  let a := Z.abs x in
  let b := Z.abs y in
  let positive := Bool.eqb (0 <? x) (0 <? y) in
  if x =? 0 then Int 0
  else if a <? b then
    Int (if positive then 1 else if 2 ^ 54 * (b - a) <=? b then -1 else 0)
  else
    let e := Z.log2 (a / b) - 52 in
    if 0 <? e then
      let v := round_half_even a (b * 2 ^ e) * 2 ^ e in
      if 2 ^ 1024 <=? v then (if positive then PInf else NInf)
      else Int (if positive then v else - v)
    else
      let d := 2 ^ (- e) in
      let m := round_half_even (a * d) b in
      Int (if positive then - ((- m) / d) else - (m / d)).

Arguments ceil_quotient : simpl never.

(** [Math.ceil(a / b)] *)
Definition Math_ceil_div (a b : number) : number :=
  match a, b with
  | NaN, _ | _, NaN => NaN
  | Int x, Int y =>
      if y =? 0 then (if x =? 0 then NaN else if 0 <? x then PInf else NInf)
      else ceil_quotient x y
  | Int _, PInf | Int _, NInf => Int 0
  | PInf, Int y => if 0 <=? y then PInf else NInf
  | NInf, Int y => if 0 <=? y then NInf else PInf
  | PInf, PInf | PInf, NInf | NInf, PInf | NInf, NInf => NaN
  end.

(** [a >= b] *)
Definition num_geb (a b : number) : bool := num_leb b a.

Definition Number_isInteger (a : number) : bool :=
  match a with Int _ => true | _ => false end.

Definition num_truthy (a : number) : bool :=
  match a with Int x => negb (x =? 0) | NaN => false | _ => true end.

(** [a || b] on numbers. *)
Definition num_or (a b : number) : number := if num_truthy a then a else b.

(** The shortest decimal that rounds to a double [x] of [2^53] or more:
    the decimal [s * 10^(n - k)] with the least number [k] of digits in [s],
    the nearest to [x] among these, the even one of two equally near.  The
    result is [(distance, s, n)]. *)
Definition decimal_candidates (x k : Z) : list (Z * Z * Z) :=
  let nd := Z.of_nat (String.length (pretty x)) in
  n ← [nd - 1; nd; nd + 1];
  s ← [x / 10 ^ (n - k); x / 10 ^ (n - k) + 1];
  if (k <=? n) && (10 ^ (k - 1) <=? s) && (s <? 10 ^ k)
     && (match round_double (s * 10 ^ (n - k)) with Int r => r =? x | _ => false end)
  then [(Z.abs (s * 10 ^ (n - k) - x), s, n)] else [].

Definition nearest_candidate (l : list (Z * Z * Z)) : option (Z * Z * Z) :=
  fold_left
    (fun best c =>
       match best with
       | None => Some c
       | Some b =>
           if (c.1.1 <? b.1.1) || ((c.1.1 =? b.1.1) && Z.even c.1.2) then Some c
           else Some b
       end) l None.

Definition shortest_decimal (x : Z) : option (Z * Z * Z) :=
  head (omap (fun k => nearest_candidate (decimal_candidates x (Z.of_nat k))) (seq 1 17)).

(** The digits of the shortest decimal followed by zeros, below [10^21];
    one digit, the others as a fraction, and the exponent from there on. *)
Definition decimal_form (x : Z) : string :=
  match shortest_decimal x with
  | Some (_, s, n) =>
      if x <? 10 ^ 21 then pretty (s * 10 ^ (n - Z.of_nat (String.length (pretty s))))
      else
        match pretty s with
        | String first rest =>
            String first (if String.eqb rest "" then "" else "." +:+ rest)
            +:+ "e+" +:+ pretty (n - 1)
        | EmptyString => ""
        end
  | None => ""
  end.

Arguments decimal_form : simpl never.

(** [String(a)] for a number.  A safe integer is printed with all its
    digits; they are all significant. *)
Definition num_to_string (a : number) : string :=
  match a with
  | Int x =>
      if Z.abs x <? 2 ^ 53 then pretty x
      else
        match round_double (Z.abs x) with
        | Int r => (if x <? 0 then "-" else "") +:+ decimal_form r
        | _ => if x <? 0 then "-Infinity" else "Infinity"
        end
  | PInf => "Infinity"
  | NInf => "-Infinity"
  | NaN => "NaN"
  end.

(** The operator symbols of Sequelize ([Op.and], [Op.iLike], ...). *)
Inductive Op :=
  | Op_and | Op_or | Op_ne | Op_gt | Op_gte | Op_lt | Op_lte
  | Op_like | Op_notLike | Op_iLike | Op_notILike
  | Op_in | Op_notIn | Op_between | Op_notBetween
  | Op_is | Op_not | Op_regexp | Op_notRegexp.

Inductive key := KStr (s : string) | KSym (o : Op).

Inductive value :=
  | VUndefined
  | VNull
  | VBool (b : bool)
  | VNum (n : number)
  | VStr (s : string)
  | VArr (l : list value)
  | VObj (l : list (key * value)).

#[export] Instance Op_eq_dec : EqDecision Op.
Proof. solve_decision. Defined.

#[export] Instance key_eq_dec : EqDecision key.
Proof. solve_decision. Defined.

Definition truthy (v : value) : bool :=
  match v with
  | VUndefined | VNull => false
  | VBool b => b
  | VNum n => num_truthy n
  | VStr s => negb (String.eqb s "")
  | VArr _ | VObj _ => true
  end.

(** The names that every ordinary object inherits from [Object.prototype]:
    for these [o[name]] is not [undefined] although [o] has no such property
    of its own.  What is inherited is a function (the prototype object itself
    for [__proto__]), which is truthy and has none of the members that the
    code goes on to read. *)
Definition prototype_members : list string :=
  ["constructor"; "__defineGetter__"; "__defineSetter__"; "hasOwnProperty";
   "__lookupGetter__"; "__lookupSetter__"; "isPrototypeOf"; "propertyIsEnumerable";
   "toString"; "valueOf"; "__proto__"; "toLocaleString"].

Definition prototype_member (name : string) : bool :=
  existsb (String.eqb name) prototype_members.
Arguments prototype_member : simpl never.

Definition Array_isArray (v : value) : bool :=
  match v with VArr _ => true | _ => false end.

Definition is_undefined (v : value) : bool :=
  match v with VUndefined => true | _ => false end.

(** [v === undefined || v === null] *)
Definition is_nullish (v : value) : bool :=
  match v with VUndefined | VNull => true | _ => false end.

(** [String(v)], which is also what a template literal inserts. *)
Fixpoint String_of (v : value) : string :=
  match v with
  | VUndefined => "undefined"
  | VNull => "null"
  | VBool true => "true"
  | VBool false => "false"
  | VNum n => num_to_string n
  | VStr s => s
  | VArr l =>
      (fix join (l : list value) : string :=
         match l with
         | [] => ""
         | x :: r =>
             let e := match x with VUndefined | VNull => "" | _ => String_of x end in
             match r with [] => e | _ :: _ => e +:+ "," +:+ join r end
         end) l
  | VObj _ => "[object Object]"
  end.

(** Own-property lookup, [o[k]]. *)
Fixpoint obj_get (o : list (key * value)) (k : key) : value :=
  match o with
  | [] => VUndefined
  | (k', v) :: r => if decide (k' = k) then v else obj_get r k
  end.

(** [o[k] = v]: an existing key keeps its place, a new key goes last. *)
Fixpoint obj_set (o : list (key * value)) (k : key) (v : value) : list (key * value) :=
  match o with
  | [] => [(k, v)]
  | (k', v') :: r => if decide (k' = k) then (k, v) :: r else (k', v') :: obj_set r k v
  end.

(** Object spread [{ ...a, ...b }]. *)
Definition obj_spread (a b : list (key * value)) : list (key * value) :=
  fold_left (fun o kv => obj_set o kv.1 kv.2) b a.

(** What a [throw] carries: an [Error] (or a subclass, told apart by its
    name) or any other value.  Of an error the name, the message and the code
    are kept; its other members ([field], [value], [details], [timestamp],
    [requestId], the stack) are not modelled. *)
Record Error := mkError {
  err_name : string;
  err_message : string;
  err_code : option string
}.

Inductive thrown := ThrowError (e : Error) | ThrowValue (v : value).

Inductive result (A : Type) := Ok (a : A) | Throw (t : thrown).
Arguments Ok {A} a.
Arguments Throw {A} t.

Definition bind {A B} (r : result A) (f : A -> result B) : result B :=
  match r with Ok a => f a | Throw t => Throw t end.

(** [error instanceof Error ? error.message : 'Unknown error'] *)
Definition message_of (t : thrown) : string :=
  match t with ThrowError e => err_message e | ThrowValue _ => "Unknown error" end.

Definition TypeError (msg : string) : thrown :=
  ThrowError (mkError "TypeError" msg None).

(** The double quote, for the messages that contain one. *)
Definition dquote : string := String (Ascii.ascii_of_nat 34) "".

(** An optional member is [None] when it is [undefined]:
    [defined o] is [o !== undefined]. *)
Definition defined {A} (o : option A) : bool :=
  match o with Some _ => true | None => false end.

(** [o || b] for an optional number [o]. *)
Definition opt_num_or (o : option number) (b : number) : number :=
  match o with Some a => num_or a b | None => b end.

End Js.

Import Js.

(** ** utils/FilterProcessor.ts *)

Module FilterProcessor.

Record FilterCondition := mkFilterCondition {
  field : string;
  operator : string;
  cvalue : value;
  caseSensitive : option bool
}.

(** [{ operator: 'and' | 'or', conditions: (FilterCondition | FilterGroup)[] }] *)
Inductive FilterGroup :=
  mkFilterGroup (goperator : string) (conditions : list (FilterCondition + FilterGroup)).

(** The three shapes [process] tells apart. *)
Inductive filters :=
  | OfArray (l : list FilterCondition)
  | OfGroup (g : FilterGroup)
  | OfCondition (c : FilterCondition).

(** One entry of a [FilterSchema]; [transform] may throw. *)
Record FieldSchema := mkFieldSchema {
  type : string;
  operators : list string;
  transform : option (value -> result value)
}.

Record FilterResult := mkFilterResult {
  where_ : value;
  errors : list string;
  warnings : list string
}.

Definition includes (l : list string) (s : string) : bool :=
  existsb (String.eqb s) l.

Definition field_pred (field : string) (op : Op) (v : value) : value :=
  VObj [(KStr field, VObj [(KSym op, v)])].

Definition is_pair (v : value) : bool :=
  match v with VArr [_; _] => true | _ => false end.

Definition processOperator (field operator : string) (v : value)
    (_caseSensitive : option bool) : result value :=
  if String.eqb operator "eq" then Ok (VObj [(KStr field, v)])
  else if String.eqb operator "ne" then Ok (field_pred field Op_ne v)
  else if String.eqb operator "gt" then Ok (field_pred field Op_gt v)
  else if String.eqb operator "gte" then Ok (field_pred field Op_gte v)
  else if String.eqb operator "lt" then Ok (field_pred field Op_lt v)
  else if String.eqb operator "lte" then Ok (field_pred field Op_lte v)
  else if String.eqb operator "like" then Ok (field_pred field Op_iLike v)
  else if String.eqb operator "notLike" then Ok (field_pred field Op_notLike v)
  else if String.eqb operator "iLike" then Ok (field_pred field Op_iLike v)
  else if String.eqb operator "notILike" then Ok (field_pred field Op_notILike v)
  else if String.eqb operator "in" then
    Ok (field_pred field Op_in (if Array_isArray v then v else VArr [v]))
  else if String.eqb operator "notIn" then
    Ok (field_pred field Op_notIn (if Array_isArray v then v else VArr [v]))
  else if String.eqb operator "between" then
    Ok (field_pred field Op_between (if is_pair v then v else VArr [v; v]))
  else if String.eqb operator "notBetween" then
    Ok (field_pred field Op_notBetween (if is_pair v then v else VArr [v; v]))
  else if String.eqb operator "is" then Ok (field_pred field Op_is v)
  else if String.eqb operator "isNot" then Ok (field_pred field Op_not v)
  else if String.eqb operator "startsWith" then
    Ok (field_pred field Op_iLike (VStr (String_of v +:+ "%")))
  else if String.eqb operator "endsWith" then
    Ok (field_pred field Op_iLike (VStr ("%" +:+ String_of v)))
  else if String.eqb operator "contains" then
    Ok (field_pred field Op_iLike (VStr ("%" +:+ String_of v +:+ "%")))
  else if String.eqb operator "regexp" then Ok (field_pred field Op_regexp v)
  else if String.eqb operator "notRegexp" then Ok (field_pred field Op_notRegexp v)
  else Throw (ThrowError (mkError "Error" ("Unsupported operator: " +:+ operator) None)).

Definition validateCondition (c : FilterCondition) : bool :=
  if String.eqb (field c) "" || String.eqb (operator c) "" then false
  else if is_nullish (cvalue c) then includes ["is"; "isNot"] (operator c)
  else true.

Section WithSchema.

(** The own properties of [this.schema], an ordinary object. *)
Variable schema : gmap string FieldSchema.

(** The [errors] array is shared by all the calls of one [process]: each
    function takes it and returns it, also when it throws.  For a field that
    is not a property of the schema itself, [this.schema[condition.field]]
    is [undefined] unless the name is inherited from [Object.prototype]; what
    is inherited is truthy and has no [operators], so that
    [fieldSchema.operators.includes] throws. *)
Definition processFilterCondition (c : FilterCondition) (errors : list string)
    : result value * list string :=
  if negb (validateCondition c) then
    (Ok (VObj []), errors ++ ["Invalid filter condition for field: " +:+ field c])
  else
    let fieldSchema := schema !! field c in
    match fieldSchema with
    | Some fs =>
        if negb (includes (operators fs) (operator c)) then
          (Ok (VObj []),
           errors ++ ["Operator '" +:+ operator c +:+ "' not allowed for field '"
                      +:+ field c +:+ "'"])
        else
          match transform fs with
          | Some f =>
              match f (cvalue c) with
              | Ok v => (processOperator (field c) (operator c) v (caseSensitive c), errors)
              | Throw t =>
                  (Ok (VObj []),
                   errors ++ ["Value transformation failed for field '" +:+ field c
                              +:+ "': " +:+ message_of t])
              end
          | None =>
              (processOperator (field c) (operator c) (cvalue c) (caseSensitive c), errors)
          end
    | None =>
        if prototype_member (field c) then
          (Throw (TypeError "Cannot read properties of undefined (reading 'includes')"),
           errors)
        else (processOperator (field c) (operator c) (cvalue c) (caseSensitive c), errors)
    end.

(** [filters.map(f)] for an [f] that pushes on [errors] and may throw. *)
Fixpoint map_conditions (l : list FilterCondition) (errors : list string)
    : result (list value) * list string :=
  match l with
  | [] => (Ok [], errors)
  | c :: rest =>
      match processFilterCondition c errors with
      | (Throw t, errors1) => (Throw t, errors1)
      | (Ok w, errors1) =>
          match map_conditions rest errors1 with
          | (Throw t, errors2) => (Throw t, errors2)
          | (Ok ws, errors2) => (Ok (w :: ws), errors2)
          end
      end
  end.

Definition processFilterArray (l : list FilterCondition) (errors : list string)
    : result value * list string :=
  match map_conditions l errors with
  | (Ok ws, errors1) => (Ok (VObj [(KSym Op_and, VArr ws)]), errors1)
  | (Throw t, errors1) => (Throw t, errors1)
  end.

Fixpoint processFilterGroup (g : FilterGroup) (errors : list string) {struct g}
    : result value * list string :=
  match g with
  | mkFilterGroup op conds =>
      match
        (fix map_items (l : list (FilterCondition + FilterGroup)) (errors : list string)
             {struct l} : result (list value) * list string :=
           match l with
           | [] => (Ok [], errors)
           | x :: rest =>
               match
                 match x with
                 | inl c => processFilterCondition c errors
                 | inr g' => processFilterGroup g' errors
                 end
               with
               | (Throw t, errors1) => (Throw t, errors1)
               | (Ok w, errors1) =>
                   match map_items rest errors1 with
                   | (Throw t, errors2) => (Throw t, errors2)
                   | (Ok ws, errors2) => (Ok (w :: ws), errors2)
                   end
               end
           end) conds errors
      with
      | (Ok ws, errors1) =>
          (Ok (VObj [(KSym (if String.eqb op "and" then Op_and else Op_or), VArr ws)]),
           errors1)
      | (Throw t, errors1) => (Throw t, errors1)
      end
  end.

(** [process]: the whole body is inside [try]; the [catch] pushes one more
    entry on the same [errors] array and returns an empty [where]. *)
Definition process (f : filters) : FilterResult :=
  match
    match f with
    | OfArray l => processFilterArray l []
    | OfGroup g => processFilterGroup g []
    | OfCondition c => processFilterCondition c []
    end
  with
  | (Ok w, errors) => mkFilterResult w errors []
  | (Throw t, errors) =>
      mkFilterResult (VObj []) (errors ++ ["Filter processing error: " +:+ message_of t]) []
  end.

End WithSchema.

End FilterProcessor.

(** ** builders/FilterBuilder.ts *)

Module FilterBuilder.
Import FilterProcessor.

(** [FilterOptions]: an object with string keys, in the order in which
    [Object.entries] lists them. *)
Definition FilterOptions := list (string * value).

Fixpoint get (o : FilterOptions) (k : string) : value :=
  match o with
  | [] => VUndefined
  | (k', v) :: r => if String.eqb k' k then v else get r k
  end.

(** The condition objects that the search branch nests inside a value. *)
Definition search_condition (search fld : value) : value :=
  VObj [(KStr "field", fld); (KStr "operator", VStr "contains");
        (KStr "value", search); (KStr "caseSensitive", VBool false)].

(** The builder is constructed with [new FilterProcessor()], whose schema
    is empty. *)
Definition processFromOptions (options : FilterOptions) : result FilterResult :=
  bind
    (if truthy (get options "search") && truthy (get options "searchFields") then
       match get options "searchFields" with
       | VArr l =>
           Ok [mkFilterCondition "__search__" "or"
                 (VArr (map (search_condition (get options "search")) l)) None]
       | _ => Throw (TypeError "options.searchFields.map is not a function")
       end
     else Ok [])
    (fun conditions =>
       let others :=
         omap (fun kv : string * value =>
                 if String.eqb kv.1 "search" || String.eqb kv.1 "searchFields" then None
                 else if is_nullish kv.2 then None
                 else Some (mkFilterCondition kv.1 "eq" kv.2 None))
              options in
       Ok (process ∅ (OfArray (conditions ++ others)))).

(** The builder's own state is the array [this.filters]. *)
Definition ValidationError (msg code : string) : thrown :=
  ThrowError (mkError "ValidationError" msg (Some code)).

(** The private [validateCondition], which throws. *)
Definition validateCondition (c : FilterCondition) : result unit :=
  if String.eqb (field c) "" then
    Throw (ValidationError "Filter field is required" "INVALID_FILTER_FIELD")
  else if String.eqb (operator c) "" then
    Throw (ValidationError "Filter operator is required" "INVALID_FILTER_OPERATOR")
  else if is_undefined (cvalue c) && negb (includes ["is"; "isNot"] (operator c)) then
    Throw (ValidationError "Filter value is required for this operator"
             "INVALID_FILTER_VALUE")
  else Ok tt.

Definition addFilter (filters : list FilterCondition) (c : FilterCondition)
    : result unit * list FilterCondition :=
  match validateCondition c with
  | Throw t => (Throw t, filters)
  | Ok _ => (Ok tt, filters ++ [c])
  end.

Definition validateFilterGroup (g : FilterGroup) : result unit :=
  match g with
  | mkFilterGroup op conds =>
      if String.eqb op "" || negb (includes ["and"; "or"] op) then
        Throw (ValidationError
                 ("Filter group operator must be " +:+ dquote +:+ "and" +:+ dquote
                  +:+ " or " +:+ dquote +:+ "or" +:+ dquote)
                 "INVALID_FILTER_GROUP_OPERATOR")
      else
        match conds with
        | [] =>
            Throw (ValidationError "Filter group must have at least one condition"
                     "INVALID_FILTER_GROUP_CONDITIONS")
        | _ :: _ => Ok tt
        end
  end.

(** [flattenFilterGroup]: the leaves are added one by one, left to right;
    the operators of the group and of its nested groups are not read. *)
Fixpoint flattenFilterGroup (filters : list FilterCondition) (g : FilterGroup) {struct g}
    : result unit * list FilterCondition :=
  match g with
  | mkFilterGroup _ conds =>
      (fix each (l : list (FilterCondition + FilterGroup)) (filters : list FilterCondition)
           {struct l} : result unit * list FilterCondition :=
         match l with
         | [] => (Ok tt, filters)
         | x :: rest =>
             match
               match x with
               | inl c => addFilter filters c
               | inr g' => flattenFilterGroup filters g'
               end
             with
             | (Throw t, filters1) => (Throw t, filters1)
             | (Ok _, filters1) => each rest filters1
             end
         end) conds filters
  end.

Definition addFilterGroup (filters : list FilterCondition) (g : FilterGroup)
    : result unit * list FilterCondition :=
  match validateFilterGroup g with
  | Throw t => (Throw t, filters)
  | Ok _ => flattenFilterGroup filters g
  end.

(** The pattern helpers; a [caseSensitive] argument that is left out is
    [true]. *)
Definition whereLike (filters : list FilterCondition) (field : string) (v : value)
    (caseSensitive : option bool) :=
  let cs := default true caseSensitive in
  addFilter filters (mkFilterCondition field (if cs then "like" else "iLike") v (Some cs)).

Definition whereStartsWith (filters : list FilterCondition) (field : string) (v : value)
    (caseSensitive : option bool) :=
  addFilter filters
    (mkFilterCondition field "startsWith" v (Some (default true caseSensitive))).

Definition whereContains (filters : list FilterCondition) (field : string) (v : value)
    (caseSensitive : option bool) :=
  addFilter filters
    (mkFilterCondition field "contains" v (Some (default true caseSensitive))).

(** [build]; the processor is the one the constructor made, with the empty
    schema. *)
Definition build (filters : list FilterCondition) : FilterResult :=
  match filters with
  | [] => mkFilterResult (VObj []) [] []
  | _ :: _ => process ∅ (OfArray filters)
  end.

End FilterBuilder.

(** ** utils/SortProcessor.ts *)

Module SortProcessor.

Record SortCondition := mkSortCondition {
  column : string;
  order : option string;
  nulls : option string;
  caseSensitive : option bool
}.

(** One entry of a [SortSchema]. *)
Record ColumnSchema := mkColumnSchema {
  allowed : bool;
  defaultOrder : option string;
  schema_nulls : option string;
  schema_caseSensitive : option bool
}.

(** The two members of the Sequelize instance that the processor calls. *)
Record Sequelize := mkSequelize {
  fn : string -> value -> value;
  col : string -> value
}.

Record SortResult := mkSortResult {
  order_ : value;
  errors : list string;
  warnings : list string
}.

(** Truth value of an optional string: [undefined] and [''] are falsy. *)
Definition str_truthy (s : option string) : bool :=
  match s with Some x => negb (String.eqb x "") | None => false end.

(** [a || b] on optional strings. *)
Definition str_or (a b : option string) : option string :=
  if str_truthy a then a else b.

Definition includes (l : list string) (s : string) : bool :=
  existsb (String.eqb s) l.

Definition validateCondition (c : SortCondition) : bool :=
  if String.eqb (column c) "" then false
  else if str_truthy (order c) && negb (includes ["ASC"; "DESC"] (default "" (order c)))
  then false
  else if str_truthy (nulls c) && negb (includes ["first"; "last"] (default "" (nulls c)))
  then false
  else true.

Section WithProcessor.

(** The own properties of [this.schema], an ordinary object. *)
Variable schema : gmap string ColumnSchema.
(** [this.sequelize] is [undefined] until [setSequelize] is called. *)
Variable sequelize : option Sequelize.

(** Returns [null] (here [None]) for a condition it rejects.  For a column
    that is not a property of the schema itself, [this.schema[condition.column]]
    is [undefined] unless the name is inherited from [Object.prototype]; what
    is inherited is truthy and has no [allowed], so the column is refused. *)
Definition processSortCondition (c : SortCondition) (errors : list string)
    : result (option value) * list string :=
  if negb (validateCondition c) then
    (Ok None, errors ++ ["Invalid sort condition for column: " +:+ column c])
  else
    let columnSchema := schema !! column c in
    if match columnSchema with
       | Some cs => negb (allowed cs)
       | None => prototype_member (column c)
       end then
      (Ok None, errors ++ ["Column '" +:+ column c +:+ "' is not allowed for sorting"])
    else
      let order :=
        default "ASC" (str_or (str_or (order c) (columnSchema ≫= defaultOrder)) (Some "ASC")) in
      let lowered :=
        bool_decide (caseSensitive c = Some false)
        || bool_decide (columnSchema ≫= schema_caseSensitive = Some false) in
      match
        (if lowered then
           match sequelize with
           | Some sq => Ok (fn sq "LOWER" (col sq (column c)))
           | None => Throw (TypeError "Cannot read properties of undefined (reading 'fn')")
           end
         else Ok (VStr (column c)))
      with
      | Throw t => (Throw t, errors)
      | Ok sortExpression =>
          let nulls := str_or (nulls c) (columnSchema ≫= schema_nulls) in
          let sortExpression :=
            if str_truthy nulls then
              VArr [sortExpression;
                    VStr (if bool_decide (nulls = Some "first") then "NULLS FIRST"
                          else "NULLS LAST")]
            else sortExpression in
          (Ok (Some (VArr [sortExpression; VStr order])), errors)
      end.

(** [sorts.map(...).filter(Boolean)] *)
Fixpoint processSortArray (l : list SortCondition) (errors : list string)
    : result (list value) * list string :=
  match l with
  | [] => (Ok [], errors)
  | c :: rest =>
      match processSortCondition c errors with
      | (Throw t, errors1) => (Throw t, errors1)
      | (Ok o, errors1) =>
          match processSortArray rest errors1 with
          | (Throw t, errors2) => (Throw t, errors2)
          | (Ok os, errors2) =>
              (Ok (match o with Some x => x :: os | None => os end), errors2)
          end
      end
  end.

Definition process (sorts : SortCondition + list SortCondition) : SortResult :=
  match
    match sorts with
    | inr l =>
        match processSortArray l [] with
        | (Ok os, errors) => (Ok (VArr os), errors)
        | (Throw t, errors) => (Throw t, errors)
        end
    | inl c =>
        match processSortCondition c [] with
        | (Ok o, errors) => (Ok (default VNull o), errors)
        | (Throw t, errors) => (Throw t, errors)
        end
    end
  with
  | (Ok order, errors) => mkSortResult order errors []
  | (Throw t, errors) =>
      mkSortResult (VArr []) (errors ++ ["Sort processing error: " +:+ message_of t]) []
  end.

End WithProcessor.

End SortProcessor.

(** ** builders/SortBuilder.ts *)

Module SortBuilder.
Import SortProcessor.

(** [SortOptions], every member optional. *)
Record SortOptions := mkSortOptions {
  column : option string;
  order : option string;
  nulls : option string;
  caseSensitive : option bool
}.

(** The builder owns [new SortProcessor()]: empty schema, and nothing ever
    calls [setSequelize] on it.  [options] is [undefined] when the caller
    indexed past the end of an array. *)
Definition processFromOptions (options : option SortOptions) : result SortResult :=
  match options with
  | None => Throw (TypeError "Cannot read properties of undefined (reading 'column')")
  | Some o =>
      let conditions :=
        if str_truthy (column o) && str_truthy (order o) then
          [mkSortCondition (default "" (column o)) (order o) (nulls o) (caseSensitive o)]
        else [] in
      Ok (SortProcessor.process ∅ None (inr conditions))
  end.

(** The builder's own state is the array [this.sorts]. *)
Definition ValidationError (msg code : string) : thrown :=
  ThrowError (mkError "ValidationError" msg (Some code)).

(** The private [validateCondition], which throws. *)
Definition validateCondition (c : SortCondition) : result unit :=
  if String.eqb (SortProcessor.column c) "" then
    Throw (ValidationError "Sort column is required" "INVALID_SORT_COLUMN")
  else if str_truthy (SortProcessor.order c)
          && negb (includes ["ASC"; "DESC"] (default "" (SortProcessor.order c))) then
    Throw (ValidationError
             ("Sort order must be " +:+ dquote +:+ "ASC" +:+ dquote +:+ " or "
              +:+ dquote +:+ "DESC" +:+ dquote) "INVALID_SORT_ORDER")
  else if str_truthy (SortProcessor.nulls c)
          && negb (includes ["first"; "last"] (default "" (SortProcessor.nulls c))) then
    Throw (ValidationError
             ("Sort nulls must be " +:+ dquote +:+ "first" +:+ dquote +:+ " or "
              +:+ dquote +:+ "last" +:+ dquote) "INVALID_SORT_NULLS")
  else Ok tt.

Definition addSort (sorts : list SortCondition) (c : SortCondition)
    : result unit * list SortCondition :=
  match validateCondition c with
  | Throw t => (Throw t, sorts)
  | Ok _ => (Ok tt, sorts ++ [c])
  end.

(** [conditions.forEach(condition => this.addSort(condition))] *)
Fixpoint addSorts (sorts : list SortCondition) (conditions : list SortCondition)
    : result unit * list SortCondition :=
  match conditions with
  | [] => (Ok tt, sorts)
  | c :: rest =>
      match addSort sorts c with
      | (Throw t, sorts1) => (Throw t, sorts1)
      | (Ok _, sorts1) => addSorts sorts1 rest
      end
  end.

(** [orderByDesc(column)] and [orderByCaseInsensitive(column, order = 'ASC')]. *)
Definition orderByDesc (sorts : list SortCondition) (column : string) :=
  addSort sorts (mkSortCondition column (Some "DESC") None None).

Definition orderByCaseInsensitive (sorts : list SortCondition) (column : string)
    (order : option string) :=
  addSort sorts (mkSortCondition column (Some (default "ASC" order)) None (Some false)).

(** [build]; the processor is the one the constructor made: it has no
    schema and no Sequelize instance. *)
Definition build (sorts : list SortCondition) : SortResult :=
  match sorts with
  | [] => mkSortResult (VArr []) [] []
  | _ :: _ => SortProcessor.process ∅ None (inr sorts)
  end.

Definition removeSortsByColumn (sorts : list SortCondition) (column : string)
    : list SortCondition :=
  List.filter (fun s => negb (String.eqb (SortProcessor.column s) column)) sorts.

Definition setPrimarySort (sorts : list SortCondition) (c : SortCondition)
    : result unit * list SortCondition :=
  match validateCondition c with
  | Throw t => (Throw t, sorts)
  | Ok _ =>
      (Ok tt, match sorts with [] => [c] | _ :: rest => c :: rest end)
  end.

Definition setSecondarySort (sorts : list SortCondition) (c : SortCondition)
    : result unit * list SortCondition :=
  match validateCondition c with
  | Throw t => (Throw t, sorts)
  | Ok _ =>
      (Ok tt,
       match sorts with
       | s0 :: _ :: rest => s0 :: c :: rest
       | _ => sorts ++ [c]
       end)
  end.

End SortBuilder.

(** ** builders/PaginationBuilder.ts *)

Module PaginationBuilder.

Record PaginationConfig := mkPaginationConfig {
  defaultPageSize : number;
  maxPageSize : number;
  enableOffset : bool;
  enableCursor : bool
}.

Record PaginationOptions := mkPaginationOptions {
  page : option number;
  pageSize : option number;
  offset : option number;
  limit : option number
}.

Record Resolved := mkResolved {
  r_offset : number;
  r_limit : number;
  r_page : number;
  r_pageSize : number
}.

Record Pagination := mkPagination {
  p_page : number;
  p_pageSize : number;
  total : number;
  totalPages : number;
  hasNext : bool;
  hasPrev : bool
}.

Record PaginationResult := mkPaginationResult {
  data : value;
  pagination : Pagination
}.

(** The constructor, from a partial configuration. *)
Definition new (defaultPageSize maxPageSize : option number)
    (enableOffset enableCursor : option bool) : PaginationConfig :=
  mkPaginationConfig
    (opt_num_or defaultPageSize (Int 10))
    (opt_num_or maxPageSize (Int 100))
    (negb (bool_decide (enableOffset = Some false)))
    (default false enableCursor).

(** [errors.join(', ')] *)
Fixpoint join (sep : string) (l : list string) : string :=
  match l with
  | [] => ""
  | [x] => x
  | x :: r => x +:+ sep +:+ join sep r
  end.

Section WithConfig.

Variable config : PaginationConfig.

Definition validate (options : PaginationOptions) : bool * list string :=
  let errors : list string := [] in
  let errors :=
    match page options with
    | Some p =>
        if negb (Number_isInteger p) || num_ltb p (Int 1)
        then errors ++ ["Page must be a positive integer"] else errors
    | None => errors
    end in
  let errors :=
    match pageSize options with
    | Some s =>
        if negb (Number_isInteger s) || num_ltb s (Int 1)
        then errors ++ ["Page size must be a positive integer"]
        else if num_gtb s (maxPageSize config)
        then errors ++ ["Page size cannot exceed " +:+ num_to_string (maxPageSize config)]
        else errors
    | None => errors
    end in
  let errors :=
    match offset options with
    | Some o =>
        if negb (Number_isInteger o) || num_ltb o (Int 0)
        then errors ++ ["Offset must be a non-negative integer"] else errors
    | None => errors
    end in
  let errors :=
    match limit options with
    | Some l =>
        if negb (Number_isInteger l) || num_ltb l (Int 1)
        then errors ++ ["Limit must be a positive integer"]
        else if num_gtb l (maxPageSize config)
        then errors ++ ["Limit cannot exceed " +:+ num_to_string (maxPageSize config)]
        else errors
    | None => errors
    end in
  let hasPageBased := defined (page options) || defined (pageSize options) in
  let hasOffsetBased := defined (offset options) || defined (limit options) in
  let errors :=
    if hasPageBased && hasOffsetBased
    then errors ++ ["Cannot use both page-based and offset-based pagination"]
    else errors in
  (bool_decide (errors = []), errors).

Definition calculateOffset (page pageSize : number) : number :=
  num_mul (num_sub page (Int 1)) pageSize.

Definition calculateTotalPages (total pageSize : number) : number :=
  Math_ceil_div total pageSize.

Definition PaginationError (msg code : string) : thrown :=
  ThrowError (mkError "PaginationError" msg (Some code)).

Definition process (options : PaginationOptions) : result Resolved :=
  let validation := validate options in
  if negb validation.1 then
    Throw (PaginationError ("Invalid pagination options: " +:+ join ", " validation.2)
             "INVALID_PAGINATION_OPTIONS")
  else
    let page := opt_num_or (page options) (Int 1) in
    let pageSize :=
      Math_min (opt_num_or (pageSize options) (defaultPageSize config))
               (maxPageSize config) in
    match offset options with
    | Some o =>
        if enableOffset config then
          Ok (mkResolved o (opt_num_or (limit options) (defaultPageSize config))
                page pageSize)
        else Ok (mkResolved (calculateOffset page pageSize) pageSize page pageSize)
    | None => Ok (mkResolved (calculateOffset page pageSize) pageSize page pageSize)
    end.

Definition buildResult (data : value) (total page pageSize : number) : PaginationResult :=
  let totalPages := calculateTotalPages total pageSize in
  mkPaginationResult data
    (mkPagination page pageSize total totalPages (num_ltb page totalPages)
       (num_gtb page (Int 1))).

Definition isEnabled (c : PaginationConfig) : bool :=
  num_gtb (defaultPageSize c) (Int 0).

Definition disable (c : PaginationConfig) : PaginationConfig :=
  mkPaginationConfig (Int 0) (maxPageSize c) (enableOffset c) (enableCursor c).

(** [enable(defaultPageSize = 10)] *)
Definition enable (c : PaginationConfig) (defaultPageSize' : option number)
    : PaginationConfig :=
  mkPaginationConfig (default (Int 10) defaultPageSize') (maxPageSize c)
    (enableOffset c) (enableCursor c).

(** The factories of errors/PaginationError.ts. *)
Definition invalidPage (page totalPages : number) : thrown :=
  PaginationError
    ("Invalid page number: " +:+ num_to_string page +:+ ". Must be between 1 and "
     +:+ num_to_string totalPages) "INVALID_PAGE".

Definition invalidOffset (offset total : number) : thrown :=
  PaginationError
    ("Invalid offset: " +:+ num_to_string offset +:+ ". Must be between 0 and "
     +:+ num_to_string (num_sub total (Int 1))) "INVALID_OFFSET".

Definition validatePage (page totalPages : number) : result unit :=
  if num_ltb page (Int 1) || num_gtb page totalPages
  then Throw (invalidPage page totalPages) else Ok tt.

Definition validateOffset (offset total : number) : result unit :=
  if num_ltb offset (Int 0) || num_geb offset total
  then Throw (invalidOffset offset total) else Ok tt.

Record Metadata := mkMetadata {
  m_page : number;
  m_pageSize : number;
  m_total : number;
  m_totalPages : number;
  m_hasNext : bool;
  m_hasPrev : bool;
  startIndex : number;
  endIndex : number
}.

Definition getMetadata (page pageSize total : number) : Metadata :=
  let totalPages := calculateTotalPages total pageSize in
  let startIndex := num_mul (num_sub page (Int 1)) pageSize in
  let endIndex :=
    Math_min (num_sub (num_add startIndex pageSize) (Int 1)) (num_sub total (Int 1)) in
  mkMetadata page pageSize total totalPages (num_ltb page totalPages)
    (num_gtb page (Int 1)) startIndex endIndex.

End WithConfig.

End PaginationBuilder.

(** ** utils/ValidationUtils.ts *)

Module ValidationUtils.
Import PaginationBuilder SortBuilder.

(** [{ isValid, data?, error? }] *)
Inductive validation (A : Type) := Valid (data : A) | Invalid (error : Error).
Arguments Valid {A} data.
Arguments Invalid {A} error.

Definition quoted (label : string) : string :=
  String (Ascii.ascii_of_nat 34) "" +:+ label +:+ String (Ascii.ascii_of_nat 34) "".

Definition MAX_SAFE_INTEGER : Z := 2 ^ 53 - 1.

(** The Joi rule [Joi.number().integer().min(lo).max(hi).optional()] on a
    member that is a number or absent; the result is the message of the
    first violation.  Joi is an external library: its documented behaviour
    for the schemas declared in [defaultSchemas] is written out here. *)
Definition joi_integer (label : string) (lo : Z) (hi : option Z) (v : option number)
    : option string :=
  match v with
  | None => None
  | Some NaN => Some (quoted label +:+ " must be a number")
  | Some PInf | Some NInf => Some (quoted label +:+ " cannot be infinity")
  | Some (Int z) =>
      if (MAX_SAFE_INTEGER <? z) || (z <? - MAX_SAFE_INTEGER) then
        Some (quoted label +:+ " must be a safe number")
      else if z <? lo then
        Some (quoted label +:+ " must be greater than or equal to " +:+ pretty lo)
      else
        match hi with
        | Some h =>
            if h <? z then
              Some (quoted label +:+ " must be less than or equal to " +:+ pretty h)
            else None
        | None => None
        end
  end.

(** [Joi.string().required()] and [Joi.string().valid(...)]. *)
Definition joi_string_required (label : string) (v : option string) : option string :=
  match v with
  | None => Some (quoted label +:+ " is required")
  | Some s =>
      if String.eqb s "" then Some (quoted label +:+ " is not allowed to be empty")
      else None
  end.

Definition joi_valid (label : string) (allowed : list string) (required : bool)
    (v : option string) : option string :=
  match v with
  | None => if required then Some (quoted label +:+ " is required") else None
  | Some s =>
      if existsb (String.eqb s) allowed then None
      else Some (quoted label +:+ " must be one of [" +:+ PaginationBuilder.join ", " allowed
                 +:+ "]")
  end.

(** The first message among the members, in the order of the schema. *)
Fixpoint first_error (l : list (option string)) : option string :=
  match l with
  | [] => None
  | Some m :: _ => Some m
  | None :: r => first_error r
  end.

(** [ValidationError.fromJoiError] *)
Definition fromJoiError (msg : string) : Error :=
  mkError "ValidationError" msg (Some "VALIDATION_ERROR").

Definition validatePagination (options : PaginationOptions) : validation PaginationOptions :=
  match
    first_error
      [joi_integer "page" 1 None (page options);
       joi_integer "pageSize" 1 (Some 1000) (pageSize options);
       joi_integer "offset" 0 None (offset options);
       joi_integer "limit" 1 (Some 1000) (limit options)]
  with
  | Some msg => Invalid (fromJoiError msg)
  | None => Valid options
  end.

(** Called by the builder with [allowedColumns] undefined. *)
Definition validateSorting (options : SortOptions) : validation SortOptions :=
  match
    first_error
      [joi_string_required "column" (column options);
       joi_valid "order" ["ASC"; "DESC"] true (order options);
       joi_valid "nulls" ["first"; "last"] false (nulls options)]
  with
  | Some msg => Invalid (fromJoiError msg)
  | None => Valid options
  end.

End ValidationUtils.

(** ** The JavaScript runtime: [Date.now()] and the console *)

Module Runtime.

(** [clock n] is what the [n]-th call of [Date.now()] returns. *)
Record t := mk {
  clock : nat -> Z;
  reads : nat;
  console : list string
}.

Definition Date_now (r : t) : Z * t :=
  (clock r (reads r), mk (clock r) (S (reads r)) (console r)).

Definition console_warn (msg : string) (r : t) : t :=
  mk (clock r) (reads r) (console r ++ [msg]).

End Runtime.

(** ** utils/PerformanceMonitor.ts *)

Module PerformanceMonitor.
Import Runtime.

Record PerformanceMetrics := mkMetrics {
  queryExecutionTime : number;
  totalExecutionTime : number;
  memoryUsage : number;
  queryCount : number;
  cacheHits : number;
  cacheMisses : number
}.

Record PerformanceMonitor := mkMonitor {
  metrics : gmap string PerformanceMetrics;
  enabled : bool;
  threshold : number
}.

(** What the monitor reads of a [QueryContext]. *)
Record QueryContext := mkContext {
  method : string;
  model_name : string;
  requestId : string
}.

(** The constructor; a default applies to an argument that is [undefined]. *)
Definition new (enabled : option bool) (threshold : option number) : PerformanceMonitor :=
  mkMonitor ∅ (default true enabled) (default (Int 1000) threshold).

Definition generateMonitorId (context : QueryContext) (rt : Runtime.t) : string * Runtime.t :=
  let '(now, rt) := Date_now rt in
  (method context +:+ "_" +:+ model_name context +:+ "_" +:+ requestId context
   +:+ "_" +:+ pretty now, rt).

Definition startMonitoring (pm : PerformanceMonitor) (context : QueryContext)
    (rt : Runtime.t) : string * PerformanceMonitor * Runtime.t :=
  if negb (enabled pm) then ("", pm, rt)
  else
    let '(monitorId, rt) := generateMonitorId context rt in
    (monitorId,
     mkMonitor
       (<[monitorId := mkMetrics (Int 0) (Int 0) (Int 0) (Int 0) (Int 0) (Int 0)]> (metrics pm))
       (enabled pm) (threshold pm),
     rt).

Definition endMonitoring (pm : PerformanceMonitor) (monitorId : string) (rt : Runtime.t)
    : option PerformanceMetrics * PerformanceMonitor * Runtime.t :=
  if negb (enabled pm) || String.eqb monitorId "" then (None, pm, rt)
  else
    match metrics pm !! monitorId with
    | None => (None, pm, rt)
    | Some m =>
        let '(endTime, rt) := Date_now rt in
        let '(now, rt) := Date_now rt in
        let m :=
          mkMetrics (queryExecutionTime m) (num_sub (Int endTime) (Int now))
            (memoryUsage m) (queryCount m) (cacheHits m) (cacheMisses m) in
        let rt :=
          if num_gtb (totalExecutionTime m) (threshold pm) then
            console_warn
              ("Query execution time (" +:+ num_to_string (totalExecutionTime m)
               +:+ "ms) exceeded threshold (" +:+ num_to_string (threshold pm) +:+ "ms)") rt
          else rt in
        (Some m, mkMonitor (delete monitorId (metrics pm)) (enabled pm) (threshold pm), rt)
    end.

Definition recordQueryExecution (pm : PerformanceMonitor) (monitorId : string)
    (executionTime : number) : PerformanceMonitor :=
  if negb (enabled pm) || String.eqb monitorId "" then pm
  else
    mkMonitor
      (alter (fun m =>
                mkMetrics (num_add (queryExecutionTime m) executionTime)
                  (totalExecutionTime m) (memoryUsage m) (num_add (queryCount m) (Int 1))
                  (cacheHits m) (cacheMisses m))
         monitorId (metrics pm))
      (enabled pm) (threshold pm).

Definition recordCacheHit (pm : PerformanceMonitor) (monitorId : string) : PerformanceMonitor :=
  if negb (enabled pm) || String.eqb monitorId "" then pm
  else
    mkMonitor
      (alter (fun m =>
                mkMetrics (queryExecutionTime m) (totalExecutionTime m) (memoryUsage m)
                  (queryCount m) (num_add (cacheHits m) (Int 1)) (cacheMisses m))
         monitorId (metrics pm))
      (enabled pm) (threshold pm).

Definition recordCacheMiss (pm : PerformanceMonitor) (monitorId : string) : PerformanceMonitor :=
  if negb (enabled pm) || String.eqb monitorId "" then pm
  else
    mkMonitor
      (alter (fun m =>
                mkMetrics (queryExecutionTime m) (totalExecutionTime m) (memoryUsage m)
                  (queryCount m) (cacheHits m) (num_add (cacheMisses m) (Int 1)))
         monitorId (metrics pm))
      (enabled pm) (threshold pm).

Definition recordMemoryUsage (pm : PerformanceMonitor) (monitorId : string)
    (memoryUsage' : number) : PerformanceMonitor :=
  if negb (enabled pm) || String.eqb monitorId "" then pm
  else
    mkMonitor
      (alter (fun m =>
                mkMetrics (queryExecutionTime m) (totalExecutionTime m) memoryUsage'
                  (queryCount m) (cacheHits m) (cacheMisses m))
         monitorId (metrics pm))
      (enabled pm) (threshold pm).

(** [getMetrics] reads the live map whether the monitor is enabled or not. *)
Definition getMetrics (pm : PerformanceMonitor) (monitorId : string)
    : option PerformanceMetrics :=
  metrics pm !! monitorId.

End PerformanceMonitor.

(** ** utils/CacheManager.ts *)

Module CacheManager.
Import Runtime.

Section WithValue.

(** What the cache holds; a reference when the value is an object. *)
Context {V : Type}.

Record MemoryCacheProvider := mkProvider {
  cache : gmap string (V * number);
  provider_defaultTTL : number
}.

Record CacheManager := mkCacheManager {
  provider : MemoryCacheProvider;
  enabled : bool;
  defaultTTL : number;
  keyPrefix : string
}.

Definition provider_get (p : MemoryCacheProvider) (key : string) (rt : Runtime.t)
    : option V * MemoryCacheProvider * Runtime.t :=
  match cache p !! key with
  | None => (None, p, rt)
  | Some (v, expires) =>
      let '(now, rt) := Date_now rt in
      if num_gtb (Int now) expires then
        (None, mkProvider (delete key (cache p)) (provider_defaultTTL p), rt)
      else (Some v, p, rt)
  end.

Definition provider_set (p : MemoryCacheProvider) (key : string) (v : V)
    (ttl : option number) (rt : Runtime.t) : MemoryCacheProvider * Runtime.t :=
  let '(now, rt) := Date_now rt in
  let expires :=
    num_add (Int now) (num_mul (opt_num_or ttl (provider_defaultTTL p)) (Int 1000)) in
  (mkProvider (<[key := (v, expires)]> (cache p)) (provider_defaultTTL p), rt).

(** [new CacheManager(new MemoryCacheProvider(), enabled, defaultTTL)] *)
Definition new (enabled : option bool) (defaultTTL : option number) : CacheManager :=
  mkCacheManager (mkProvider ∅ (Int 300)) (default false enabled)
    (default (Int 300) defaultTTL) "sqb:".

Definition isEnabled (c : CacheManager) : bool := enabled c.

Definition get (c : CacheManager) (key : string) (rt : Runtime.t)
    : option V * CacheManager * Runtime.t :=
  if negb (enabled c) then (None, c, rt)
  else
    let '(v, p, rt) := provider_get (provider c) (keyPrefix c +:+ key) rt in
    (v, mkCacheManager p (enabled c) (defaultTTL c) (keyPrefix c), rt).

(** [set(key, value, options)]; [ttl] is [options?.ttl]. *)
Definition set (c : CacheManager) (key : string) (v : V) (ttl : option number)
    (rt : Runtime.t) : CacheManager * Runtime.t :=
  if negb (enabled c) then (c, rt)
  else
    let '(p, rt) :=
      provider_set (provider c) (keyPrefix c +:+ key) v
        (Some (opt_num_or ttl (defaultTTL c))) rt in
    (mkCacheManager p (enabled c) (defaultTTL c) (keyPrefix c), rt).

Definition generateKey (prefix : string) (parts : list string) : string :=
  PaginationBuilder.join ":" (prefix :: parts).

Definition provider_del (p : MemoryCacheProvider) (key : string) : MemoryCacheProvider :=
  mkProvider (delete key (cache p)) (provider_defaultTTL p).

Definition provider_clear (p : MemoryCacheProvider) : MemoryCacheProvider :=
  mkProvider ∅ (provider_defaultTTL p).

Definition provider_has (p : MemoryCacheProvider) (key : string) (rt : Runtime.t)
    : bool * MemoryCacheProvider * Runtime.t :=
  match cache p !! key with
  | None => (false, p, rt)
  | Some (v, expires) =>
      let '(now, rt) := Date_now rt in
      if num_gtb (Int now) expires then
        (false, mkProvider (delete key (cache p)) (provider_defaultTTL p), rt)
      else (true, p, rt)
  end.

Definition provider_size (p : MemoryCacheProvider) : nat := size (cache p).

(** [cleanup]: one reading of the clock, then every entry that has expired
    by then is deleted. *)
Definition cleanup (p : MemoryCacheProvider) (rt : Runtime.t)
    : MemoryCacheProvider * Runtime.t :=
  let '(now, rt) := Date_now rt in
  (mkProvider
     (filter (fun kv : string * (V * number) => num_gtb (Int now) kv.2.2 = false) (cache p))
     (provider_defaultTTL p), rt).

Definition del (c : CacheManager) (key : string) : CacheManager :=
  if negb (enabled c) then c
  else
    mkCacheManager (provider_del (provider c) (keyPrefix c +:+ key)) (enabled c)
      (defaultTTL c) (keyPrefix c).

Definition clear (c : CacheManager) : CacheManager :=
  if negb (enabled c) then c
  else mkCacheManager (provider_clear (provider c)) (enabled c) (defaultTTL c) (keyPrefix c).

Definition has (c : CacheManager) (key : string) (rt : Runtime.t)
    : bool * CacheManager * Runtime.t :=
  if negb (enabled c) then (false, c, rt)
  else
    let '(b, p, rt) := provider_has (provider c) (keyPrefix c +:+ key) rt in
    (b, mkCacheManager p (enabled c) (defaultTTL c) (keyPrefix c), rt).

(** [getOrSet(key, factory, options)].  The factory is any computation on a
    state [S] of its own that returns a value or throws.  What decides
    whether it runs is the test [value === null] on what [get] returned:
    [get] returns [null] for a key without an entry, and also the value of
    an entry that holds [null]; [is_null] tells which values of [V] are
    [null]. *)
Definition getOrSet {S : Type} (is_null : V -> bool) (c : CacheManager) (key : string)
    (factory : S -> result V * S) (ttl : option number) (st : S) (rt : Runtime.t)
    : result V * CacheManager * S * Runtime.t :=
  let '(value, c, rt) := get c key rt in
  match (match value with Some v => if is_null v then None else Some v | None => None end)
  with
  | Some v => (Ok v, c, st, rt)
  | None =>
      match factory st with
      | (Throw t, st) => (Throw t, c, st, rt)
      | (Ok v, st) =>
          let '(c, rt) := set c key v ttl rt in
          (Ok v, c, st, rt)
      end
  end.

End WithValue.

Arguments MemoryCacheProvider V : clear implicits.
Arguments CacheManager V : clear implicits.

End CacheManager.

(** ** builders/JoinBuilder.ts *)

Module JoinBuilder.

(** [JoinOptions]; a member that is absent is [VUndefined]. *)
Record JoinOptions := mkJoinOptions {
  model : value;
  as_ : value;
  required : value;
  attributes : value;
  where_ : value;
  include : value
}.

Definition QueryError (msg code : string) : thrown :=
  ThrowError (mkError "QueryError" msg (Some code)).

Definition validateJoin (join : JoinOptions) : result unit :=
  if negb (truthy (model join)) then
    Throw (QueryError "Join model is required" "INVALID_JOIN_MODEL")
  else if truthy (attributes join) && negb (Array_isArray (attributes join)) then
    Throw (QueryError "Join attributes must be an array" "INVALID_JOIN_ATTRIBUTES")
  else if truthy (include join) && negb (Array_isArray (include join)) then
    Throw (QueryError "Join include must be an array" "INVALID_JOIN_INCLUDE")
  else Ok tt.

(** [addJoins]: the joins pushed before a failing one stay in [this.joins]. *)
Fixpoint addJoins (joins : list JoinOptions) (new : list JoinOptions)
    : result unit * list JoinOptions :=
  match new with
  | [] => (Ok tt, joins)
  | j :: rest =>
      match validateJoin j with
      | Throw t => (Throw t, joins)
      | Ok _ => addJoins (joins ++ [j]) rest
      end
  end.

(** [v.length > 0] *)
Definition nonempty (v : value) : bool :=
  match v with
  | VArr (_ :: _) => true
  | VStr s => negb (String.eqb s "")
  | _ => false
  end.

(** The include object that [buildInclude] makes of one join. *)
Definition buildInclude1 (join : JoinOptions) : value :=
  VObj
    ([(KStr "model", model join)]
     ++ (if negb (is_undefined (required join))
         then [(KStr "required", required join)] else [])
     ++ (if truthy (attributes join) then [(KStr "attributes", attributes join)] else [])
     ++ (if truthy (where_ join) then [(KStr "where", where_ join)] else [])
     ++ (if truthy (as_ join) then [(KStr "as", as_ join)] else [])
     ++ (if truthy (include join) && nonempty (include join)
         then [(KStr "include", include join)] else [])).

Definition build (joins : list JoinOptions) : value :=
  VArr (map buildInclude1 joins).

Definition clear (joins : list JoinOptions) : list JoinOptions := [].

End JoinBuilder.

(** ** builders/AdvancedQueryBuilder.ts *)

Module AdvancedQueryBuilder.
Import Runtime.

(** The members of the (partial) [QueryConfig] that the builder reads. *)
Record QueryConfig := mkQueryConfig {
  defaultPageSize : option number;
  maxPageSize : option number;
  enableCaching : option bool;
  cacheTTL : option number;
  performanceThreshold : option number;
  enablePerformanceMonitoring : option bool
}.

Record AdvancedQueryOptions := mkOptions {
  pagination : option PaginationBuilder.PaginationOptions;
  filters : option FilterBuilder.FilterOptions;
  sorting : option (list SortBuilder.SortOptions);
  joins : option (list JoinBuilder.JoinOptions);
  attributes : option (list string);
  where_ : option (list (key * value));
  group : option (list string);
  having : option (list (key * value));
  distinct : option bool;
  subQuery : option bool;
  benchmark : option bool;
  logging : option bool
}.

Definition empty_options : AdvancedQueryOptions :=
  mkOptions None None None None None None None None None None None None.

Record Performance := mkPerformance {
  executionTime : number;
  queryCount : number;
  cacheHit : bool
}.

(** The result envelope, [QueryResult]. *)
Record QueryResult := mkQueryResult {
  data : value;
  count : option number;
  result_pagination : option PaginationBuilder.Pagination;
  performance : option Performance
}.

(** The Sequelize model, the record store behind the builder. *)
Record Model := mkModel {
  name : string;
  findAll : value -> result value;
  model_count : value -> result number
}.

Inductive StoreCall := CallFindAll (options : value) | CallCount (options : value).

(** What lies outside the builder: the runtime, the calls the record store
    has received, and the heap of result envelopes.  An envelope is an object:
    the builder, the cache and the caller hold a reference to it, the index
    of the object in the heap. *)
Record world := mkWorld {
  rt : Runtime.t;
  calls : list StoreCall;
  heap : list QueryResult
}.

Record AdvancedQueryBuilder := mkBuilder {
  model : Model;
  config : QueryConfig;
  requestId : string;
  paginationBuilder : PaginationBuilder.PaginationConfig;
  joinBuilder : list JoinBuilder.JoinOptions;
  cacheManager : CacheManager.CacheManager nat;
  performanceMonitor : PerformanceMonitor.PerformanceMonitor;
  currentOptions : AdvancedQueryOptions
}.

(** The constructor.  [requestId] is what [generateRequestId] returned. *)
Definition new (model : Model) (config : QueryConfig) (requestId : string)
    : AdvancedQueryBuilder :=
  mkBuilder model config requestId
    (PaginationBuilder.new (defaultPageSize config) (maxPageSize config) None None)
    []
    (CacheManager.new (enableCaching config) (cacheTTL config))
    (PerformanceMonitor.new (enablePerformanceMonitoring config) (performanceThreshold config))
    empty_options.

Definition set_currentOptions (b : AdvancedQueryBuilder) (o : AdvancedQueryOptions)
    : AdvancedQueryBuilder :=
  mkBuilder (model b) (config b) (requestId b) (paginationBuilder b) (joinBuilder b)
    (cacheManager b) (performanceMonitor b) o.

Definition set_joinBuilder (b : AdvancedQueryBuilder) (j : list JoinBuilder.JoinOptions)
    : AdvancedQueryBuilder :=
  mkBuilder (model b) (config b) (requestId b) (paginationBuilder b) j
    (cacheManager b) (performanceMonitor b) (currentOptions b).

Definition set_cacheManager (b : AdvancedQueryBuilder) (c : CacheManager.CacheManager nat)
    : AdvancedQueryBuilder :=
  mkBuilder (model b) (config b) (requestId b) (paginationBuilder b) (joinBuilder b)
    c (performanceMonitor b) (currentOptions b).

Definition set_performanceMonitor (b : AdvancedQueryBuilder)
    (p : PerformanceMonitor.PerformanceMonitor) : AdvancedQueryBuilder :=
  mkBuilder (model b) (config b) (requestId b) (paginationBuilder b) (joinBuilder b)
    (cacheManager b) p (currentOptions b).

Definition set_pagination (o : AdvancedQueryOptions)
    (p : option PaginationBuilder.PaginationOptions) : AdvancedQueryOptions :=
  mkOptions p (filters o) (sorting o) (joins o) (attributes o) (where_ o) (group o)
    (having o) (distinct o) (subQuery o) (benchmark o) (logging o).

Definition set_sorting (o : AdvancedQueryOptions)
    (s : option (list SortBuilder.SortOptions)) : AdvancedQueryOptions :=
  mkOptions (pagination o) (filters o) s (joins o) (attributes o) (where_ o) (group o)
    (having o) (distinct o) (subQuery o) (benchmark o) (logging o).

Definition withPagination (b : AdvancedQueryBuilder)
    (options : PaginationBuilder.PaginationOptions) : result AdvancedQueryBuilder :=
  match ValidationUtils.validatePagination options with
  | ValidationUtils.Invalid error => Throw (ThrowError error)
  | ValidationUtils.Valid data =>
      Ok (set_currentOptions b (set_pagination (currentOptions b) (Some data)))
  end.

Definition withSorting (b : AdvancedQueryBuilder) (options : SortBuilder.SortOptions)
    : result AdvancedQueryBuilder :=
  match ValidationUtils.validateSorting options with
  | ValidationUtils.Invalid error => Throw (ThrowError error)
  | ValidationUtils.Valid data =>
      Ok (set_currentOptions b (set_sorting (currentOptions b) (Some [data])))
  end.



(** [reset]: the specification and the joins are emptied.  (It also clears
    the lists of the filter and the sort builder, which [execute] never
    reads and which are not part of this record.) *)
Definition reset (b : AdvancedQueryBuilder) : AdvancedQueryBuilder :=
  set_joinBuilder (set_currentOptions b empty_options) (JoinBuilder.clear (joinBuilder b)).

Definition ValidationError (msg code : string) : thrown :=
  ThrowError (mkError "ValidationError" msg (Some code)).

(** The entries that an object spread copies out of [v]; [undefined]
    contributes none. *)
Definition spread_entries (v : value) : list (key * value) :=
  match v with VObj l => l | _ => [] end.

Fixpoint obj_delete (o : list (key * value)) (k : key) : list (key * value) :=
  match o with
  | [] => []
  | (k', v) :: r => if decide (k' = k) then r else (k', v) :: obj_delete r k
  end.

Definition strings (l : list string) : value := VArr (map VStr l).
Definition opt_set (o : list (key * value)) (k : string) (v : option value)
    : list (key * value) :=
  match v with Some x => obj_set o (KStr k) x | None => o end.

(** [buildQueryOptions]; the only state it changes is the join builder, to
    which it adds the joins of the specification on every call. *)
Definition buildQueryOptions (b : AdvancedQueryBuilder)
    : result (list (key * value)) * AdvancedQueryBuilder :=
  let cur := currentOptions b in
  let options : list (key * value) := [] in
  match
    match pagination cur with
    | Some p =>
        bind (PaginationBuilder.process (paginationBuilder b) p) (fun r =>
          Ok (obj_set (obj_set options (KStr "offset") (VNum (PaginationBuilder.r_offset r)))
                (KStr "limit") (VNum (PaginationBuilder.r_limit r))))
    | None => Ok options
    end
  with
  | Throw t => (Throw t, b)
  | Ok options =>
  match
    match filters cur with
    | Some f =>
        bind (FilterBuilder.processFromOptions f) (fun filterResult =>
          match FilterProcessor.errors filterResult with
          | [] => Ok (obj_set options (KStr "where") (FilterProcessor.where_ filterResult))
          | _ :: _ =>
              Throw (ValidationError
                       ("Filter errors: "
                        +:+ PaginationBuilder.join ", " (FilterProcessor.errors filterResult))
                       "FILTER_PROCESSING_ERROR")
          end)
    | None => Ok options
    end
  with
  | Throw t => (Throw t, b)
  | Ok options =>
  match
    match sorting cur with
    | Some s =>
        bind (SortBuilder.processFromOptions (s !! 0%nat)) (fun sortResult =>
          match SortProcessor.errors sortResult with
          | [] => Ok (obj_set options (KStr "order") (SortProcessor.order_ sortResult))
          | _ :: _ =>
              Throw (ValidationError
                       ("Sort errors: "
                        +:+ PaginationBuilder.join ", " (SortProcessor.errors sortResult))
                       "SORT_PROCESSING_ERROR")
          end)
    | None => Ok options
    end
  with
  | Throw t => (Throw t, b)
  | Ok options =>
  match
    match joins cur with
    | Some js =>
        match JoinBuilder.addJoins (joinBuilder b) js with
        | (Throw t, joins') => (Throw t, set_joinBuilder b joins')
        | (Ok _, joins') =>
            (Ok (obj_set options (KStr "include") (JoinBuilder.build joins')),
             set_joinBuilder b joins')
        end
    | None => (Ok options, b)
    end
  with
  | (Throw t, b) => (Throw t, b)
  | (Ok options, b) =>
      let options := opt_set options "attributes" (strings <$> attributes cur) in
      let options :=
        match where_ cur with
        | Some w =>
            obj_set options (KStr "where")
              (VObj (obj_spread (spread_entries (obj_get options (KStr "where"))) w))
        | None => options
        end in
      let options := opt_set options "group" (strings <$> group cur) in
      let options := opt_set options "having" (VObj <$> having cur) in
      let options :=
        if bool_decide (distinct cur = Some true)
        then obj_set options (KStr "distinct") (VBool true) else options in
      let options := opt_set options "subQuery" (VBool <$> subQuery cur) in
      let options := opt_set options "benchmark" (VBool <$> benchmark cur) in
      let options := opt_set options "logging" (VBool <$> logging cur) in
      (Ok options, b)
  end end end end.

Definition countOptions (queryOptions : list (key * value)) : list (key * value) :=
  obj_delete (obj_delete (obj_delete (obj_delete queryOptions (KStr "offset"))
    (KStr "limit")) (KStr "order")) (KStr "attributes").

(** [QueryError.fromError(error, code)]: reading [error.message] fails when
    what was thrown is [null] or [undefined]. *)
Definition fromError (t : thrown) (code : string) : thrown :=
  match t with
  | ThrowError e => ThrowError (mkError "QueryError" (err_message e) (Some code))
  | ThrowValue VNull => TypeError "Cannot read properties of null (reading 'message')"
  | ThrowValue VUndefined =>
      TypeError "Cannot read properties of undefined (reading 'message')"
  | ThrowValue (VObj l) =>
      ThrowError
        (mkError "QueryError"
           (match obj_get l (KStr "message") with VUndefined => "" | m => String_of m end)
           (Some code))
  | ThrowValue _ => ThrowError (mkError "QueryError" "" (Some code))
  end.

Section WithJSON.

(** [JSON.stringify] on the current options; it throws on a cyclic value. *)
Variable JSON_stringify : AdvancedQueryOptions -> result string.

Definition generateCacheKey (b : AdvancedQueryBuilder) (suffix : string) : result string :=
  bind (JSON_stringify (currentOptions b)) (fun json =>
    Ok (CacheManager.generateKey "query" [name (model b); json; suffix])).

Definition to_QueryResult (r : PaginationBuilder.PaginationResult) : QueryResult :=
  mkQueryResult (PaginationBuilder.data r) None (Some (PaginationBuilder.pagination r)) None.

Definition set_performance (r : QueryResult) (p : Performance) : QueryResult :=
  mkQueryResult (data r) (count r) (result_pagination r) (Some p).

(** The body of the [try] block of [execute]; the value returned is the
    reference to the envelope. *)
Definition execute_try (b : AdvancedQueryBuilder) (w : world) (monitorId : string)
    : result nat * AdvancedQueryBuilder * world :=
  match generateCacheKey b "" with
  | Throw t => (Throw t, b, w)
  | Ok cacheKey =>
  let '(cached, cm, rt1) :=
    if CacheManager.isEnabled (cacheManager b)
    then CacheManager.get (cacheManager b) cacheKey (rt w)
    else (None, cacheManager b, rt w) in
  let b := set_cacheManager b cm in
  let w := mkWorld rt1 (calls w) (heap w) in
  match cached with
  | Some ref =>
      (Ok ref,
       set_performanceMonitor b
         (PerformanceMonitor.recordCacheHit (performanceMonitor b) monitorId), w)
  | None =>
  match buildQueryOptions b with
  | (Throw t, b) => (Throw t, b, w)
  | (Ok queryOptions, b) =>
  let '(startTime, rt2) := Date_now (rt w) in
  let w := mkWorld rt2 (calls w ++ [CallFindAll (VObj queryOptions)]) (heap w) in
  match findAll (model b) (VObj queryOptions) with
  | Throw t => (Throw t, b, w)
  | Ok rows =>
  let '(now, rt3) := Date_now (rt w) in
  let w := mkWorld rt3 (calls w) (heap w) in
  let executionTime := num_sub (Int now) (Int startTime) in
  let b :=
    set_performanceMonitor b
      (PerformanceMonitor.recordQueryExecution (performanceMonitor b) monitorId
         executionTime) in
  match
    match pagination (currentOptions b) with
    | Some p =>
        match PaginationBuilder.process (paginationBuilder b) p with
        | Throw t => (Throw t, w)
        | Ok r =>
            let w :=
              mkWorld (rt w)
                (calls w ++ [CallCount (VObj (countOptions queryOptions))]) (heap w) in
            match model_count (model b) (VObj (countOptions queryOptions)) with
            | Throw t => (Throw t, w)
            | Ok total =>
                (Ok (to_QueryResult
                       (PaginationBuilder.buildResult rows total
                          (PaginationBuilder.r_page r) (PaginationBuilder.r_pageSize r))), w)
            end
        end
    | None =>
        (Ok (mkQueryResult rows None None (Some (mkPerformance executionTime (Int 1) false))),
         w)
    end
  with
  | (Throw t, w) => (Throw t, b, w)
  | (Ok finalResult, w) =>
  let ref := length (heap w) in
  let w := mkWorld (rt w) (calls w) (heap w ++ [finalResult]) in
  let '(cm, rt4) :=
    if CacheManager.isEnabled (cacheManager b)
    then CacheManager.set (cacheManager b) cacheKey ref None (rt w)
    else (cacheManager b, rt w) in
  let b := set_cacheManager b cm in
  let '(metrics, pm, rt5) :=
    PerformanceMonitor.endMonitoring (performanceMonitor b) monitorId rt4 in
  let b := set_performanceMonitor b pm in
  let heap5 :=
    match metrics with
    | Some m =>
        alter (fun r =>
                 set_performance r
                   (mkPerformance (PerformanceMonitor.totalExecutionTime m)
                      (PerformanceMonitor.queryCount m) false))
          ref (heap w)
    | None => heap w
    end in
  (Ok ref, b, mkWorld rt5 (calls w) heap5)
  end end end end end.

Definition execute (b : AdvancedQueryBuilder) (w : world)
    : result nat * AdvancedQueryBuilder * world :=
  let '(_, rt0) := Date_now (rt w) in
  let '(monitorId, pm, rt1) :=
    PerformanceMonitor.startMonitoring (performanceMonitor b)
      (PerformanceMonitor.mkContext "findAll" (name (model b)) (requestId b)) rt0 in
  match
    execute_try (set_performanceMonitor b pm) (mkWorld rt1 (calls w) (heap w)) monitorId
  with
  | (Ok ref, b, w) => (Ok ref, b, w)
  | (Throw t, b, w) =>
      let '(_, pm, rt2) :=
        PerformanceMonitor.endMonitoring (performanceMonitor b) monitorId (rt w) in
      (Throw (fromError t "ADVANCED_QUERY_ERROR"), set_performanceMonitor b pm,
       mkWorld rt2 (calls w) (heap w))
  end.

End WithJSON.

End AdvancedQueryBuilder.

(** ** index.ts *)

Module Index.
Import AdvancedQueryBuilder.

Definition defaultConfig : QueryConfig :=
  mkQueryConfig (Some (Int 10)) (Some (Int 100)) (Some false) (Some (Int 300))
    (Some (Int 1000)) (Some true).

(** [o ?? d] for an optional member of the caller's configuration. *)
Definition over {A} (o d : option A) : option A :=
  match o with Some _ => o | None => d end.

(** [createQueryBuilder(model, config)]: the defaults, overridden by the
    members that [config] has. *)
Definition createQueryBuilder (model : Model) (config : QueryConfig) (requestId : string)
    : AdvancedQueryBuilder :=
  new model
    (mkQueryConfig
       (over (defaultPageSize config) (defaultPageSize defaultConfig))
       (over (maxPageSize config) (maxPageSize defaultConfig))
       (over (enableCaching config) (enableCaching defaultConfig))
       (over (cacheTTL config) (cacheTTL defaultConfig))
       (over (performanceThreshold config) (performanceThreshold defaultConfig))
       (over (enablePerformanceMonitoring config) (enablePerformanceMonitoring defaultConfig)))
    requestId.

End Index.

(** ** Vocabulary of the statements *)

Module Vocabulary.
Import FilterProcessor.

(** The case labels of the [switch] in [processOperator]. *)
Definition supported_operators : list string :=
  ["eq"; "ne"; "gt"; "gte"; "lt"; "lte"; "like"; "notLike"; "iLike"; "notILike";
   "in"; "notIn"; "between"; "notBetween"; "is"; "isNot"; "startsWith"; "endsWith";
   "contains"; "regexp"; "notRegexp"].

Definition supported (operator : string) : bool := includes supported_operators operator.

(** The Sequelize operators that match a pattern without regard to case
    ([ILIKE] and [NOT ILIKE]); [Op.like] and [Op.notLike] regard it. *)
Definition case_insensitive (o : Op) : bool :=
  match o with Op_iLike | Op_notILike => true | _ => false end.




Definition with_caseSensitive (c : FilterCondition) (cs : option bool) : FilterCondition :=
  mkFilterCondition (field c) (operator c) (cvalue c) cs.


(** A record store with no rows, for the examples. *)
Definition empty_store : AdvancedQueryBuilder.Model :=
  AdvancedQueryBuilder.mkModel "User" (fun _ => Ok (VArr [])) (fun _ => Ok (Int 0)).

Definition no_overrides : AdvancedQueryBuilder.QueryConfig :=
  AdvancedQueryBuilder.mkQueryConfig None None None None None None.

(** The envelope does not say that it was served from the cache: its
    [performance] is absent or has [cacheHit: false]. *)
Definition never_hit (e : AdvancedQueryBuilder.QueryResult) : Prop :=
  match AdvancedQueryBuilder.performance e with
  | Some p => AdvancedQueryBuilder.cacheHit p = false
  | None => True
  end.

(** [JSON.stringify] for the examples, which all run on the empty
    specification. *)
Definition stringify_empty (o : AdvancedQueryBuilder.AdvancedQueryOptions) : result string :=
  Ok "{}".

Definition caching_on : AdvancedQueryBuilder.QueryConfig :=
  AdvancedQueryBuilder.mkQueryConfig None None (Some true) None None None.

(** A clock that advances by one millisecond at every reading. *)
Definition ticking : Runtime.t := Runtime.mk (fun n => Z.of_nat n) 0 [].

(** A safe integer ([Number.isSafeInteger]): between [-(2^53 - 1)] and
    [2^53 - 1]. *)
Definition safe_integer (z : Z) : Prop :=
  - ValidationUtils.MAX_SAFE_INTEGER <= z <= ValidationUtils.MAX_SAFE_INTEGER.

(** The options have page-based members and offset-based members at once. *)
Definition both_modes (o : PaginationBuilder.PaginationOptions) : bool :=
  (defined (PaginationBuilder.page o) || defined (PaginationBuilder.pageSize o))
  && (defined (PaginationBuilder.offset o) || defined (PaginationBuilder.limit o)).

(** An optional member is absent or an integer that is at least [lo]. *)
Definition int_at_least (lo : Z) (v : option number) : bool :=
  match v with
  | None => true
  | Some (Int z) => lo <=? z
  | Some _ => false
  end.

(** An optional member is absent or does not exceed the maximum page size. *)
Definition within_max (config : PaginationBuilder.PaginationConfig) (v : option number)
    : bool :=
  match v with
  | None => true
  | Some n => negb (num_gtb n (PaginationBuilder.maxPageSize config))
  end.

(** The options that [PaginationBuilder.validate] is written to accept. *)
Definition well_formed (config : PaginationBuilder.PaginationConfig)
    (o : PaginationBuilder.PaginationOptions) : bool :=
  int_at_least 1 (PaginationBuilder.page o)
  && int_at_least 1 (PaginationBuilder.pageSize o)
  && within_max config (PaginationBuilder.pageSize o)
  && int_at_least 0 (PaginationBuilder.offset o)
  && int_at_least 1 (PaginationBuilder.limit o)
  && within_max config (PaginationBuilder.limit o)
  && negb (both_modes o).

End Vocabulary.

(** ** Vocabulary of the further properties *)

Module Terms.

(** The TTL, in seconds, that an entry gets from [CacheManager.set]: the
    one given, else the default of the manager, else the default of the
    provider, each being skipped when it is falsy. *)
Definition effective_ttl {V : Type} (c : CacheManager.CacheManager V) (ttl : option number)
    : number :=
  num_or (opt_num_or ttl (CacheManager.defaultTTL c))
    (CacheManager.provider_defaultTTL (CacheManager.provider c)).

(** The calls a query makes on its monitor handle between [startMonitoring]
    and [endMonitoring]. *)
Inductive recording :=
  | Execution (elapsed : Z)
  | CacheHit
  | CacheMiss
  | Memory (bytes : Z).

Definition record (pm : PerformanceMonitor.PerformanceMonitor) (monitorId : string)
    (e : recording) : PerformanceMonitor.PerformanceMonitor :=
  match e with
  | Execution t => PerformanceMonitor.recordQueryExecution pm monitorId (Int t)
  | CacheHit => PerformanceMonitor.recordCacheHit pm monitorId
  | CacheMiss => PerformanceMonitor.recordCacheMiss pm monitorId
  | Memory n => PerformanceMonitor.recordMemoryUsage pm monitorId (Int n)
  end.

Definition record_all (pm : PerformanceMonitor.PerformanceMonitor) (monitorId : string)
    (l : list recording) : PerformanceMonitor.PerformanceMonitor :=
  fold_left (fun pm e => record pm monitorId e) l pm.

(** The tallies of a list of recordings, on top of the counters [m]. *)
Fixpoint tally (m : Z * Z * Z * Z * Z) (l : list recording) : Z * Z * Z * Z * Z :=
  match l with
  | [] => m
  | e :: r =>
      let '(time, memory, queries, hits, misses) := m in
      tally
        match e with
        | Execution t => (time + t, memory, queries + 1, hits, misses)
        | CacheHit => (time, memory, queries, hits + 1, misses)
        | CacheMiss => (time, memory, queries, hits, misses + 1)
        | Memory n => (time, n, queries, hits, misses)
        end r
  end.

(** The counters that [recordQueryExecution], [recordCacheHit] and
    [recordCacheMiss] add to are safe integers. *)
Definition safe_tally (m : Z * Z * Z * Z * Z) : Prop :=
  let '(time, memory, queries, hits, misses) := m in
  Vocabulary.safe_integer time /\ Vocabulary.safe_integer queries /\
  Vocabulary.safe_integer hits /\ Vocabulary.safe_integer misses.

Definition metrics_of (m : Z * Z * Z * Z * Z) (total : number)
    : PerformanceMonitor.PerformanceMetrics :=
  let '(time, memory, queries, hits, misses) := m in
  PerformanceMonitor.mkMetrics (Int time) total (Int memory) (Int queries) (Int hits)
    (Int misses).

(** The handle that [startMonitoring] makes when the clock reads [now]. *)
Definition handle (context : PerformanceMonitor.QueryContext) (now : Z) : string :=
  PerformanceMonitor.method context +:+ "_" +:+ PerformanceMonitor.model_name context
  +:+ "_" +:+ PerformanceMonitor.requestId context +:+ "_" +:+ pretty now.

Definition no_metrics : PerformanceMonitor.PerformanceMetrics :=
  PerformanceMonitor.mkMetrics (Int 0) (Int 0) (Int 0) (Int 0) (Int 0) (Int 0).

(** The elements of an array value. *)
Definition elements (v : value) : list value :=
  match v with VArr l => l | _ => [] end.

(** The sort condition passes the builder's own validation. *)
Definition sort_accepted (c : SortProcessor.SortCondition) : Prop :=
  SortBuilder.validateCondition c = Ok tt.

(** The ordering instruction of a condition that is compared as it is:
    [[column, order]], or [[[column, 'NULLS FIRST' | 'NULLS LAST'], order]]. *)
Definition plain_instruction (c : SortProcessor.SortCondition) : value :=
  VArr [(if SortProcessor.str_truthy (SortProcessor.nulls c)
         then VArr [VStr (SortProcessor.column c);
                    VStr (if bool_decide (SortProcessor.nulls c = Some "first")
                          then "NULLS FIRST" else "NULLS LAST")]
         else VStr (SortProcessor.column c));
        VStr (if SortProcessor.str_truthy (SortProcessor.order c)
              then default "" (SortProcessor.order c) else "ASC")].

(** The filter condition passes the builder's own validation. *)
Definition filter_accepted (c : FilterProcessor.FilterCondition) : Prop :=
  FilterBuilder.validateCondition c = Ok tt.

(** The conditions at the leaves of a filter group, left to right. *)
Fixpoint leaves (g : FilterProcessor.FilterGroup) : list FilterProcessor.FilterCondition :=
  match g with
  | FilterProcessor.mkFilterGroup _ conds =>
      (fix each (l : list (FilterProcessor.FilterCondition + FilterProcessor.FilterGroup))
         : list FilterProcessor.FilterCondition :=
         match l with
         | [] => []
         | inl c :: rest => c :: each rest
         | inr g' :: rest => leaves g' ++ each rest
         end) conds
  end.

(** The equality predicate [{ [key]: value }] of one entry of the options. *)
Definition equality (kv : string * value) : value := VObj [(KStr kv.1, kv.2)].

(** A record store that is out of reach: every [findAll] fails. *)
Definition failing_store : AdvancedQueryBuilder.Model :=
  AdvancedQueryBuilder.mkModel "User"
    (fun _ => Throw (ThrowError (mkError "SequelizeConnectionError" "connection refused" None)))
    (fun _ => Ok (Int 0)).

(** The join [{ model: name }]. *)
Definition join_of (name : string) : JoinBuilder.JoinOptions :=
  JoinBuilder.mkJoinOptions (VStr name) VUndefined VUndefined VUndefined VUndefined
    VUndefined.

(** The specification that has only joins. *)
Definition only_joins (js : list JoinBuilder.JoinOptions)
    : AdvancedQueryBuilder.AdvancedQueryOptions :=
  AdvancedQueryBuilder.mkOptions None None None (Some js) None None None None None None None
    None.

End Terms.

(** Turns the boolean tests among the hypotheses into propositions. *)
Ltac bool_hyps :=
  repeat match goal with
    | H : _ || _ = true |- _ => apply orb_true_iff in H; destruct H
    | H : _ || _ = false |- _ => apply orb_false_iff in H; destruct H
    | H : _ && _ = true |- _ => apply andb_true_iff in H; destruct H
    | H : negb _ = true |- _ => apply negb_true_iff in H
    | H : negb _ = false |- _ => apply negb_false_iff in H
    | H : (_ <? _) = true |- _ => apply Z.ltb_lt in H
    | H : (_ <? _) = false |- _ => apply Z.ltb_ge in H
    | H : (_ <=? _) = true |- _ => apply Z.leb_le in H
    | H : (_ <=? _) = false |- _ => apply Z.leb_gt in H
    end.

(** * Properties *)

(** ** Numbers *)

Section Numbers.

(** Below [2^53] in absolute value every integer is a double: the
    arithmetic is exact. *)
Lemma round_double_safe (z : Z) :
  - 2 ^ 53 < z < 2 ^ 53 -> round_double z = Int z.
Proof.
  intros Hz. unfold round_double.
  assert ((Z.abs z <? 2 ^ 53) = true) as -> by lia. reflexivity.
Qed.

Lemma round_half_even_bounds (num den : Z) :
  0 < den ->
  num / den <= round_half_even num den <= num / den + 1 /\
  (num mod den = 0 -> round_half_even num den = num / den) /\
  (den < 2 * (num mod den) -> round_half_even num den = num / den + 1).
Proof.
  intros Hden. unfold round_half_even.
  destruct (Z.ltb_spec (2 * (num mod den)) den);
    [|destruct (Z.ltb_spec den (2 * (num mod den))); [|destruct (Z.even (num / den))]];
    repeat split; intros; lia.
Qed.

(** [Math.ceil(x / y)] is the ceiling of the exact quotient when [x] is a
    safe integer that is not negative, and [y] is positive. *)
Lemma ceil_quotient_safe (x y : Z) :
  0 <= x < 2 ^ 53 -> 1 <= y -> ceil_quotient x y = Int (- ((- x) / y)).
Proof.
  intros Hx Hy. unfold ceil_quotient.
  pose proof (Z.div_mod (- x) y ltac:(lia)) as Hc.
  pose proof (Z.mod_pos_bound (- x) y ltac:(lia)) as Hcm.
  set (c := - ((- x) / y)) in *.
  destruct (Z.eqb_spec x 0) as [-> | Hx0].
  { subst c. reflexivity. }
  assert ((0 <? x) = true) as -> by lia. assert ((0 <? y) = true) as -> by lia.
  cbn [Bool.eqb]. rewrite !Z.abs_eq by lia.
  destruct (Z.ltb_spec x y) as [Hlt | Hge].
  { f_equal. nia. }
  assert (1 <= x / y) as Hq by (apply Z.div_le_lower_bound; lia).
  assert (x / y <= x) as Hqx by (apply Z.div_le_upper_bound; nia).
  pose proof (Z.log2_spec (x / y) ltac:(lia)) as [Hlo Hhi].
  pose proof (Z.log2_nonneg (x / y)) as Hk0.
  set (k := Z.log2 (x / y)) in *.
  assert (k <= 52) as Hk.
  { destruct (Z.le_gt_cases k 52); [assumption|]. exfalso.
    assert (2 ^ 53 <= 2 ^ k) by (apply Z.pow_le_mono_r; lia). lia. }
  assert ((0 <? k - 52) = false) as -> by lia.
  replace (- (k - 52)) with (52 - k) by lia.
  set (S := 2 ^ (52 - k)).
  assert (0 < S) as HS by (apply Z.pow_pos_nonneg; lia).
  assert (2 ^ k * S = 2 ^ 52) as Hpow.
  { unfold S. rewrite <- Z.pow_add_r by lia. f_equal. lia. }
  assert (y * 2 ^ k <= x) as Hyx.
  { pose proof (Z.mul_div_le x y ltac:(lia)). nia. }
  assert (y < 2 * S) as HyS.
  { assert (y * 2 ^ k < 2 ^ 53) by lia.
    assert (2 ^ 53 = 2 * 2 ^ 52) as E by reflexivity.
    rewrite E, <- Hpow in H. nia. }
  destruct (round_half_even_bounds (x * S) y ltac:(lia)) as (Hb & Hexact & Hup).
  pose proof (Z.div_mod (x * S) y ltac:(lia)) as Hd.
  pose proof (Z.mod_pos_bound (x * S) y ltac:(lia)) as Hdm.
  set (m := round_half_even (x * S) y) in *.
  set (q := x * S / y) in *. set (r := (x * S) mod y) in *.
  f_equal.
  (* (c - 1) * S < m <= c * S *)
  assert (m <= c * S) as Hupper.
  { destruct (Z.eq_dec r 0) as [Hr0 | Hr0]; [rewrite Hexact by assumption; nia|].
    assert (q < c * S) by nia. lia. }
  assert ((c - 1) * S < m) as Hlower.
  { destruct (Z_lt_le_dec ((c - 1) * S) q) as [Hq1 | Hq1]; [lia|].
    assert (q = (c - 1) * S) as Hqe by nia.
    assert (r = (x - (c - 1) * y) * S) as Hre by nia.
    assert (1 <= x - (c - 1) * y) by nia.
    rewrite Hup by nia. lia. }
  pose proof (Z.div_mod (- m) S ltac:(lia)) as Hm.
  pose proof (Z.mod_pos_bound (- m) S ltac:(lia)) as Hmm.
  nia.
Qed.

Lemma num_to_string_safe (z : Z) :
  - 2 ^ 53 < z < 2 ^ 53 -> num_to_string (Int z) = pretty z.
Proof.
  intros Hz. unfold num_to_string.
  assert ((Z.abs z <? 2 ^ 53) = true) as -> by lia. reflexivity.
Qed.

(** Rounding keeps the sign. *)
Lemma round_double_nonpos (z : Z) :
  z <= 0 -> round_double z = NInf \/ exists r, round_double z = Int r /\ r <= 0.
Proof.
  intros Hz. unfold round_double.
  destruct (Z.abs z <? 2 ^ 53) eqn:Ha; [right; eauto|].
  apply Z.ltb_ge in Ha.
  set (e := Z.log2 (Z.abs z) - 52).
  assert (0 < 2 ^ e) as Hpow.
  { apply Z.pow_pos_nonneg; [lia|]. subst e.
    pose proof (Z.log2_le_mono _ _ Ha) as Hl.
    rewrite Z.log2_pow2 in Hl by lia. lia. }
  pose proof (round_half_even_bounds (Z.abs z) (2 ^ e) Hpow) as [[Hlo _] _].
  assert (0 <= Z.abs z / 2 ^ e) by (apply Z.div_pos; lia).
  destruct (2 ^ 1024 <=? _).
  - assert ((0 <? z) = false) as -> by lia. left; reflexivity.
  - right. eexists. split; [reflexivity|]. nia.
Qed.

(** Above the safe range a double keeps at least the leading power of two. *)
Lemma round_double_large (z : Z) :
  2 ^ 53 <= z ->
  round_double z = PInf \/ exists r, round_double z = Int r /\ 2 ^ Z.log2 z <= r.
Proof.
  intros Hz. unfold round_double.
  rewrite Z.abs_eq by lia.
  assert ((z <? 2 ^ 53) = false) as -> by lia.
  pose proof (Z.log2_le_mono _ _ Hz) as Hl. rewrite Z.log2_pow2 in Hl by lia.
  set (e := Z.log2 z - 52).
  assert (0 < 2 ^ e) as Hpow by (apply Z.pow_pos_nonneg; lia).
  pose proof (round_half_even_bounds z (2 ^ e) Hpow) as [[Hlo _] _].
  assert (2 ^ 52 <= z / 2 ^ e) as Hq.
  { apply Z.div_le_lower_bound; [lia|].
    rewrite Z.mul_comm, <- Z.pow_add_r by lia.
    replace (52 + e) with (Z.log2 z) by lia.
    apply Z.log2_spec. lia. }
  assert (2 ^ Z.log2 z = 2 ^ 52 * 2 ^ e) as Hsplit.
  { rewrite <- Z.pow_add_r by lia. f_equal. lia. }
  destruct (2 ^ 1024 <=? _).
  - assert ((0 <? z) = true) as -> by lia. left; reflexivity.
  - right. eexists. split; [reflexivity|].
    rewrite Z.sgn_pos by lia. rewrite Hsplit. nia.
Qed.

(** Rounding does not go below a safe integer that the exact value reaches. *)
Lemma round_double_ge (a z : Z) :
  - 2 ^ 53 < a < 2 ^ 53 -> a <= z ->
  round_double z = PInf \/ exists r, round_double z = Int r /\ a <= r.
Proof.
  intros Ha Hz.
  destruct (Z.lt_ge_cases z (2 ^ 53)) as [Hsmall | Hlarge].
  - right. exists z. split; [apply round_double_safe; lia | lia].
  - destruct (round_double_large z Hlarge) as [-> | (r & -> & Hr)]; [left; reflexivity|].
    right. exists r. split; [reflexivity|].
    pose proof (Z.log2_le_mono _ _ Hlarge) as Hl. rewrite Z.log2_pow2 in Hl by lia.
    pose proof (Z.pow_le_mono_r 2 53 (Z.log2 z) ltac:(lia) Hl). lia.
Qed.

(** A whole number of seconds below [2^56] milliseconds is a double. *)
Lemma round_double_seconds (s : Z) :
  0 <= s -> s * 1000 < 2 ^ 56 -> round_double (s * 1000) = Int (s * 1000).
Proof.
  intros Hs Hlt.
  destruct (Z.lt_ge_cases (s * 1000) (2 ^ 53)) as [Hsmall | Hlarge].
  { apply round_double_safe. lia. }
  unfold round_double. rewrite Z.abs_eq by lia.
  assert ((s * 1000 <? 2 ^ 53) = false) as -> by lia.
  pose proof (Z.log2_le_mono _ _ Hlarge) as Hl. rewrite Z.log2_pow2 in Hl by lia.
  assert (Z.log2 (s * 1000) < 56) as Hu by (apply Z.log2_lt_pow2; lia).
  remember (Z.log2 (s * 1000) - 52) as e eqn:Ee.
  assert (e = 1 \/ e = 2 \/ e = 3) as He by lia.
  clear Ee Hl Hu.
  assert (0 < 2 ^ e) as Hpow by (apply Z.pow_pos_nonneg; lia).
  pose proof (round_half_even_bounds (s * 1000) (2 ^ e) Hpow) as [_ [Hexact _]].
  assert ((s * 1000) mod 2 ^ e = 0) as Hmod.
  { destruct He as [-> | [-> | ->]].
    - change (2 ^ 1) with 2. clear. replace (s * 1000) with (s * 500 * 2) by lia.
      apply Z.mod_mul. lia.
    - change (2 ^ 2) with 4. clear. replace (s * 1000) with (s * 250 * 4) by lia.
      apply Z.mod_mul. lia.
    - change (2 ^ 3) with 8. clear. replace (s * 1000) with (s * 125 * 8) by lia.
      apply Z.mod_mul. lia. }
  rewrite (Hexact Hmod).
  assert (s * 1000 / 2 ^ e * 2 ^ e = s * 1000) as ->.
  { pose proof (Z.div_mod (s * 1000) (2 ^ e) ltac:(lia)). lia. }
  assert ((2 ^ 1024 <=? s * 1000) = false) as ->.
  { apply Z.leb_gt. eapply Z.lt_trans; [exact Hlt|]. reflexivity. }
  rewrite Z.sgn_pos by lia. f_equal. lia.
Qed.

(** An entry that the cache stores at time [t0] with a lifetime of [ttl]
    seconds has not expired at a time [t1] within that lifetime. *)
Lemma expiry_not_reached (t0 t1 ttl : Z) :
  - 2 ^ 53 < t0 < 2 ^ 53 -> - 2 ^ 53 < t1 < 2 ^ 53 -> 0 < ttl -> t1 - t0 <= ttl * 1000 ->
  num_gtb (Int t1) (num_add (Int t0) (num_mul (Int ttl) (Int 1000))) = false.
Proof.
  intros H0 H1 Hpos Hwithin. unfold num_gtb, num_mul.
  destruct (Z.lt_ge_cases (ttl * 1000) (2 ^ 56)) as [Hsmall | Hlarge].
  - rewrite round_double_seconds by lia. unfold num_add.
    destruct (round_double_ge t1 (t0 + ttl * 1000)) as [-> | (r & -> & Hr)];
      [lia | lia | reflexivity |].
    cbn. lia.
  - destruct (round_double_large (ttl * 1000)) as [-> | (r & -> & Hr)];
      [lia | reflexivity |].
    pose proof (Z.log2_le_mono _ _ Hlarge) as Hl. rewrite Z.log2_pow2 in Hl by lia.
    pose proof (Z.pow_le_mono_r 2 56 (Z.log2 (ttl * 1000)) ltac:(lia) Hl).
    unfold num_add.
    destruct (round_double_ge t1 (t0 + r)) as [-> | (r' & -> & Hr')];
      [lia | lia | reflexivity |].
    cbn. lia.
Qed.

Lemma round_double_at_least (a z : Z) :
  - 2 ^ 53 < a < 2 ^ 53 -> a <= z -> num_leb (Int a) (round_double z) = true.
Proof.
  intros Ha Hz.
  destruct (round_double_ge a z Ha Hz) as [-> | (r & -> & Hr)]; [reflexivity|].
  cbn. lia.
Qed.

(** Rounding commutes with the change of sign. *)
Lemma round_double_opp (z : Z) : round_double (- z) = num_neg (round_double z).
Proof.
  unfold round_double. rewrite Z.abs_opp.
  destruct (Z.abs z <? 2 ^ 53) eqn:Ha; [reflexivity|].
  apply Z.ltb_ge in Ha.
  destruct (2 ^ 1024 <=? _).
  - destruct (Z.ltb_spec 0 z), (Z.ltb_spec 0 (- z)); try reflexivity; lia.
  - cbn. f_equal. rewrite Z.sgn_opp. lia.
Qed.

Lemma round_double_at_most (a z : Z) :
  - 2 ^ 53 < a < 2 ^ 53 -> z <= a -> num_leb (round_double z) (Int a) = true.
Proof.
  intros Ha Hz. replace z with (- - z) by lia. rewrite round_double_opp.
  destruct (round_double_ge (- a) (- z)) as [-> | (r & -> & Hr)]; [lia | lia | reflexivity|].
  cbn. lia.
Qed.

(** The quotient of a negative number by a positive one has a ceiling of
    zero or less. *)
Lemma ceil_quotient_negative (x y : Z) :
  x < 0 -> 1 <= y -> num_leb (ceil_quotient x y) (Int 0) = true.
Proof.
  intros Hx Hy. unfold ceil_quotient.
  assert ((x =? 0) = false) as -> by lia.
  assert ((0 <? x) = false) as -> by lia. assert ((0 <? y) = true) as -> by lia.
  cbn [Bool.eqb].
  destruct (Z.abs x <? Z.abs y); [destruct (_ <=? _); reflexivity|].
  assert (0 <= Z.abs x / Z.abs y) by (apply Z.div_pos; lia).
  destruct (0 <? Z.log2 (Z.abs x / Z.abs y) - 52) eqn:He.
  - apply Z.ltb_lt in He.
    set (e := Z.log2 (Z.abs x / Z.abs y) - 52) in *.
    assert (0 < Z.abs y * 2 ^ e) as Hden.
    { apply Z.mul_pos_pos; [lia | apply Z.pow_pos_nonneg; lia]. }
    pose proof (round_half_even_bounds (Z.abs x) (Z.abs y * 2 ^ e) Hden) as [[Hlo _] _].
    assert (0 <= Z.abs x / (Z.abs y * 2 ^ e)) by (apply Z.div_pos; lia).
    assert (0 < 2 ^ e) by (apply Z.pow_pos_nonneg; lia).
    destruct (2 ^ 1024 <=? _); [reflexivity|]. cbn. apply Z.leb_le. nia.
  - apply Z.ltb_ge in He.
    set (d := 2 ^ (- (Z.log2 (Z.abs x / Z.abs y) - 52))).
    assert (0 < d) by (apply Z.pow_pos_nonneg; lia).
    pose proof (round_half_even_bounds (Z.abs x * d) (Z.abs y) ltac:(lia)) as [[Hlo _] _].
    assert (0 <= Z.abs x * d / Z.abs y) by (apply Z.div_pos; nia).
    assert (0 <= round_half_even (Z.abs x * d) (Z.abs y) / d) by (apply Z.div_pos; lia).
    cbn. apply Z.leb_le. lia.
Qed.

(** The integers that round to [Infinity] are those from
    [2^1024 - 2^970] on, half a step above the greatest double. *)
Lemma round_double_overflow (z : Z) :
  0 <= z -> (round_double z = PInf <-> 2 ^ 1024 - 2 ^ 970 <= z).
Proof.
  intros Hz. unfold round_double. rewrite Z.abs_eq by lia.
  destruct (Z.ltb_spec z (2 ^ 53)) as [Hsmall | Hlarge]; [split; [discriminate | lia]|].
  pose proof (Z.log2_le_mono _ _ Hlarge) as Hl. rewrite Z.log2_pow2 in Hl by lia.
  pose proof (Z.log2_spec z ltac:(lia)) as Hspec.
  remember (Z.log2 z) as L eqn:EL. clear EL.
  assert ((0 <? z) = true) as -> by lia.
  remember (L - 52) as e eqn:Ee.
  assert (0 < 2 ^ e) as Hpow by (apply Z.pow_pos_nonneg; lia).
  pose proof (round_half_even_bounds z (2 ^ e) Hpow) as [[Hlo Hhi] _].
  pose proof (Z.div_mod z (2 ^ e) ltac:(lia)) as Hdm.
  pose proof (Z.mod_pos_bound z (2 ^ e) Hpow) as Hmb.
  assert (2 ^ L = 2 ^ 52 * 2 ^ e) as Hsplit.
  { rewrite <- Z.pow_add_r by lia. f_equal. lia. }
  assert (2 ^ (L + 1) = 2 ^ 53 * 2 ^ e) as Hsplit'.
  { rewrite <- Z.pow_add_r by lia. f_equal. lia. }
  destruct (Z.lt_trichotomy L 1023) as [Hlow | [-> | Hhigh]].
  - assert (2 ^ e <= 2 ^ 970) by (apply Z.pow_le_mono_r; lia).
    assert (2 ^ (L + 1) <= 2 ^ 1023) by (apply Z.pow_le_mono_r; lia).
    destruct (Z.leb_spec (2 ^ 1024) (round_half_even z (2 ^ e) * 2 ^ e)).
    + exfalso. nia.
    + split; [discriminate | lia].
  - subst e. change (1023 - 52) with 971 in *.
    revert Hlo Hhi. unfold round_half_even.
    set (q := z / 2 ^ 971) in *. set (r := z mod 2 ^ 971) in *.
    assert (2 ^ 52 <= q < 2 ^ 53) as Hq by lia.
    destruct (Z.ltb_spec (2 * r) (2 ^ 971)) as [H1 | H1];
      [|destruct (Z.ltb_spec (2 ^ 971) (2 * r)) as [H2 | H2];
        [|destruct (Z.even q) eqn:Hev]]; intros Hlo Hhi.
    + destruct (Z.leb_spec (2 ^ 1024) (q * 2 ^ 971)); [exfalso; lia|].
      split; [discriminate | lia].
    + destruct (Z.leb_spec (2 ^ 1024) ((q + 1) * 2 ^ 971)); split; try reflexivity;
        try discriminate; lia.
    + assert (q <> 2 ^ 53 - 1) by (intros ->; discriminate).
      destruct (Z.leb_spec (2 ^ 1024) (q * 2 ^ 971)); [exfalso; lia|].
      split; [discriminate | lia].
    + destruct (Z.leb_spec (2 ^ 1024) ((q + 1) * 2 ^ 971)); split; try reflexivity;
        try discriminate; lia.
  - assert (2 ^ 1024 <= 2 ^ L) by (apply Z.pow_le_mono_r; lia).
    assert (2 ^ 52 <= z / 2 ^ e).
    { apply Z.div_le_lower_bound; [lia|]. rewrite Z.mul_comm. lia. }
    destruct (Z.leb_spec (2 ^ 1024) (round_half_even z (2 ^ e) * 2 ^ e)).
    + split; [lia | reflexivity].
    + exfalso. nia.
Qed.

(** A double that is one or more has a finite predecessor. *)
Lemma round_double_pred (p : Z) :
  1 <= p -> round_double p = Int p ->
  exists r, round_double (p - 1) = Int r /\ 0 <= r.
Proof.
  intros Hp Hd.
  pose proof (round_double_overflow p ltac:(lia)) as [_ Hover].
  pose proof (round_double_overflow (p - 1) ltac:(lia)) as [Hfin _].
  destruct (round_double_ge 0 (p - 1)) as [Hinf | (r & Hr & H0)]; [lia | lia | | eauto].
  specialize (Hfin Hinf). rewrite Hover in Hd by lia. discriminate.
Qed.

End Numbers.

(** ** Pagination *)

Section Pagination.
Import PaginationBuilder.

Variable config : PaginationConfig.

Lemma validate_page_based (p s : Z) :
  1 <= p -> 1 <= s -> num_leb (Int s) (maxPageSize config) = true ->
  validate config (mkPaginationOptions (Some (Int p)) (Some (Int s)) None None) = (true, []).
Proof.
  intros Hp Hs Hmax. unfold validate. cbn.
  assert ((p <? 1) = false) as -> by lia.
  assert ((s <? 1) = false) as -> by lia. cbn.
  assert (num_gtb (Int s) (maxPageSize config) = false) as ->; [|reflexivity].
  unfold num_gtb. destruct (maxPageSize config) as [m| | |]; cbn in *; try done. lia.
Qed.

Lemma Math_min_leb (s : Z) (m : number) :
  num_leb (Int s) m = true -> Math_min (Int s) m = Int s.
Proof.
  destruct m as [m| | |]; cbn; try done.
  intros H. assert ((m <? s) = false) as -> by lia. reflexivity.
Qed.

(** C6.  A page-based request with an integer [page >= 1] and an integer
    [pageSize] between 1 and [maxPageSize] is resolved without a throw;
    [limit] is [pageSize], [page] and [pageSize] come back unchanged, and the
    offset is the product [(page - 1) * pageSize] of the numbers of the
    program.  This product is the integer [(page - 1) * pageSize] whenever
    that is a safe integer. *)
Theorem process_page_based (p s : Z) :
  1 <= p -> 1 <= s -> num_leb (Int s) (maxPageSize config) = true ->
  process config (mkPaginationOptions (Some (Int p)) (Some (Int s)) None None)
  = Ok (mkResolved (num_mul (num_sub (Int p) (Int 1)) (Int s)) (Int s) (Int p) (Int s)) /\
  ((p - 1) * s <= ValidationUtils.MAX_SAFE_INTEGER ->
   process config (mkPaginationOptions (Some (Int p)) (Some (Int s)) None None)
   = Ok (mkResolved (Int ((p - 1) * s)) (Int s) (Int p) (Int s))).
Proof.
  intros Hp Hs Hmax.
  assert (process config (mkPaginationOptions (Some (Int p)) (Some (Int s)) None None)
          = Ok (mkResolved (num_mul (num_sub (Int p) (Int 1)) (Int s)) (Int s) (Int p)
                  (Int s))) as Hprocess.
  { unfold process. rewrite validate_page_based by assumption. cbn.
    assert (forall z d, 1 <= z -> num_or (Int z) d = Int z) as Hor.
    { intros z d Hz. unfold num_or, num_truthy.
      assert ((z =? 0) = false) as -> by lia. reflexivity. }
    rewrite !Hor by assumption.
    rewrite Math_min_leb by assumption. reflexivity. }
  split; [exact Hprocess|].
  intros Hsafe. rewrite Hprocess.
  unfold num_sub, num_add, num_neg, num_mul.
  change ValidationUtils.MAX_SAFE_INTEGER with (2 ^ 53 - 1) in Hsafe.
  assert (p - 1 <= (p - 1) * s) by nia.
  rewrite round_double_safe by lia. rewrite round_double_safe by nia.
  repeat f_equal; lia.
Qed.

End Pagination.

(** Beyond the safe integers the product is rounded as every double is:
    page [2^53 - 1] with page size 20 passes the validation, and the offset
    is the double nearest to the integer product, which ends in 800. *)
Lemma process_page_based_rounds :
  PaginationBuilder.process (PaginationBuilder.new None None None None)
    (PaginationBuilder.mkPaginationOptions (Some (Int 9007199254740991)) (Some (Int 20))
       None None)
  = Ok (PaginationBuilder.mkResolved (Int 180143985094819808) (Int 20)
          (Int 9007199254740991) (Int 20)).
Proof. vm_compute. reflexivity. Qed.

Lemma process_page_based_witness :
  let config := PaginationBuilder.new None None None None in
  let o := PaginationBuilder.mkPaginationOptions (Some (Int 2)) (Some (Int 20)) None None in
  PaginationBuilder.process config o
  = Ok (PaginationBuilder.mkResolved (num_mul (num_sub (Int 2) (Int 1)) (Int 20)) (Int 20)
          (Int 2) (Int 20)) /\
  ((2 - 1) * 20 <= ValidationUtils.MAX_SAFE_INTEGER ->
   PaginationBuilder.process config o
   = Ok (PaginationBuilder.mkResolved (Int ((2 - 1) * 20)) (Int 20) (Int 2) (Int 20))).
Proof.
  apply (process_page_based (PaginationBuilder.new None None None None) 2 20);
    [lia | lia | reflexivity].
Defined.

(** The ceiling of [a / b] for a positive divisor, in integer terms. *)
Lemma ceiling_bounds (a b : Z) :
  0 < b -> (- ((- a) / b) - 1) * b < a <= - ((- a) / b) * b.
Proof.
  intros Hb.
  pose proof (Z.div_mod (- a) b ltac:(lia)).
  pose proof (Z.mod_pos_bound (- a) b Hb). nia.
Qed.

Lemma calculateTotalPages_safe (total pageSize : Z) :
  0 <= total <= ValidationUtils.MAX_SAFE_INTEGER -> 1 <= pageSize ->
  PaginationBuilder.calculateTotalPages (Int total) (Int pageSize)
  = Int (- ((- total) / pageSize)).
Proof.
  intros Ht Hs. unfold PaginationBuilder.calculateTotalPages, Math_ceil_div.
  change ValidationUtils.MAX_SAFE_INTEGER with (2 ^ 53 - 1) in Ht.
  assert ((pageSize =? 0) = false) as -> by lia.
  apply ceil_quotient_safe; lia.
Qed.

(** C7.  For [total >= 0], [page >= 1] and [pageSize >= 1] the metadata of
    [buildResult] has [totalPages = Math.ceil(total / pageSize)], [hasNext] is
    [page < totalPages] and [hasPrev] is [page > 1].  For a total that is a
    safe integer, [totalPages] is the ceiling of the exact quotient, the
    least integer [n] with [total <= n * pageSize].  Page 2 of size 20 over
    45 rows gives 3 pages, with a next and a previous page. *)
Theorem buildResult_metadata (rows : value) (total page pageSize : Z) :
  0 <= total -> 1 <= page -> 1 <= pageSize ->
  PaginationBuilder.buildResult rows (Int total) (Int page) (Int pageSize)
  = PaginationBuilder.mkPaginationResult rows
      (PaginationBuilder.mkPagination (Int page) (Int pageSize) (Int total)
         (Math_ceil_div (Int total) (Int pageSize))
         (num_ltb (Int page) (Math_ceil_div (Int total) (Int pageSize))) (1 <? page)) /\
  (total <= ValidationUtils.MAX_SAFE_INTEGER ->
   exists n : Z,
     (n - 1) * pageSize < total <= n * pageSize /\
     PaginationBuilder.buildResult rows (Int total) (Int page) (Int pageSize)
     = PaginationBuilder.mkPaginationResult rows
         (PaginationBuilder.mkPagination (Int page) (Int pageSize) (Int total) (Int n)
            (page <? n) (1 <? page))) /\
  PaginationBuilder.pagination
    (PaginationBuilder.buildResult rows (Int 45) (Int 2) (Int 20))
  = PaginationBuilder.mkPagination (Int 2) (Int 20) (Int 45) (Int 3) true true.
Proof.
  intros Ht Hp Hs. split; [reflexivity|]. split; [|vm_compute; reflexivity].
  intros Hsafe. exists (- ((- total) / pageSize)).
  split; [apply ceiling_bounds; lia|].
  unfold PaginationBuilder.buildResult.
  rewrite calculateTotalPages_safe by lia. reflexivity.
Qed.

(** Beyond the safe integers the quotient is rounded before the ceiling is
    taken: for a total of [2^60] rows in pages of 3 the number of pages is
    [2^60 / 3] rounded to a double, which is less than the exact ceiling. *)
Lemma buildResult_metadata_rounds :
  PaginationBuilder.totalPages
    (PaginationBuilder.pagination
       (PaginationBuilder.buildResult (VArr []) (Int (2 ^ 60)) (Int 1) (Int 3)))
  = Int 384307168202282304 /\
  384307168202282304 * 3 < 2 ^ 60.
Proof. split; [vm_compute; reflexivity | reflexivity]. Qed.

Lemma buildResult_metadata_witness :
  PaginationBuilder.buildResult (VArr []) (Int 45) (Int 2) (Int 20)
  = PaginationBuilder.mkPaginationResult (VArr [])
      (PaginationBuilder.mkPagination (Int 2) (Int 20) (Int 45)
         (Math_ceil_div (Int 45) (Int 20))
         (num_ltb (Int 2) (Math_ceil_div (Int 45) (Int 20))) (1 <? 2)) /\
  (45 <= ValidationUtils.MAX_SAFE_INTEGER ->
   exists n : Z,
     (n - 1) * 20 < 45 <= n * 20 /\
     PaginationBuilder.buildResult (VArr []) (Int 45) (Int 2) (Int 20)
     = PaginationBuilder.mkPaginationResult (VArr [])
         (PaginationBuilder.mkPagination (Int 2) (Int 20) (Int 45) (Int n)
            (2 <? n) (1 <? 2))) /\
  PaginationBuilder.pagination
    (PaginationBuilder.buildResult (VArr []) (Int 45) (Int 2) (Int 20))
  = PaginationBuilder.mkPagination (Int 2) (Int 20) (Int 45) (Int 3) true true.
Proof. apply (buildResult_metadata (VArr []) 45 2 20); lia. Defined.

(** ** Filters *)

Section Filters.
Import FilterProcessor Vocabulary.

Variable schema : gmap string FieldSchema.





End Filters.





(** ** Pattern operators and unsupported operators *)

Section Operators.
Import FilterProcessor Vocabulary.

Variable schema : gmap string FieldSchema.

(** C5, as the code has it.  The [caseSensitive] flag of a condition has no
    effect on what it compiles to, and a field schema has no setting for it:
    [like], [startsWith], [endsWith] and [contains] always compile to the
    case-insensitive [Op.iLike], and [notLike] always compiles to the
    case-sensitive [Op.notLike]. *)
Theorem like_family_compilation (f : string) (v : value) (cs : option bool) :
  processOperator f "like" v cs = Ok (field_pred f Op_iLike v) /\
  processOperator f "notLike" v cs = Ok (field_pred f Op_notLike v) /\
  processOperator f "startsWith" v cs
  = Ok (field_pred f Op_iLike (VStr (String_of v +:+ "%"))) /\
  processOperator f "endsWith" v cs
  = Ok (field_pred f Op_iLike (VStr ("%" +:+ String_of v))) /\
  processOperator f "contains" v cs
  = Ok (field_pred f Op_iLike (VStr ("%" +:+ String_of v +:+ "%"))) /\
  (forall c errors,
     processFilterCondition schema (with_caseSensitive c cs) errors
     = processFilterCondition schema c errors) /\
  (forall c, process schema (OfCondition (with_caseSensitive c cs))
             = process schema (OfCondition c)).
Proof.
  assert (forall c errors,
            processFilterCondition schema (with_caseSensitive c cs) errors
            = processFilterCondition schema c errors) as Hflag.
  { intros [fld op val cs'] errors. reflexivity. }
  do 5 (split; [reflexivity|]). split; [exact Hflag|].
  intros c. unfold process. rewrite Hflag. reflexivity.
Qed.

Lemma unsupported_throws (op : string) :
  supported op = false ->
  forall f v cs,
    processOperator f op v cs
    = Throw (ThrowError (mkError "Error" ("Unsupported operator: " +:+ op) None)).
Proof.
  unfold supported, supported_operators, includes. cbn [existsb].
  intros H f v cs. unfold processOperator.
  repeat (apply orb_false_elim in H; destruct H as [-> H]).
  reflexivity.
Qed.

(** What [processFilterCondition] does to the shared [errors] array: it
    pushes at most one entry, and exactly one when it returns the empty
    predicate for a condition it rejects. *)
Lemma processFilterCondition_unsupported (c : FilterCondition) (errors : list string) :
  supported (operator c) = false ->
  (exists t, processFilterCondition schema c errors = (Throw t, errors)) \/
  (exists msg, processFilterCondition schema c errors = (Ok (VObj []), errors ++ [msg])).
Proof.
  intros Hop. unfold processFilterCondition.
  destruct (validateCondition c); cbn [negb]; [|right; eauto].
  destruct (schema !! field c) as [fs|].
  - destruct (includes (operators fs) (operator c)); cbn [negb]; [|right; eauto].
    destruct (transform fs) as [tr|].
    + destruct (tr (cvalue c)); [|right; eauto].
      rewrite unsupported_throws by assumption. left; eauto.
    + rewrite unsupported_throws by assumption. left; eauto.
  - destruct (prototype_member (field c)); [left; eauto|].
    rewrite unsupported_throws by assumption. left; eauto.
Qed.

Lemma processFilterCondition_errors (c : FilterCondition) (errors : list string) :
  (length errors <= length (processFilterCondition schema c errors).2)%nat.
Proof.
  unfold processFilterCondition.
  repeat case_match; cbn; rewrite ?length_app; cbn; lia.
Qed.

Lemma map_conditions_errors (l : list FilterCondition) (errors : list string) :
  (length errors <= length (map_conditions schema l errors).2)%nat.
Proof.
  revert errors. induction l as [|c l IH]; intros errors; cbn; [lia|].
  pose proof (processFilterCondition_errors c errors) as H1.
  destruct (processFilterCondition schema c errors) as [[w|t] e1]; cbn in *; [|lia].
  specialize (IH e1).
  destruct (map_conditions schema l e1) as [[ws|t] e2]; cbn in *; lia.
Qed.

Lemma map_conditions_unsupported (l : list FilterCondition) (c : FilterCondition)
    (errors : list string) :
  In c l -> supported (operator c) = false ->
  (exists t, (map_conditions schema l errors).1 = Throw t) \/
  (length errors < length (map_conditions schema l errors).2)%nat.
Proof.
  intros Hin Hop. revert errors.
  induction l as [|c' l IH]; intros errors; [destruct Hin|].
  cbn [map_conditions].
  destruct Hin as [-> | Hin].
  - destruct (processFilterCondition_unsupported c errors Hop) as [[t ->] | [msg ->]].
    + left; eauto.
    + pose proof (map_conditions_errors l (errors ++ [msg])) as Hlen.
      destruct (map_conditions schema l (errors ++ [msg])) as [[ws|t] e2];
        cbn in *; rewrite length_app in Hlen; cbn in Hlen; [right; lia | left; eauto].
  - pose proof (processFilterCondition_errors c' errors) as H1.
    destruct (processFilterCondition schema c' errors) as [[w|t] e1]; cbn in *;
      [|left; eauto].
    destruct (IH Hin e1) as [[t Ht] | Hlt].
    + destruct (map_conditions schema l e1) as [[ws|t'] e2]; cbn in *;
        [discriminate | left; eauto].
    + destruct (map_conditions schema l e1) as [[ws|t'] e2]; cbn in *;
        [right; lia | left; eauto].
Qed.

(** C4, as the code has it.  For an operator outside the table
    [processOperator] throws, but [process] catches what its body throws: the
    caller gets a normal result whose predicate is empty and whose error list
    holds one entry (the message of the thrown error, prefixed, when the
    condition itself is valid and its field has no schema entry and is not a
    name inherited from [Object.prototype]); a list
    of conditions that contains such a condition compiles to a result with a
    non-empty error list. *)
Theorem unsupported_operator_collected (c : FilterCondition) :
  supported (operator c) = false ->
  (forall f v cs,
     processOperator f (operator c) v cs
     = Throw (ThrowError (mkError "Error" ("Unsupported operator: " +:+ operator c) None))) /\
  (exists msg, process schema (OfCondition c) = mkFilterResult (VObj []) [msg] []) /\
  (validateCondition c = true -> schema !! field c = None ->
   prototype_member (field c) = false ->
   process schema (OfCondition c)
   = mkFilterResult (VObj [])
       ["Filter processing error: Unsupported operator: " +:+ operator c] []) /\
  (forall l, In c l -> errors (process schema (OfArray l)) <> []).
Proof.
  intros Hop. split; [apply unsupported_throws; assumption|].
  split; [|split].
  - unfold process.
    destruct (processFilterCondition_unsupported c [] Hop) as [[t ->] | [msg ->]]; eauto.
  - intros Hvalid Hs Hproto. unfold process, processFilterCondition.
    rewrite Hvalid, Hs, Hproto. cbn [negb].
    rewrite unsupported_throws by assumption. reflexivity.
  - intros l Hin. unfold process, processFilterArray.
    destruct (map_conditions_unsupported l c [] Hin Hop) as [[t Ht] | Hlt];
      destruct (map_conditions schema l []) as [[ws|t'] e]; cbn in *;
      try discriminate;
      intros Heq; apply (f_equal length) in Heq;
      rewrite ?length_app in Heq; cbn in Heq; lia.
Qed.

End Operators.

(** C5 fails as stated: with no request for case sensitivity, [notLike]
    compiles to [Op.notLike], which regards case. *)
Lemma notLike_default_regards_case :
  FilterProcessor.process ∅
    (FilterProcessor.OfCondition
       (FilterProcessor.mkFilterCondition "name" "notLike" (VStr "%smith%") None))
  = FilterProcessor.mkFilterResult
      (FilterProcessor.field_pred "name" Op_notLike (VStr "%smith%")) [] []
  /\ ~ (exists o v,
          FilterProcessor.where_
            (FilterProcessor.process ∅
               (FilterProcessor.OfCondition
                  (FilterProcessor.mkFilterCondition "name" "notLike" (VStr "%smith%") None)))
          = FilterProcessor.field_pred "name" o v
          /\ Vocabulary.case_insensitive o = true).
Proof.
  split; [reflexivity|].
  intros (o & v & H & Hci). cbn in H. injection H as <- _. discriminate.
Qed.

(** C4 fails as stated: the compile of a condition with an operator outside
    the table returns normally, the failure being an entry of [errors]. *)
Lemma unsupported_operator_returns_normally :
  Vocabulary.supported "approx" = false /\
  FilterProcessor.process ∅
    (FilterProcessor.OfCondition
       (FilterProcessor.mkFilterCondition "age" "approx" (VNum (Int 5)) None))
  = FilterProcessor.mkFilterResult (VObj [])
      ["Filter processing error: Unsupported operator: approx"] [] /\
  FilterBuilder.processFromOptions
    [("search", VStr "bob"); ("searchFields", VArr [VStr "name"])]
  = Ok (FilterProcessor.mkFilterResult (VObj [])
          ["Filter processing error: Unsupported operator: or"] []).
Proof. repeat split; reflexivity. Qed.

Lemma unsupported_operator_collected_witness :
  let c := FilterProcessor.mkFilterCondition "age" "approx" (VNum (Int 5)) None in
  (forall f v cs,
     FilterProcessor.processOperator f "approx" v cs
     = Throw (ThrowError (mkError "Error" ("Unsupported operator: " +:+ "approx") None))) /\
  (exists msg, FilterProcessor.process ∅ (FilterProcessor.OfCondition c)
               = FilterProcessor.mkFilterResult (VObj []) [msg] []) /\
  (FilterProcessor.validateCondition c = true ->
   (∅ : gmap string FilterProcessor.FieldSchema) !! "age" = None ->
   prototype_member "age" = false ->
   FilterProcessor.process ∅ (FilterProcessor.OfCondition c)
   = FilterProcessor.mkFilterResult (VObj [])
       ["Filter processing error: Unsupported operator: " +:+ "approx"] []) /\
  (forall l, In c l ->
     FilterProcessor.errors (FilterProcessor.process ∅ (FilterProcessor.OfArray l)) <> []).
Proof.
  apply (unsupported_operator_collected ∅
           (FilterProcessor.mkFilterCondition "age" "approx" (VNum (Int 5)) None)).
  reflexivity.
Defined.

(** ** The builder: pagination and sorting *)

Section Builder.
Import AdvancedQueryBuilder Vocabulary.

Lemma validate_both_modes (config : PaginationBuilder.PaginationConfig)
    (o : PaginationBuilder.PaginationOptions) :
  both_modes o = true ->
  exists earlier,
    PaginationBuilder.validate config o
    = (false, earlier ++ ["Cannot use both page-based and offset-based pagination"]).
Proof.
  unfold both_modes. intros H. unfold PaginationBuilder.validate. cbv zeta.
  rewrite H. eexists. f_equal.
  apply bool_decide_eq_false. intros Heq.
  apply (f_equal length) in Heq. rewrite length_app in Heq. cbn in Heq. lia.
Qed.

(** C3, as the code has it.  A second [withPagination] does not fail
    because of an earlier one: when the members of its options pass the
    schema one by one, it succeeds and replaces the stored pagination.  The
    rule against mixing the two modes is checked only by
    [PaginationBuilder], on one options object that has members of both
    modes: [process] then throws a [PaginationError] whose message cites
    the rule, while [withPagination] stores such an object as well. *)
Theorem withPagination_replaces (b b1 : AdvancedQueryBuilder)
    (o1 o2 : PaginationBuilder.PaginationOptions) :
  withPagination b o1 = Ok b1 ->
  ValidationUtils.validatePagination o2 = ValidationUtils.Valid o2 ->
  (exists b2, withPagination b1 o2 = Ok b2 /\
              pagination (currentOptions b2) = Some o2) /\
  (both_modes o2 = true ->
   forall config, exists earlier,
     PaginationBuilder.process config o2
     = Throw (PaginationBuilder.PaginationError
                ("Invalid pagination options: "
                 +:+ PaginationBuilder.join ", "
                       (earlier ++ ["Cannot use both page-based and offset-based pagination"]))
                "INVALID_PAGINATION_OPTIONS")).
Proof.
  intros _ Hvalid. split.
  - unfold withPagination. rewrite Hvalid. eexists. split; reflexivity.
  - intros Hboth config.
    destruct (validate_both_modes config o2 Hboth) as [earlier He].
    exists earlier. unfold PaginationBuilder.process. rewrite He. reflexivity.
Qed.

End Builder.

(** C3 fails as stated: page-based options followed by offset-based options
    are accepted, and the second call replaces what the first stored. *)
Lemma withPagination_twice_succeeds :
  let b0 := Index.createQueryBuilder Vocabulary.empty_store Vocabulary.no_overrides "req_1" in
  let paged :=
    PaginationBuilder.mkPaginationOptions (Some (Int 1)) (Some (Int 10)) None None in
  let by_offset :=
    PaginationBuilder.mkPaginationOptions None None (Some (Int 20)) (Some (Int 10)) in
  bind (AdvancedQueryBuilder.withPagination b0 paged)
       (fun b1 => AdvancedQueryBuilder.withPagination b1 by_offset)
  = Ok (AdvancedQueryBuilder.set_currentOptions b0
          (AdvancedQueryBuilder.set_pagination AdvancedQueryBuilder.empty_options
             (Some by_offset))).
Proof. reflexivity. Qed.

Lemma withPagination_replaces_witness :
  let b0 := Index.createQueryBuilder Vocabulary.empty_store Vocabulary.no_overrides "req_1" in
  let paged :=
    PaginationBuilder.mkPaginationOptions (Some (Int 1)) (Some (Int 10)) None None in
  let mixed :=
    PaginationBuilder.mkPaginationOptions (Some (Int 1)) None (Some (Int 20)) None in
  let b1 :=
    AdvancedQueryBuilder.set_currentOptions b0
      (AdvancedQueryBuilder.set_pagination AdvancedQueryBuilder.empty_options (Some paged)) in
  (exists b2, AdvancedQueryBuilder.withPagination b1 mixed = Ok b2 /\
              AdvancedQueryBuilder.pagination (AdvancedQueryBuilder.currentOptions b2)
              = Some mixed) /\
  (Vocabulary.both_modes mixed = true ->
   forall config, exists earlier,
     PaginationBuilder.process config mixed
     = Throw (PaginationBuilder.PaginationError
                ("Invalid pagination options: "
                 +:+ PaginationBuilder.join ", "
                       (earlier ++ ["Cannot use both page-based and offset-based pagination"]))
                "INVALID_PAGINATION_OPTIONS")).
Proof.
  apply (withPagination_replaces
           (Index.createQueryBuilder Vocabulary.empty_store Vocabulary.no_overrides "req_1")
           _
           (PaginationBuilder.mkPaginationOptions (Some (Int 1)) (Some (Int 10)) None None)
           (PaginationBuilder.mkPaginationOptions (Some (Int 1)) None (Some (Int 20)) None));
    reflexivity.
Defined.

Section Sorting.
Import AdvancedQueryBuilder SortBuilder.

Lemma obj_get_set_eq (o : list (key * value)) (k : key) (v : value) :
  obj_get (obj_set o k v) k = v.
Proof.
  induction o as [|[k' v'] o IH]; cbn.
  - destruct (decide (k = k)); congruence.
  - destruct (decide (k' = k)) as [->|Hne]; cbn.
    + destruct (decide (k = k)); congruence.
    + destruct (decide (k' = k)); congruence.
Qed.

Lemma obj_get_set_ne (o : list (key * value)) (k k' : key) (v : value) :
  k <> k' -> obj_get (obj_set o k v) k' = obj_get o k'.
Proof.
  intros Hne. induction o as [|[k0 v0] o IH]; cbn.
  - destruct (decide (k = k')); congruence.
  - destruct (decide (k0 = k)) as [->|Hne0]; cbn.
    + destruct (decide (k = k')); congruence.
    + destruct (decide (k0 = k')); congruence.
Qed.

Lemma obj_get_opt_set_ne (o : list (key * value)) (k k' : string) (v : option value) :
  k <> k' -> obj_get (opt_set o k v) (KStr k') = obj_get o (KStr k').
Proof.
  intros Hne. destruct v; cbn; [|reflexivity].
  apply obj_get_set_ne. congruence.
Qed.






End Sorting.


(** ** The performance monitor *)

Section Monitor.
Import Runtime PerformanceMonitor.

(** What [endMonitoring] computes for a live handle: the total is the
    difference of the two clock readings it takes itself, and the record
    leaves the live map, so that a second [endMonitoring] returns [null]. *)
Lemma endMonitoring_live (pm : PerformanceMonitor) (monitorId : string) (rt : Runtime.t)
    (m : PerformanceMetrics) :
  enabled pm = true -> monitorId <> "" -> metrics pm !! monitorId = Some m ->
  exists m' pm' rt',
    endMonitoring pm monitorId rt = (Some m', pm', rt') /\
    totalExecutionTime m'
    = num_sub (Int (clock rt (reads rt))) (Int (clock rt (S (reads rt)))) /\
    metrics pm' !! monitorId = None /\
    (endMonitoring pm' monitorId rt').1.1 = None.
Proof.
  intros He Hid Hm. unfold endMonitoring.
  apply String.eqb_neq in Hid. rewrite He, Hid, Hm. cbn.
  do 3 eexists. split; [reflexivity|]. cbn.
  split; [reflexivity|]. rewrite lookup_delete_eq. split; [reflexivity|].
  reflexivity.
Qed.

(** With a clock that does not run backwards the total is never positive,
    so no threshold that is zero or more is ever exceeded. *)
Lemma endMonitoring_never_warns (pm : PerformanceMonitor) (monitorId : string)
    (rt : Runtime.t) :
  clock rt (reads rt) <= clock rt (S (reads rt)) ->
  num_leb (Int 0) (threshold pm) = true ->
  console (endMonitoring pm monitorId rt).2 = console rt.
Proof.
  intros Hclock Hth. unfold endMonitoring.
  destruct (negb (enabled pm) || String.eqb monitorId ""); [reflexivity|].
  destruct (metrics pm !! monitorId); [|reflexivity]. cbn.
  assert (num_ltb (threshold pm)
            (round_double (clock rt (reads rt) + - clock rt (S (reads rt)))) = false) as Hlt.
  { destruct (round_double_nonpos (clock rt (reads rt) + - clock rt (S (reads rt))))
      as [-> | (r & -> & Hr)]; [lia| |];
      destruct (threshold pm); cbn in *; try done. lia. }
  unfold num_gtb. rewrite Hlt. reflexivity.
Qed.

End Monitor.

(** C2, the code at a failing input.  Monitoring starts when the clock
    reads 0 and ends when it reads 5000, with a threshold of 1000: the total
    that [endMonitoring] returns is 0, not 5000, and the console has no
    warning; the record does leave the live map. *)
Lemma endMonitoring_ignores_start :
  let clock := fun n : nat => match n with O => 0 | _ => 5000 end in
  let context := PerformanceMonitor.mkContext "findAll" "User" "req_1" in
  let started :=
    PerformanceMonitor.startMonitoring (PerformanceMonitor.new (Some true) (Some (Int 1000)))
      context (Runtime.mk clock 0 []) in
  started.1.1 = "findAll_User_req_1_0" /\
  PerformanceMonitor.endMonitoring started.1.2 started.1.1 started.2
  = (Some (PerformanceMonitor.mkMetrics (Int 0) (Int 0) (Int 0) (Int 0) (Int 0) (Int 0)),
     PerformanceMonitor.mkMonitor ∅ true (Int 1000),
     Runtime.mk clock 3 []).
Proof. split; vm_compute; reflexivity. Qed.

(** ** The cache and [execute] *)

Section Caching.
Import Runtime AdvancedQueryBuilder Vocabulary.

Variable JSON_stringify : AdvancedQueryOptions -> result string.

Lemma buildQueryOptions_frame (b : AdvancedQueryBuilder) :
  exists j, (buildQueryOptions b).2 = set_joinBuilder b j.
Proof.
  destruct b as [m cf rq pb jb cm pm cur].
  unfold buildQueryOptions. cbn [currentOptions paginationBuilder joinBuilder].
  repeat case_match; simplify_eq; cbn; eexists; reflexivity.
Qed.

Lemma endMonitoring_runtime (pm : PerformanceMonitor.PerformanceMonitor) (id : string)
    (r : Runtime.t) :
  clock (PerformanceMonitor.endMonitoring pm id r).2 = clock r /\
  (reads r <= reads (PerformanceMonitor.endMonitoring pm id r).2 <= reads r + 2)%nat.
Proof.
  unfold PerformanceMonitor.endMonitoring, Date_now, console_warn.
  repeat case_match; simplify_eq; cbn; split; lia || reflexivity.
Qed.

Lemma execute_try_miss (b b1 : AdvancedQueryBuilder) (w w1 : world) (monitorId : string)
    (r : nat) (ttl : Z) :
  CacheManager.enabled (cacheManager b) = true ->
  CacheManager.cache (CacheManager.provider (cacheManager b)) = ∅ ->
  CacheManager.provider_defaultTTL (CacheManager.provider (cacheManager b)) = Int 300 ->
  CacheManager.defaultTTL (cacheManager b) = Int ttl -> 0 < ttl ->
  execute_try JSON_stringify b w monitorId = (Ok r, b1, w1) ->
  exists key n,
    generateCacheKey JSON_stringify b1 "" = Ok key /\
    CacheManager.enabled (cacheManager b1) = true /\
    (reads (rt w) <= n < reads (rt w1))%nat /\
    (reads (rt w1) <= reads (rt w) + 5)%nat /\
    clock (rt w1) = clock (rt w) /\
    CacheManager.cache (CacheManager.provider (cacheManager b1))
      !! (CacheManager.keyPrefix (cacheManager b1) +:+ key)
    = Some (r, num_add (Int (clock (rt w) n)) (num_mul (Int ttl) (Int 1000))) /\
    exists e, heap w1 !! r = Some e /\ never_hit e.
Proof.
  intros Hen Hempty Hpttl Httl Hpos.
  destruct b as [m cf rq pb jb [[ca pd] en dt kp] pm cur].
  cbn in Hen, Hempty, Hpttl, Httl. subst en ca pd dt.
  unfold execute_try.
  destruct (generateCacheKey JSON_stringify _ "") as [key|t] eqn:Hkey; [|discriminate].
  unfold CacheManager.isEnabled, CacheManager.get, CacheManager.provider_get.
  cbn [cacheManager CacheManager.enabled CacheManager.provider CacheManager.cache negb].
  rewrite lookup_empty.
  cbn [set_cacheManager rt calls heap model config requestId paginationBuilder joinBuilder
       cacheManager performanceMonitor currentOptions CacheManager.provider
       CacheManager.enabled CacheManager.defaultTTL CacheManager.keyPrefix].
  match goal with |- context [buildQueryOptions ?B] =>
    destruct (buildQueryOptions_frame B) as [j Hj];
    destruct (buildQueryOptions B) as [[queryOptions|t] b0] end; [|discriminate].
  cbn [snd] in Hj. subst b0.
  unfold Date_now.
  cbn [set_joinBuilder model config requestId paginationBuilder joinBuilder cacheManager
       performanceMonitor currentOptions set_performanceMonitor set_cacheManager].
  destruct (findAll m (VObj queryOptions)) as [rows|t]; [|discriminate].
  match goal with |- context [(let (r1, w0) := ?X in _)] =>
    assert ((exists fr w0, X = (Ok fr, w0) /\ never_hit fr /\ heap w0 = heap w /\
                          rt w0 = Runtime.mk (clock (rt w)) (S (S (reads (rt w)))) (console (rt w)))
            \/ (exists t w0, X = (Throw t, w0))) as Hfinal
  end.
  { repeat case_match; simplify_eq;
      first [ right; do 2 eexists; reflexivity
            | left; do 2 eexists; split; [reflexivity|]; repeat split; reflexivity ]. }
  destruct Hfinal as [(fr & w0 & -> & Hnever & Hheap & Hrt) | (t & w0 & ->)]; [|discriminate].
  unfold CacheManager.set, CacheManager.provider_set, Date_now.
  cbn [CacheManager.enabled CacheManager.provider CacheManager.defaultTTL
       CacheManager.keyPrefix CacheManager.provider_defaultTTL CacheManager.cache negb
       opt_num_or].
  rewrite Hrt, Hheap. cbn [clock reads console].
  assert (num_or (Int ttl) (Int 300) = Int ttl) as ->.
  { unfold num_or, num_truthy. assert ((ttl =? 0) = false) as -> by lia. reflexivity. }
  match goal with |- context [PerformanceMonitor.endMonitoring ?P ?I ?R] =>
    destruct (endMonitoring_runtime P I R) as [Hclk Hrd];
    destruct (PerformanceMonitor.endMonitoring P I R) as [[metrics pm0] rt5] end.
  cbn in Hclk, Hrd.
  intros [= <- <- <-]. exists key, (S (S (reads (rt w)))).
  cbn [rt heap cacheManager set_performanceMonitor set_cacheManager CacheManager.enabled
       CacheManager.provider CacheManager.cache CacheManager.keyPrefix].
  split; [exact Hkey|]. split; [reflexivity|]. split; [lia|]. split; [lia|].
  split; [assumption|]. split; [rewrite lookup_insert_eq; reflexivity|].
  destruct metrics as [mt|].
  - eexists. rewrite list_lookup_alter, lookup_app_r, Nat.sub_diag by lia.
    rewrite decide_True by reflexivity.
    split; [reflexivity|]. reflexivity.
  - exists fr. rewrite lookup_app_r, Nat.sub_diag by lia. split; [reflexivity | assumption].
Qed.

Lemma execute_hit (b : AdvancedQueryBuilder) (w : world) (key : string) (r : nat)
    (expires : number) :
  generateCacheKey JSON_stringify b "" = Ok key ->
  CacheManager.enabled (cacheManager b) = true ->
  CacheManager.cache (CacheManager.provider (cacheManager b))
    !! (CacheManager.keyPrefix (cacheManager b) +:+ key) = Some (r, expires) ->
  (forall n, (reads (rt w) + 1 <= n <= reads (rt w) + 2)%nat ->
             num_gtb (Int (clock (rt w) n)) expires = false) ->
  exists b2 w2,
    execute JSON_stringify b w = (Ok r, b2, w2) /\ calls w2 = calls w /\ heap w2 = heap w.
Proof.
  intros Hkey Hen Hcache Hfresh.
  unfold execute, PerformanceMonitor.startMonitoring, PerformanceMonitor.generateMonitorId.
  destruct (PerformanceMonitor.enabled (performanceMonitor b)); cbn [negb Date_now];
    unfold execute_try; cbn [cacheManager set_performanceMonitor set_cacheManager rt calls heap currentOptions model];
    unfold generateCacheKey in *; cbn [currentOptions model set_performanceMonitor] in *;
    rewrite Hkey; unfold CacheManager.isEnabled, CacheManager.get, CacheManager.provider_get;
    rewrite Hen; cbn [negb]; rewrite Hcache; cbn [Date_now reads clock].
  - rewrite Hfresh by lia. do 2 eexists. split; [reflexivity|]. split; reflexivity.
  - rewrite Hfresh by lia. do 2 eexists. split; [reflexivity|]. split; reflexivity.
Qed.

(** C1, as the code has it.  A builder with caching enabled and a positive
    TTL runs [execute] twice on the same specification, all clock readings of
    the two calls being safe integers (as every [Date.now()] is) that lie
    within the TTL.  When the first call succeeds, the
    second returns the very envelope the first one returned (the cache holds
    a reference to it), the record store receives no further call and the
    heap is unchanged; that envelope was made by the first call, and its
    [performance] is absent or has [cacheHit: false]. *)
Theorem second_execute_from_cache (m : Model) (cf : QueryConfig) (requestId : string)
    (cur : AdvancedQueryOptions) (w w1 : world) (ttl : Z) (r1 : nat)
    (b1 : AdvancedQueryBuilder) :
  enableCaching cf = Some true ->
  cacheTTL cf = Some (Int ttl) -> 0 < ttl ->
  (forall i j, (reads (rt w) <= i <= j)%nat -> (j < reads (rt w) + 10)%nat ->
               safe_integer (clock (rt w) j) /\
               clock (rt w) j - clock (rt w) i <= ttl * 1000) ->
  execute JSON_stringify (set_currentOptions (new m cf requestId) cur) w = (Ok r1, b1, w1) ->
  exists b2 w2,
    execute JSON_stringify b1 w1 = (Ok r1, b2, w2) /\
    calls w2 = calls w1 /\
    heap w2 = heap w1 /\
    exists e, heap w1 !! r1 = Some e /\ never_hit e.
Proof.
  intros Hcache Httl Hpos Hwindow.
  unfold execute at 1.
  unfold PerformanceMonitor.startMonitoring, PerformanceMonitor.generateMonitorId, Date_now.
  match goal with |- context [if ?c then _ else _] => destruct c end;
    match goal with |- context [execute_try ?J ?B ?W ?I] =>
      pose proof (execute_try_miss B) as Hmiss;
      destruct (execute_try J B W I) as [[[ref|t] b'] w'] eqn:Htry
    end;
    try (match goal with |- context [PerformanceMonitor.endMonitoring ?P ?I ?R] =>
           destruct (PerformanceMonitor.endMonitoring P I R) as [[? ?] ?] end;
         discriminate);
    intros [= -> -> ->];
    (eapply Hmiss in Htry;
       [| cbn; rewrite ?Hcache; reflexivity | reflexivity | reflexivity
        | cbn; rewrite Httl; reflexivity | exact Hpos ]);
    destruct Htry as (key & n & Hkey & Hen & Hn & Hreads & Hclock & Hentry & Henv);
    cbn [rt reads clock] in Hn, Hreads, Hclock;
    (destruct (execute_hit b1 w1 key r1 _ Hkey Hen Hentry) as (b2 & w2 & Hex & Hcalls & Hheap);
       [ intros n' Hn'; rewrite Hclock; cbn [rt clock];
         destruct (Hwindow n n' ltac:(lia) ltac:(lia)) as [Hsafe' Hwithin];
         destruct (Hwindow n n ltac:(lia) ltac:(lia)) as [Hsafe _];
         unfold safe_integer in Hsafe', Hsafe;
         change ValidationUtils.MAX_SAFE_INTEGER with (2 ^ 53 - 1) in Hsafe', Hsafe;
         apply expiry_not_reached; lia
       | exists b2, w2; auto ]).
Qed.

End Caching.

(** C1 fails as stated: the second call is served from the cache, with one
    call of the record store in all, but the envelope it returns (the object
    at reference 0, made by the first call) has [cacheHit: false]. *)
Lemma second_execute_reports_no_hit :
  let b :=
    Index.createQueryBuilder Vocabulary.empty_store Vocabulary.caching_on "req_1" in
  let w := AdvancedQueryBuilder.mkWorld Vocabulary.ticking [] [] in
  let first := AdvancedQueryBuilder.execute Vocabulary.stringify_empty b w in
  let second := AdvancedQueryBuilder.execute Vocabulary.stringify_empty first.1.2 first.2 in
  first.1.1 = Ok 0%nat /\
  second.1.1 = Ok 0%nat /\
  AdvancedQueryBuilder.calls second.2 = [AdvancedQueryBuilder.CallFindAll (VObj [])] /\
  AdvancedQueryBuilder.heap second.2
  = [AdvancedQueryBuilder.mkQueryResult (VArr []) None None
       (Some (AdvancedQueryBuilder.mkPerformance (Int (-1)) (Int 1) false))].
Proof. repeat split; vm_compute; reflexivity. Qed.

Lemma second_execute_from_cache_witness :
  let b :=
    Index.createQueryBuilder Vocabulary.empty_store Vocabulary.caching_on "req_1" in
  let w := AdvancedQueryBuilder.mkWorld Vocabulary.ticking [] [] in
  let first := AdvancedQueryBuilder.execute Vocabulary.stringify_empty b w in
  exists b2 w2,
    AdvancedQueryBuilder.execute Vocabulary.stringify_empty first.1.2 first.2
    = (Ok 0%nat, b2, w2) /\
    AdvancedQueryBuilder.calls w2 = AdvancedQueryBuilder.calls first.2 /\
    AdvancedQueryBuilder.heap w2 = AdvancedQueryBuilder.heap first.2 /\
    exists e, AdvancedQueryBuilder.heap first.2 !! 0%nat = Some e /\ Vocabulary.never_hit e.
Proof.
  apply (second_execute_from_cache Vocabulary.stringify_empty Vocabulary.empty_store
           (AdvancedQueryBuilder.mkQueryConfig (Some (Int 10)) (Some (Int 100)) (Some true)
              (Some (Int 300)) (Some (Int 1000)) (Some true))
           "req_1" AdvancedQueryBuilder.empty_options
           (AdvancedQueryBuilder.mkWorld Vocabulary.ticking [] []) _ 300 0%nat).
  - reflexivity.
  - reflexivity.
  - lia.
  - cbn. intros i j Hij Hj. unfold Vocabulary.safe_integer, ValidationUtils.MAX_SAFE_INTEGER.
    lia.
  - vm_compute. reflexivity.
Defined.

(** * Further properties *)

(** ** Pagination: validation, resolution and metadata *)

Section MorePagination.
Import PaginationBuilder Vocabulary.

Variable config : PaginationConfig.

Lemma int_at_least_code (lo : Z) (n : number) :
  int_at_least lo (Some n) = negb (negb (Number_isInteger n) || num_ltb n (Int lo)).
Proof. destruct n; cbn; rewrite ?Z.leb_antisym; reflexivity. Qed.

Lemma validate_well_formed (o : PaginationOptions) :
  (validate config o).1 = well_formed config o.
Proof.
  unfold validate, well_formed, both_modes, within_max.
  destruct o as [[p|] [s|] [f|] [l|]];
    cbn [page pageSize offset limit defined orb andb negb];
    rewrite ?int_at_least_code;
    cbn [orb andb negb int_at_least];
    repeat match goal with
      | |- context [negb (Number_isInteger ?a) || num_ltb ?a ?b] =>
          destruct (negb (Number_isInteger a) || num_ltb a b)
      | |- context [num_gtb ?a ?b] => destruct (num_gtb a b)
      end; reflexivity.
Qed.

(** X1.  [process] returns a resolution exactly for the options in which
    every member that is present is an integer in its range and the two
    modes are not mixed; for all other options it throws a
    [PaginationError] with the code [INVALID_PAGINATION_OPTIONS]. *)
Theorem process_accepts_well_formed (o : PaginationOptions) :
  (well_formed config o = true -> exists r, process config o = Ok r) /\
  (well_formed config o = false ->
   process config o
   = Throw (PaginationError
              ("Invalid pagination options: " +:+ join ", " (validate config o).2)
              "INVALID_PAGINATION_OPTIONS")).
Proof.
  rewrite <- validate_well_formed. unfold process.
  split; intros ->; cbn [negb].
  - destruct (offset o); [destruct (enableOffset config)|]; eauto.
  - reflexivity.
Qed.

(** X2.  An offset-based request (an integer offset of zero or more, and a
    limit that is absent or an integer between 1 and the maximum) resolves,
    when offsets are enabled, to that offset and to that limit, or to the
    default page size when the limit is absent; when offsets are disabled the
    offset and the limit are dropped and the request resolves as the first
    page of the default size. *)
Theorem process_offset_based (f : Z) (l : option Z) :
  0 <= f ->
  (forall z, l = Some z -> 1 <= z /\ num_gtb (Int z) (maxPageSize config) = false) ->
  let size := Math_min (defaultPageSize config) (maxPageSize config) in
  process config (mkPaginationOptions None None (Some (Int f)) (Int <$> l))
  = Ok (if enableOffset config
        then mkResolved (Int f)
               (match l with Some z => Int z | None => defaultPageSize config end)
               (Int 1) size
        else mkResolved (calculateOffset (Int 1) size) size (Int 1) size).
Proof.
  intros Hf Hl size.
  assert (well_formed config (mkPaginationOptions None None (Some (Int f)) (Int <$> l))
          = true) as Hwf.
  { unfold well_formed, both_modes, within_max, int_at_least. cbn.
    assert ((0 <=? f) = true) as -> by lia.
    destruct l as [z|]; cbn; [|reflexivity].
    destruct (Hl z eq_refl) as [Hz ->]. assert ((1 <=? z) = true) as -> by lia.
    reflexivity. }
  unfold process. rewrite validate_well_formed, Hwf. cbn.
  destruct (enableOffset config); [|reflexivity].
  destruct l as [z|]; cbn; [|reflexivity].
  destruct (Hl z eq_refl) as [Hz _].
  unfold num_or, num_truthy. assert ((z =? 0) = false) as -> by lia. reflexivity.
Qed.

Lemma Math_min_bounded (a b : number) :
  a <> NaN -> b <> NaN -> num_leb (Math_min a b) b = true.
Proof.
  destruct a as [x| | |], b as [y| | |]; cbn; intros Ha Hb;
    try congruence; try reflexivity; try lia.
  destruct (y <? x) eqn:H; cbn; lia.
Qed.

Lemma opt_num_or_defined (o : option number) (k : Z) :
  k <> 0 -> opt_num_or o (Int k) <> NaN.
Proof.
  intros Hk. destruct o as [[z| | |]|]; cbn; try congruence.
  unfold num_or, num_truthy. destruct (z =? 0); cbn; congruence.
Qed.

End MorePagination.

Lemma process_offset_based_witness :
  let config := PaginationBuilder.new None None None None in
  PaginationBuilder.process config
    (PaginationBuilder.mkPaginationOptions None None (Some (Int 40)) (Int <$> Some 25))
  = Ok (if PaginationBuilder.enableOffset config
        then PaginationBuilder.mkResolved (Int 40)
               (match Some 25 with
                | Some z => Int z
                | None => PaginationBuilder.defaultPageSize config
                end)
               (Int 1)
               (Math_min (PaginationBuilder.defaultPageSize config)
                  (PaginationBuilder.maxPageSize config))
        else PaginationBuilder.mkResolved
               (PaginationBuilder.calculateOffset (Int 1)
                  (Math_min (PaginationBuilder.defaultPageSize config)
                     (PaginationBuilder.maxPageSize config)))
               (Math_min (PaginationBuilder.defaultPageSize config)
                  (PaginationBuilder.maxPageSize config))
               (Int 1)
               (Math_min (PaginationBuilder.defaultPageSize config)
                  (PaginationBuilder.maxPageSize config))).
Proof.
  apply (process_offset_based (PaginationBuilder.new None None None None) 40 (Some 25)).
  - lia.
  - intros z [= <-]. split; [lia | reflexivity].
Defined.

(** X3.  With a configuration made by the constructor, a request that has
    no offset resolves to a limit that equals the page size and does not
    exceed the maximum page size, and to the offset of that page. *)
Theorem page_mode_limit_bounded (d m : option number) (eo ec : option bool)
    (o : PaginationBuilder.PaginationOptions) (r : PaginationBuilder.Resolved) :
  PaginationBuilder.offset o = None ->
  PaginationBuilder.process (PaginationBuilder.new d m eo ec) o = Ok r ->
  PaginationBuilder.r_limit r = PaginationBuilder.r_pageSize r /\
  num_leb (PaginationBuilder.r_limit r)
    (PaginationBuilder.maxPageSize (PaginationBuilder.new d m eo ec)) = true /\
  PaginationBuilder.r_offset r
  = PaginationBuilder.calculateOffset (PaginationBuilder.r_page r)
      (PaginationBuilder.r_pageSize r).
Proof.
  intros Hoff. unfold PaginationBuilder.process.
  rewrite validate_well_formed.
  destruct (Vocabulary.well_formed _ o) eqn:Hwf; cbn [negb]; [|discriminate].
  rewrite Hoff. intros [= <-]. cbn.
  split; [reflexivity|]. split; [|reflexivity].
  apply Math_min_bounded; [|apply opt_num_or_defined; lia].
  unfold Vocabulary.well_formed in Hwf.
  destruct (PaginationBuilder.pageSize o) as [[z| | |]|]; cbn in Hwf;
    rewrite ?andb_false_r in Hwf; try discriminate; cbn.
  - unfold num_or, num_truthy. destruct (z =? 0); cbn; [|congruence].
    apply opt_num_or_defined; lia.
  - apply opt_num_or_defined; lia.
Qed.
Lemma page_mode_limit_bounded_witness :
  let config := PaginationBuilder.new (Some (Int 500)) (Some (Int 50)) None None in
  let r := PaginationBuilder.mkResolved (Int 100) (Int 50) (Int 3) (Int 50) in
  PaginationBuilder.r_limit r = PaginationBuilder.r_pageSize r /\
  num_leb (PaginationBuilder.r_limit r) (PaginationBuilder.maxPageSize config) = true /\
  PaginationBuilder.r_offset r
  = PaginationBuilder.calculateOffset (PaginationBuilder.r_page r)
      (PaginationBuilder.r_pageSize r).
Proof.
  apply (page_mode_limit_bounded (Some (Int 500)) (Some (Int 50)) None None
           (PaginationBuilder.mkPaginationOptions (Some (Int 3)) None None None));
    reflexivity.
Defined.

Section Pages.
Import PaginationBuilder Vocabulary.

(** What [calculateOffset] returns for a page size of one or more, as far
    as a safe bound [b] can tell: the exact product below [b], a negative
    number for a page below one, and [b] or more otherwise. *)
Lemma calculateOffset_cases (page pageSize b : Z) :
  1 <= pageSize -> 0 <= b < 2 ^ 53 ->
  (page < 1 -> num_ltb (calculateOffset (Int page) (Int pageSize)) (Int 0) = true) /\
  (1 <= page -> (page - 1) * pageSize < b ->
   calculateOffset (Int page) (Int pageSize) = Int ((page - 1) * pageSize)) /\
  (1 <= page -> b <= (page - 1) * pageSize ->
   num_leb (Int b) (calculateOffset (Int page) (Int pageSize)) = true).
Proof.
  intros Hs Hb. unfold calculateOffset, num_sub, num_add, num_neg.
  replace (page + - (1)) with (page - 1) by lia.
  split; [|split].
  - intros Hp.
    pose proof (round_double_at_most (-1) (page - 1) ltac:(lia) ltac:(lia)) as H1.
    destruct (round_double (page - 1)) as [r| | |]; cbn in H1; try discriminate.
    + unfold num_mul.
      pose proof (round_double_at_most (-1) (r * pageSize) ltac:(lia) ltac:(nia)) as H2.
      destruct (round_double (r * pageSize)); cbn in *; try discriminate; lia.
    + cbn. assert ((pageSize =? 0) = false) as -> by lia.
      assert ((0 <? pageSize) = true) as -> by lia. reflexivity.
  - intros Hp Hlt. assert (page - 1 <= (page - 1) * pageSize) by nia.
    rewrite round_double_safe by lia. unfold num_mul.
    rewrite round_double_safe by nia. reflexivity.
  - intros Hp Hge.
    destruct (Z.lt_ge_cases (page - 1) (2 ^ 53)) as [Hsmall | Hlarge].
    + rewrite round_double_safe by lia. unfold num_mul.
      apply round_double_at_least; lia.
    + pose proof (round_double_at_least (2 ^ 53 - 1) (page - 1) ltac:(lia) ltac:(lia)) as H1.
      destruct (round_double (page - 1)) as [r| | |]; cbn in H1; try discriminate.
      * unfold num_mul. apply round_double_at_least; [lia | nia].
      * cbn. assert ((pageSize =? 0) = false) as -> by lia.
        assert ((0 <? pageSize) = true) as -> by lia. reflexivity.
Qed.

(** The number of pages of a total that is a safe integer, for a page size
    of one or more: the ceiling of the quotient, and zero or less for a
    negative total. *)
Lemma calculateTotalPages_cases (total pageSize : Z) :
  total <= ValidationUtils.MAX_SAFE_INTEGER -> 1 <= pageSize ->
  (0 <= total /\
   calculateTotalPages (Int total) (Int pageSize) = Int (- ((- total) / pageSize))) \/
  (total < 0 /\ num_leb (calculateTotalPages (Int total) (Int pageSize)) (Int 0) = true).
Proof.
  intros Ht Hs. destruct (Z.le_gt_cases 0 total).
  - left. split; [assumption|]. apply calculateTotalPages_safe; lia.
  - right. split; [assumption|]. unfold calculateTotalPages, Math_ceil_div.
    assert ((pageSize =? 0) = false) as -> by lia.
    apply ceil_quotient_negative; lia.
Qed.

(** X4.  For a total of zero or more rows that is a safe integer and a page
    and page size of one or more, [hasNext] says exactly that there are rows
    beyond the page ([page * pageSize < total]) and the number of pages is
    zero exactly when there are no rows. *)
Theorem hasNext_iff_rows_beyond (rows : value) (total page pageSize : Z) :
  0 <= total -> total <= ValidationUtils.MAX_SAFE_INTEGER ->
  1 <= page -> 1 <= pageSize ->
  hasNext (pagination (buildResult rows (Int total) (Int page) (Int pageSize)))
  = (page * pageSize <? total) /\
  (totalPages (pagination (buildResult rows (Int total) (Int page) (Int pageSize))) = Int 0
   <-> total = 0).
Proof.
  intros Ht Hsafe Hp Hs.
  unfold buildResult. rewrite calculateTotalPages_safe by lia. cbn.
  pose proof (ceiling_bounds total pageSize ltac:(lia)) as Hb.
  set (n := - (- total / pageSize)) in *. split.
  - destruct (Z.ltb_spec page n), (Z.ltb_spec (page * pageSize) total);
      try reflexivity; exfalso; nia.
  - split; [intros [= Hn]; nia | intros ->; f_equal; nia].
Qed.

(** X5.  For a total that is a safe integer and a page size of one or
    more, a page number passes [validatePage] against the number of pages of
    the total exactly when the offset of that page passes [validateOffset]
    against the total. *)
Theorem validatePage_iff_validateOffset (total page pageSize : Z) :
  total <= ValidationUtils.MAX_SAFE_INTEGER -> 1 <= pageSize ->
  validatePage (Int page) (calculateTotalPages (Int total) (Int pageSize)) = Ok tt
  <-> validateOffset (calculateOffset (Int page) (Int pageSize)) (Int total) = Ok tt.
Proof.
  intros Hsafe Hs.
  assert (total < 2 ^ 53) as Hsafe'.
  { change ValidationUtils.MAX_SAFE_INTEGER with (2 ^ 53 - 1) in Hsafe. lia. }
  pose proof (calculateOffset_cases page pageSize (Z.max 0 total) Hs ltac:(lia))
    as (Hneg & Hexact & Hbeyond).
  unfold validatePage, validateOffset, num_gtb, num_geb.
  destruct (calculateTotalPages_cases total pageSize Hsafe Hs) as [[Ht ->] | [Ht Hn]].
  - pose proof (ceiling_bounds total pageSize ltac:(lia)) as Hb.
    set (n := - (- total / pageSize)) in *. cbn [num_ltb].
    destruct (Z.ltb_spec page 1) as [Hp | Hp]; cbn [orb].
    { rewrite Hneg by lia. cbn. split; discriminate. }
    destruct (Z.ltb_spec n page) as [Hn | Hn].
    + assert (n * pageSize <= (page - 1) * pageSize) by nia.
      specialize (Hbeyond Hp ltac:(lia)).
      assert (num_leb (Int total) (calculateOffset (Int page) (Int pageSize)) = true) as ->.
      { destruct (calculateOffset (Int page) (Int pageSize)); cbn in *; try done. lia. }
      rewrite orb_true_r. split; discriminate.
    + assert ((page - 1) * pageSize <= (n - 1) * pageSize) by nia.
      rewrite Hexact by lia. cbn.
      assert (0 <= (page - 1) * pageSize) by nia.
      assert (((page - 1) * pageSize <? 0) = false) as -> by lia.
      assert ((total <=? (page - 1) * pageSize) = false) as -> by lia.
      split; reflexivity.
  - assert (num_ltb (Int page) (Int 1)
            || num_ltb (calculateTotalPages (Int total) (Int pageSize)) (Int page) = true) as ->.
    { cbn [num_ltb]. destruct (Z.ltb_spec page 1) as [Hp | Hp]; cbn [orb]; [reflexivity|].
      destruct (calculateTotalPages (Int total) (Int pageSize)); cbn in *; try done. lia. }
    destruct (Z.lt_ge_cases page 1) as [Hp | Hp].
    + rewrite Hneg by lia. cbn. split; discriminate.
    + assert (0 <= (page - 1) * pageSize) by nia.
      specialize (Hbeyond Hp ltac:(lia)).
      assert (num_leb (Int total) (calculateOffset (Int page) (Int pageSize)) = true) as ->.
      { destruct (calculateOffset (Int page) (Int pageSize)); cbn in *; try done. lia. }
      rewrite orb_true_r. split; discriminate.
Qed.


(** X6.  For a total that is a safe integer and a page that exists
    ([1 <= page <= totalPages]) the metadata of [getMetadata] gives a row
    range inside the result: [startIndex] is [(page - 1) * pageSize],
    [0 <= startIndex <= endIndex < total], the range holds at most [pageSize]
    rows and exactly [pageSize] when there is a next page; the other members
    are those of [buildResult]. *)
Theorem getMetadata_range (rows : value) (total page pageSize : Z) :
  total <= ValidationUtils.MAX_SAFE_INTEGER -> 1 <= pageSize ->
  validatePage (Int page) (calculateTotalPages (Int total) (Int pageSize)) = Ok tt ->
  exists first last : Z,
    startIndex (getMetadata (Int page) (Int pageSize) (Int total)) = Int first /\
    endIndex (getMetadata (Int page) (Int pageSize) (Int total)) = Int last /\
    first = (page - 1) * pageSize /\
    0 <= first <= last /\ last < total /\
    last - first + 1 <= pageSize /\
    (m_hasNext (getMetadata (Int page) (Int pageSize) (Int total)) = true ->
     last - first + 1 = pageSize) /\
    pagination (buildResult rows (Int total) (Int page) (Int pageSize))
    = (let m := getMetadata (Int page) (Int pageSize) (Int total) in
       mkPagination (m_page m) (m_pageSize m) (m_total m) (m_totalPages m)
         (m_hasNext m) (m_hasPrev m)).
Proof.
  intros Hsafe Hs Hpage.
  assert (total < 2 ^ 53) as Hsafe'.
  { change ValidationUtils.MAX_SAFE_INTEGER with (2 ^ 53 - 1) in Hsafe. lia. }
  unfold validatePage, num_gtb in Hpage.
  destruct (calculateTotalPages_cases total pageSize Hsafe Hs) as [[Ht Hn] | [Ht Hn]];
    cycle 1.
  { exfalso. cbn [num_ltb] in Hpage.
    destruct (Z.ltb_spec page 1); cbn [orb] in Hpage; [discriminate|].
    destruct (calculateTotalPages (Int total) (Int pageSize)) as [z| | |]; cbn in *;
      try done.
    destruct (Z.ltb_spec z page); [discriminate | lia]. }
  rewrite Hn in Hpage. cbn [num_ltb] in Hpage.
  pose proof (ceiling_bounds total pageSize ltac:(lia)) as Hb.
  unfold getMetadata, buildResult. rewrite Hn.
  set (n := - (- total / pageSize)) in *.
  destruct (Z.ltb_spec page 1), (Z.ltb_spec n page); cbn in Hpage; try discriminate.
  assert ((page - 1) * pageSize <= (n - 1) * pageSize) by nia.
  assert (0 <= (page - 1) * pageSize) by nia.
  pose proof (calculateOffset_cases page pageSize total Hs ltac:(lia)) as (_ & Hexact & _).
  unfold calculateOffset in Hexact. rewrite Hexact by lia.
  cbn [startIndex endIndex m_hasNext m_page m_pageSize m_total m_totalPages m_hasPrev
       pagination num_ltb].
  set (first := (page - 1) * pageSize) in *.
  assert (num_sub (Int total) (Int 1) = Int (total - 1)) as ->.
  { unfold num_sub, num_add, num_neg. rewrite round_double_safe by lia. f_equal; lia. }
  destruct (Z.ltb_spec page n) as [Hnext | Hlast].
  - assert (first + pageSize <= (n - 1) * pageSize) by (subst first; nia).
    exists first, (first + pageSize - 1).
    split; [reflexivity|]. split.
    { unfold num_sub, num_add, num_neg. rewrite round_double_safe by lia.
      rewrite round_double_safe by lia. unfold Math_min. cbn [num_ltb].
      destruct (Z.ltb_spec (total - 1) (first + pageSize + - (1))); f_equal; lia. }
    repeat split; lia.
  - assert (total <= first + pageSize) by (subst first; nia).
    exists first, (total - 1).
    split; [reflexivity|]. split.
    { unfold num_sub, num_add at 2, num_neg.
      pose proof (round_double_at_least total (first + pageSize) ltac:(lia) ltac:(lia))
        as Hsum.
      destruct (round_double (first + pageSize)) as [r| | |]; cbn in Hsum;
        try discriminate; [|reflexivity].
      unfold num_add.
      apply Z.leb_le in Hsum.
      match goal with |- context [round_double ?t] =>
        pose proof (round_double_at_least (total - 1) t ltac:(lia) ltac:(lia)) as Hend;
        destruct (round_double t) as [r'| | |]
      end; cbn in Hend; try discriminate; [|reflexivity].
      cbn. destruct (Z.ltb_spec (total - 1) r'); [reflexivity | f_equal; lia]. }
    repeat split; try lia; discriminate.
Qed.

(** X7.  [disable] does not switch pagination off: after it, a page-based
    request without a page size, for a page that is an integer double of one
    or more, resolves to a limit of zero rows (for a maximum page size of
    zero or more), and [isEnabled] is false until [enable] sets a positive
    default again. *)
Theorem disable_resolves_to_empty_page (config : PaginationConfig) (p : Z) :
  1 <= p -> is_double p -> num_leb (Int 0) (maxPageSize config) = true ->
  process (disable config) (mkPaginationOptions (Some (Int p)) None None None)
  = Ok (mkResolved (Int 0) (Int 0) (Int p) (Int 0)) /\
  isEnabled (disable config) = false /\
  isEnabled (enable (disable config) None) = true.
Proof.
  intros Hp Hd Hmax. split; [|split; reflexivity].
  unfold process. rewrite validate_well_formed.
  unfold well_formed, both_modes, within_max, int_at_least. cbn.
  assert ((1 <=? p) = true) as -> by lia. cbn.
  unfold num_or, num_truthy. assert ((p =? 0) = false) as -> by lia. cbn.
  assert (calculateOffset (Int p) (Int 0) = Int 0) as Hoff.
  { unfold calculateOffset, num_sub, num_add, num_neg.
    replace (p + - (1)) with (p - 1) by lia.
    destruct (round_double_pred p Hp Hd) as (r & -> & Hr).
    unfold num_mul. rewrite Z.mul_0_r. reflexivity. }
  destruct (maxPageSize config) as [m| | |]; cbn in *; try discriminate.
  - assert ((m <? 0) = false) as -> by lia. cbn. rewrite Hoff. reflexivity.
  - cbn. rewrite Hoff. reflexivity.
Qed.

End Pages.

Lemma hasNext_iff_rows_beyond_witness :
  PaginationBuilder.hasNext
    (PaginationBuilder.pagination
       (PaginationBuilder.buildResult (VArr []) (Int 40) (Int 2) (Int 20)))
  = (2 * 20 <? 40) /\
  (PaginationBuilder.totalPages
     (PaginationBuilder.pagination
        (PaginationBuilder.buildResult (VArr []) (Int 40) (Int 2) (Int 20))) = Int 0
   <-> 40 = 0).
Proof.
  apply (hasNext_iff_rows_beyond (VArr []) 40 2 20);
    unfold ValidationUtils.MAX_SAFE_INTEGER; lia.
Defined.

Lemma validatePage_iff_validateOffset_witness :
  PaginationBuilder.validatePage (Int 3)
    (PaginationBuilder.calculateTotalPages (Int 45) (Int 20)) = Ok tt
  <-> PaginationBuilder.validateOffset
        (PaginationBuilder.calculateOffset (Int 3) (Int 20)) (Int 45) = Ok tt.
Proof.
  apply (validatePage_iff_validateOffset 45 3 20);
    unfold ValidationUtils.MAX_SAFE_INTEGER; lia.
Defined.

Lemma getMetadata_range_witness :
  exists first last : Z,
    PaginationBuilder.startIndex (PaginationBuilder.getMetadata (Int 3) (Int 20) (Int 45))
    = Int first /\
    PaginationBuilder.endIndex (PaginationBuilder.getMetadata (Int 3) (Int 20) (Int 45))
    = Int last /\
    first = (3 - 1) * 20 /\
    0 <= first <= last /\ last < 45 /\
    last - first + 1 <= 20 /\
    (PaginationBuilder.m_hasNext (PaginationBuilder.getMetadata (Int 3) (Int 20) (Int 45))
     = true -> last - first + 1 = 20) /\
    PaginationBuilder.pagination
      (PaginationBuilder.buildResult (VArr []) (Int 45) (Int 3) (Int 20))
    = (let m := PaginationBuilder.getMetadata (Int 3) (Int 20) (Int 45) in
       PaginationBuilder.mkPagination (PaginationBuilder.m_page m)
         (PaginationBuilder.m_pageSize m) (PaginationBuilder.m_total m)
         (PaginationBuilder.m_totalPages m) (PaginationBuilder.m_hasNext m)
         (PaginationBuilder.m_hasPrev m)).
Proof.
  apply (getMetadata_range (VArr []) 45 3 20);
    [unfold ValidationUtils.MAX_SAFE_INTEGER; lia | lia | reflexivity].
Defined.

Lemma disable_resolves_to_empty_page_witness :
  let config := PaginationBuilder.new None None None None in
  PaginationBuilder.process (PaginationBuilder.disable config)
    (PaginationBuilder.mkPaginationOptions (Some (Int 2)) None None None)
  = Ok (PaginationBuilder.mkResolved (Int 0) (Int 0) (Int 2) (Int 0)) /\
  PaginationBuilder.isEnabled (PaginationBuilder.disable config) = false /\
  PaginationBuilder.isEnabled
    (PaginationBuilder.enable (PaginationBuilder.disable config) None) = true.
Proof.
  apply (disable_resolves_to_empty_page (PaginationBuilder.new None None None None) 2);
    [lia | reflexivity | reflexivity].
Defined.

(** ** The cache *)

Section CacheProperties.
Import Runtime CacheManager Terms.

Context {V : Type}.
Implicit Types (c : CacheManager V) (p : MemoryCacheProvider V).

Lemma append_cancel (p a b : string) : p +:+ a = p +:+ b -> a = b.
Proof. induction p as [|ch p IH]; cbn; [auto | intros [= H]; auto]. Qed.

(** X8.  An entry written by [set] on an enabled manager is read back by
    [get] and reported by [has] as long as the clock does not read more than
    the expiry time (the time of the write plus the effective TTL in seconds
    times 1000); once it does, [get] returns [null], [has] returns [false],
    and either call deletes the entry. *)
Theorem set_then_get c (key : string) (v : V) (ttl : option number) (rt : Runtime.t) :
  enabled c = true ->
  let expires :=
    num_add (Int (clock rt (reads rt))) (num_mul (effective_ttl c ttl) (Int 1000)) in
  let c1 := (set c key v ttl rt).1 in
  let rt1 := (set c key v ttl rt).2 in
  let rt2 := Runtime.mk (clock rt) (S (S (reads rt))) (console rt) in
  let evicted :=
    mkCacheManager (provider_del (provider c1) (keyPrefix c +:+ key)) true (defaultTTL c)
      (keyPrefix c) in
  cache (provider c1) !! (keyPrefix c +:+ key) = Some (v, expires) /\
  (num_gtb (Int (clock rt (S (reads rt)))) expires = false ->
   get c1 key rt1 = (Some v, c1, rt2) /\ has c1 key rt1 = (true, c1, rt2)) /\
  (num_gtb (Int (clock rt (S (reads rt)))) expires = true ->
   get c1 key rt1 = (None, evicted, rt2) /\ has c1 key rt1 = (false, evicted, rt2) /\
   cache (provider evicted) !! (keyPrefix c +:+ key) = None).
Proof.
  intros Hen. destruct c as [[ca pd] en dt kp]. cbn in Hen. subst en.
  unfold set, get, has, provider_set, provider_get, provider_has, provider_del,
    effective_ttl, Date_now.
  cbn [enabled provider defaultTTL keyPrefix cache provider_defaultTTL negb fst snd
       clock reads console opt_num_or].
  rewrite !lookup_insert_eq. cbn [clock reads console].
  split; [reflexivity|]. split; intros ->.
  - split; reflexivity.
  - split; [reflexivity|]. split; [reflexivity|]. apply lookup_delete_eq.
Qed.

(** X9.  A TTL that is falsy is never applied: [set] with a TTL of 0 or NaN
    stores what [set] without a TTL stores, and on a manager whose own
    default is falsy as well the entry gets the default of the provider. *)
Theorem falsy_ttl_falls_back c (key : string) (v : V) (rt : Runtime.t) :
  set c key v (Some (Int 0)) rt = set c key v None rt /\
  set c key v (Some NaN) rt = set c key v None rt /\
  (num_truthy (defaultTTL c) = false ->
   effective_ttl c None = provider_defaultTTL (provider c) /\
   effective_ttl c (Some (Int 0)) = provider_defaultTTL (provider c)).
Proof.
  split; [reflexivity|]. split; [reflexivity|].
  intros H. unfold effective_ttl. cbn. unfold num_or. cbn. rewrite H. split; reflexivity.
Qed.

(** X10.  [del] on an enabled manager removes the entry of its key, so that
    [get] returns [null] without reading the clock, and leaves the entry of
    every other key as it is; [clear] removes every entry. *)
Theorem del_removes_one_key c (key : string) :
  enabled c = true ->
  (forall rt, get (del c key) key rt = (None, del c key, rt)) /\
  (forall key', key' <> key ->
     cache (provider (del c key)) !! (keyPrefix c +:+ key')
     = cache (provider c) !! (keyPrefix c +:+ key')) /\
  (forall key' rt, get (clear c) key' rt = (None, clear c, rt)).
Proof.
  intros Hen. destruct c as [[ca pd] en dt kp]. cbn in Hen. subst en.
  unfold del, clear, get, provider_get, provider_del, provider_clear.
  cbn [enabled provider defaultTTL keyPrefix cache provider_defaultTTL negb].
  split; [|split].
  - intros rt. rewrite lookup_delete_eq. reflexivity.
  - intros key' Hne. apply lookup_delete_ne. intros Heq.
    apply append_cancel in Heq. congruence.
  - intros key' rt. rewrite lookup_empty. reflexivity.
Qed.

(** X11.  On an enabled manager that has no entry for the key, [getOrSet]
    runs the factory once and stores its value.  A second [getOrSet] of the
    key, before the entry expires, returns that value without running its
    factory, whatever the factory is, when the value is not [null]; a stored
    [null] reads as a miss, and the second call runs its factory and stores
    again.  When the factory throws, nothing is stored. *)
Theorem getOrSet_runs_factory_once {T : Type} (is_null : V -> bool) c (key : string)
    (factory : T -> result V * T) (ttl : option number) (st : T) (rt : Runtime.t) :
  enabled c = true ->
  cache (provider c) !! (keyPrefix c +:+ key) = None ->
  match factory st with
  | (Ok v, st1) =>
      let c1 := (set c key v ttl rt).1 in
      let rt1 := (set c key v ttl rt).2 in
      getOrSet is_null c key factory ttl st rt = (Ok v, c1, st1, rt1) /\
      forall (factory' : T -> result V * T) (ttl' : option number) (st' : T),
        num_gtb (Int (clock rt (S (reads rt))))
          (num_add (Int (clock rt (reads rt))) (num_mul (effective_ttl c ttl) (Int 1000)))
        = false ->
        let rt2 := Runtime.mk (clock rt) (S (S (reads rt))) (console rt) in
        getOrSet is_null c1 key factory' ttl' st' rt1
        = if is_null v then
            match factory' st' with
            | (Ok v', st1') =>
                (Ok v', (set c1 key v' ttl' rt2).1, st1', (set c1 key v' ttl' rt2).2)
            | (Throw t, st1') => (Throw t, c1, st1', rt2)
            end
          else (Ok v, c1, st', rt2)
  | (Throw t, st1) => getOrSet is_null c key factory ttl st rt = (Throw t, c, st1, rt)
  end.
Proof.
  intros Hen Hnone. destruct c as [[ca pd] en dt kp]. cbn in Hen, Hnone. subst en.
  destruct (factory st) as [[v|t] st1] eqn:Hf.
  - cbv zeta. split.
    + unfold getOrSet, get, provider_get. cbn. rewrite Hnone, Hf. reflexivity.
    + intros factory' ttl' st' Hfresh.
      unfold getOrSet, get, set, provider_get, provider_set, Date_now, effective_ttl in *.
      cbn [enabled provider defaultTTL keyPrefix cache provider_defaultTTL negb fst snd
           clock reads console opt_num_or] in *.
      rewrite lookup_insert_eq. cbn [clock reads console]. rewrite Hfresh.
      destruct (is_null v); [|reflexivity].
      destruct (factory' st') as [[v'|t] st1']; reflexivity.
  - unfold getOrSet, get, provider_get. cbn. rewrite Hnone, Hf. reflexivity.
Qed.

(** X12.  [cleanup] deletes exactly the entries that have expired at the
    one clock reading it takes: an entry is in the cache afterwards if and only
    if it was there before and the reading is not greater than its expiry
    time; the cache does not grow. *)
Theorem cleanup_removes_expired p (rt : Runtime.t) :
  (forall (key : string) (v : V) (expires : number),
     cache (cleanup p rt).1 !! key = Some (v, expires)
     <-> cache p !! key = Some (v, expires)
         /\ num_gtb (Int (clock rt (reads rt))) expires = false) /\
  (provider_size (cleanup p rt).1 <= provider_size p)%nat /\
  reads (cleanup p rt).2 = S (reads rt).
Proof.
  unfold cleanup, Date_now, provider_size. cbn. split; [|split; [|reflexivity]].
  - intros key v expires. rewrite map_lookup_filter_Some. reflexivity.
  - apply map_subseteq_size, map_filter_subseteq.
Qed.

End CacheProperties.

Lemma set_then_get_witness :
  let c : CacheManager.CacheManager nat := CacheManager.new (Some true) (Some (Int 60)) in
  let rt := Vocabulary.ticking in
  let expires :=
    num_add (Int (Runtime.clock rt (Runtime.reads rt)))
      (num_mul (Terms.effective_ttl c None) (Int 1000)) in
  let c1 := (CacheManager.set c "k" 7%nat None rt).1 in
  let rt1 := (CacheManager.set c "k" 7%nat None rt).2 in
  let rt2 :=
    Runtime.mk (Runtime.clock rt) (S (S (Runtime.reads rt))) (Runtime.console rt) in
  let evicted :=
    CacheManager.mkCacheManager
      (CacheManager.provider_del (CacheManager.provider c1)
         (CacheManager.keyPrefix c +:+ "k")) true (CacheManager.defaultTTL c)
      (CacheManager.keyPrefix c) in
  CacheManager.cache (CacheManager.provider c1) !! (CacheManager.keyPrefix c +:+ "k")
  = Some (7%nat, expires) /\
  (num_gtb (Int (Runtime.clock rt (S (Runtime.reads rt)))) expires = false ->
   CacheManager.get c1 "k" rt1 = (Some 7%nat, c1, rt2)
   /\ CacheManager.has c1 "k" rt1 = (true, c1, rt2)) /\
  (num_gtb (Int (Runtime.clock rt (S (Runtime.reads rt)))) expires = true ->
   CacheManager.get c1 "k" rt1 = (None, evicted, rt2)
   /\ CacheManager.has c1 "k" rt1 = (false, evicted, rt2)
   /\ CacheManager.cache (CacheManager.provider evicted)
        !! (CacheManager.keyPrefix c +:+ "k") = None).
Proof.
  apply (set_then_get (CacheManager.new (Some true) (Some (Int 60))) "k" 7%nat None
           Vocabulary.ticking).
  reflexivity.
Defined.

Lemma del_removes_one_key_witness :
  let c : CacheManager.CacheManager nat :=
    (CacheManager.set (CacheManager.new (Some true) None) "k" 7%nat None
       Vocabulary.ticking).1 in
  (forall rt, CacheManager.get (CacheManager.del c "k") "k" rt
              = (None, CacheManager.del c "k", rt)) /\
  (forall key', key' <> "k" ->
     CacheManager.cache (CacheManager.provider (CacheManager.del c "k"))
       !! (CacheManager.keyPrefix c +:+ key')
     = CacheManager.cache (CacheManager.provider c) !! (CacheManager.keyPrefix c +:+ key')) /\
  (forall key' rt, CacheManager.get (CacheManager.clear c) key' rt
                   = (None, CacheManager.clear c, rt)).
Proof.
  apply (del_removes_one_key
           (CacheManager.set (CacheManager.new (Some true) None) "k" 7%nat None
              Vocabulary.ticking).1 "k").
  reflexivity.
Defined.

Lemma getOrSet_runs_factory_once_witness :
  let c : CacheManager.CacheManager value := CacheManager.new (Some true) None in
  let is_null := fun v : value => match v with VNull => true | _ => false end in
  let factory := fun n : nat => (Ok (VStr "row"), S n) in
  let rt := Vocabulary.ticking in
  let c1 := (CacheManager.set c "k" (VStr "row") None rt).1 in
  let rt1 := (CacheManager.set c "k" (VStr "row") None rt).2 in
  CacheManager.getOrSet is_null c "k" factory None 0%nat rt
  = (Ok (VStr "row"), c1, 1%nat, rt1) /\
  forall (factory' : nat -> result value * nat) (ttl' : option number) (st' : nat),
    num_gtb (Int (Runtime.clock rt (S (Runtime.reads rt))))
      (num_add (Int (Runtime.clock rt (Runtime.reads rt)))
         (num_mul (Terms.effective_ttl c None) (Int 1000)))
    = false ->
    let rt2 := Runtime.mk (Runtime.clock rt) (S (S (Runtime.reads rt))) (Runtime.console rt) in
    CacheManager.getOrSet is_null c1 "k" factory' ttl' st' rt1
    = (Ok (VStr "row"), c1, st', rt2).
Proof.
  apply (getOrSet_runs_factory_once
           (fun v : value => match v with VNull => true | _ => false end)
           (CacheManager.new (Some true) None) "k"
           (fun n : nat => (Ok (VStr "row"), S n)) None 0%nat Vocabulary.ticking);
    reflexivity.
Defined.

(** ** The performance monitor: counters and handles *)

Section MonitorProperties.
Import Runtime PerformanceMonitor Terms.

Lemma record_step (pm : PerformanceMonitor) (monitorId : string) (e : recording)
    (m : Z * Z * Z * Z * Z) (total : number) :
  enabled pm = true -> monitorId <> "" ->
  safe_tally (tally m [e]) ->
  metrics pm !! monitorId = Some (metrics_of m total) ->
  enabled (record pm monitorId e) = true /\
  metrics (record pm monitorId e) !! monitorId = Some (metrics_of (tally m [e]) total) /\
  forall other, other <> monitorId ->
    metrics (record pm monitorId e) !! other = metrics pm !! other.
Proof.
  intros He Hid Hsafe Hm. apply String.eqb_neq in Hid.
  destruct m as [[[[time memory] queries] hits] misses].
  destruct e; cbn in Hsafe; unfold Vocabulary.safe_integer in Hsafe;
    change ValidationUtils.MAX_SAFE_INTEGER with (2 ^ 53 - 1) in Hsafe; cbn [record];
    unfold recordQueryExecution, recordCacheHit, recordCacheMiss, recordMemoryUsage;
    rewrite He, Hid; cbn [negb orb metrics enabled];
    (split; [reflexivity|]);
    (split; [rewrite lookup_alter_eq, Hm; cbn; unfold num_add;
             rewrite ?round_double_safe by lia; reflexivity|]);
    intros other Hne; apply lookup_alter_ne; congruence.
Qed.

Lemma record_all_counts (l : list recording) (pm : PerformanceMonitor) (monitorId : string)
    (m : Z * Z * Z * Z * Z) (total : number) :
  enabled pm = true -> monitorId <> "" ->
  (forall k, safe_tally (tally m (take k l))) ->
  metrics pm !! monitorId = Some (metrics_of m total) ->
  metrics (record_all pm monitorId l) !! monitorId = Some (metrics_of (tally m l) total) /\
  forall other, other <> monitorId ->
    metrics (record_all pm monitorId l) !! other = metrics pm !! other.
Proof.
  revert pm m. induction l as [|e l IH]; intros pm m He Hid Hsafe Hm; [split; auto|].
  assert (forall r, tally m (e :: r) = tally (tally m [e]) r) as Hcons.
  { intros r. destruct m as [[[[time memory] queries] hits] misses]. destruct e; reflexivity. }
  destruct (record_step pm monitorId e m total He Hid (Hsafe 1%nat) Hm) as (He1 & Hm1 & Hother1).
  rewrite Hcons.
  unfold record_all. cbn [fold_left].
  destruct (IH (record pm monitorId e) (tally m [e]) He1 Hid) as [Hm2 Hother2];
    [intros k; rewrite <- Hcons; exact (Hsafe (S k)) | exact Hm1 |].
  split; [exact Hm2|]. intros other Hne.
  unfold record_all in Hother2. rewrite Hother2, Hother1 by assumption. reflexivity.
Qed.

Lemma monitor_id_not_empty (context : QueryContext) (rt : Runtime.t) :
  (generateMonitorId context rt).1 <> "".
Proof.
  unfold generateMonitorId, Date_now. cbn.
  destruct (method context); cbn; discriminate.
Qed.

(** X13.  The counters of a handle accumulate over any sequence of
    recordings made after [startMonitoring] on an enabled monitor, as long as
    the running counters stay safe integers: the query time is the sum of the
    elapsed times recorded, the query count their number, the hits and misses
    the numbers of hit and miss recordings, the memory usage the last one
    recorded; the counters of every other handle stay as they were. *)
Theorem recordings_accumulate (pm : PerformanceMonitor) (context : QueryContext)
    (rt : Runtime.t) (l : list recording) :
  enabled pm = true ->
  (forall k, safe_tally (tally (0, 0, 0, 0, 0) (take k l))) ->
  let monitorId := (startMonitoring pm context rt).1.1 in
  let started := (startMonitoring pm context rt).1.2 in
  getMetrics (record_all started monitorId l) monitorId
  = Some (metrics_of (tally (0, 0, 0, 0, 0) l) (Int 0)) /\
  forall other, other <> monitorId ->
    getMetrics (record_all started monitorId l) other = getMetrics pm other.
Proof.
  intros He Hsafe. destruct pm as [ms en th]. cbn in He. subst en.
  unfold startMonitoring. cbn [negb enabled metrics threshold].
  pose proof (monitor_id_not_empty context rt) as Hid.
  destruct (generateMonitorId context rt) as [monitorId rt1]. cbn [fst snd] in *.
  unfold getMetrics.
  destruct (record_all_counts l
              (mkMonitor (<[monitorId := mkMetrics (Int 0) (Int 0) (Int 0) (Int 0) (Int 0)
                                           (Int 0)]> ms) true th)
              monitorId (0, 0, 0, 0, 0) (Int 0) eq_refl Hid Hsafe
              ltac:(cbn; apply lookup_insert_eq)) as [Hm Hother].
  split; [exact Hm|]. intros other Hne. rewrite Hother by assumption.
  cbn. apply lookup_insert_ne. congruence.
Qed.

Lemma record_dead (pm : PerformanceMonitor) (monitorId : string) (e : recording) :
  enabled pm = false \/ monitorId = "" \/ metrics pm !! monitorId = None ->
  record pm monitorId e = pm.
Proof.
  intros H. destruct pm as [ms en th]. cbn in H.
  destruct e; cbn [record];
    unfold recordQueryExecution, recordCacheHit, recordCacheMiss, recordMemoryUsage;
    cbn [enabled metrics threshold];
    (destruct en; cbn [negb orb]; [|reflexivity]);
    (destruct (String.eqb monitorId "") eqn:Hid; [reflexivity|]);
    (destruct H as [H | [H | H]];
       [discriminate | apply String.eqb_neq in Hid; contradiction |]);
    f_equal; apply alter_id; intros x Hx; congruence.
Qed.

(** X14.  A handle that is not live is ignored: on a disabled monitor, for
    the empty handle, and for a handle that was never started or was already
    ended, any sequence of recordings leaves the monitor as it is and
    [endMonitoring] returns [null] without reading the clock; a disabled
    monitor also hands out the empty handle. *)
Theorem dead_handles_are_ignored (pm : PerformanceMonitor) (monitorId : string)
    (l : list recording) (context : QueryContext) (rt : Runtime.t) :
  enabled pm = false \/ monitorId = "" \/ metrics pm !! monitorId = None ->
  record_all pm monitorId l = pm /\
  endMonitoring pm monitorId rt = (None, pm, rt) /\
  (enabled pm = false -> startMonitoring pm context rt = ("", pm, rt)).
Proof.
  intros H. split; [|split].
  - induction l as [|e l IH]; [reflexivity|].
    unfold record_all in *. cbn [fold_left]. rewrite record_dead by assumption. exact IH.
  - unfold endMonitoring. destruct H as [-> | [-> | H]]; [reflexivity | |].
    + rewrite orb_true_r. reflexivity.
    + rewrite H. destruct (negb (enabled pm) || String.eqb monitorId ""); reflexivity.
  - intros He. unfold startMonitoring. rewrite He. reflexivity.
Qed.

Lemma record_all_enabled (pm : PerformanceMonitor) (monitorId : string)
    (l : list recording) :
  enabled (record_all pm monitorId l) = enabled pm.
Proof.
  revert pm. induction l as [|e l IH]; intros pm; [reflexivity|].
  unfold record_all in *. cbn [fold_left]. rewrite IH.
  destruct e; cbn [record];
    unfold recordQueryExecution, recordCacheHit, recordCacheMiss, recordMemoryUsage;
    destruct (negb (enabled pm) || String.eqb monitorId ""); reflexivity.
Qed.

Lemma startMonitoring_live (pm : PerformanceMonitor) (context : QueryContext)
    (rt : Runtime.t) :
  enabled pm = true ->
  startMonitoring pm context rt
  = (handle context (clock rt (reads rt)),
     mkMonitor (<[handle context (clock rt (reads rt)) := no_metrics]> (metrics pm)) true
       (threshold pm),
     Runtime.mk (clock rt) (S (reads rt)) (console rt)).
Proof.
  intros He. unfold startMonitoring. rewrite He. reflexivity.
Qed.

(** X15.  Handles are told apart only by method, model, request id and the
    clock reading: a second [startMonitoring] for the same context that reads
    the same time as the first returns the same handle and resets its
    counters, whatever had been recorded on it. *)
Theorem same_millisecond_handles_collide (pm : PerformanceMonitor) (context : QueryContext)
    (rt : Runtime.t) (l : list recording) :
  enabled pm = true ->
  clock rt (S (reads rt)) = clock rt (reads rt) ->
  let first := startMonitoring pm context rt in
  let second :=
    startMonitoring (record_all first.1.2 first.1.1 l) context first.2 in
  second.1.1 = first.1.1 /\
  getMetrics second.1.2 first.1.1 = Some no_metrics.
Proof.
  intros He Hclock. cbv zeta.
  rewrite (startMonitoring_live pm context rt He). cbn [fst snd].
  rewrite startMonitoring_live by (rewrite record_all_enabled; reflexivity).
  cbn [fst snd clock reads]. rewrite Hclock. split; [reflexivity|].
  unfold getMetrics. cbn [metrics]. apply lookup_insert_eq.
Qed.

End MonitorProperties.

Lemma recordings_accumulate_witness :
  let pm := PerformanceMonitor.new None None in
  let context := PerformanceMonitor.mkContext "findAll" "User" "req_1" in
  let l := [Terms.Execution 12; Terms.CacheMiss; Terms.Execution 30; Terms.Memory 2048] in
  let monitorId := (PerformanceMonitor.startMonitoring pm context Vocabulary.ticking).1.1 in
  let started := (PerformanceMonitor.startMonitoring pm context Vocabulary.ticking).1.2 in
  PerformanceMonitor.getMetrics (Terms.record_all started monitorId l) monitorId
  = Some (Terms.metrics_of (Terms.tally (0, 0, 0, 0, 0) l) (Int 0)) /\
  forall other, other <> monitorId ->
    PerformanceMonitor.getMetrics (Terms.record_all started monitorId l) other
    = PerformanceMonitor.getMetrics pm other.
Proof.
  apply (recordings_accumulate (PerformanceMonitor.new None None)
           (PerformanceMonitor.mkContext "findAll" "User" "req_1") Vocabulary.ticking
           [Terms.Execution 12; Terms.CacheMiss; Terms.Execution 30; Terms.Memory 2048]).
  - reflexivity.
  - intros k. do 5 (destruct k as [|k]; [vm_compute; intuition discriminate|]).
    vm_compute; intuition discriminate.
Defined.

Lemma dead_handles_are_ignored_witness :
  let pm := PerformanceMonitor.new (Some false) None in
  let context := PerformanceMonitor.mkContext "findAll" "User" "req_1" in
  Terms.record_all pm "h" [Terms.CacheHit] = pm /\
  PerformanceMonitor.endMonitoring pm "h" Vocabulary.ticking = (None, pm, Vocabulary.ticking) /\
  (PerformanceMonitor.enabled pm = false ->
   PerformanceMonitor.startMonitoring pm context Vocabulary.ticking
   = ("", pm, Vocabulary.ticking)).
Proof.
  apply (dead_handles_are_ignored (PerformanceMonitor.new (Some false) None) "h"
           [Terms.CacheHit] (PerformanceMonitor.mkContext "findAll" "User" "req_1")
           Vocabulary.ticking).
  left. reflexivity.
Defined.

Lemma same_millisecond_handles_collide_witness :
  let pm := PerformanceMonitor.new None None in
  let context := PerformanceMonitor.mkContext "findAll" "User" "req_1" in
  let rt := Runtime.mk (fun _ => 1700000000000) 0 [] in
  let first := PerformanceMonitor.startMonitoring pm context rt in
  let second :=
    PerformanceMonitor.startMonitoring
      (Terms.record_all first.1.2 first.1.1 [Terms.Execution 5]) context first.2 in
  second.1.1 = first.1.1 /\
  PerformanceMonitor.getMetrics second.1.2 first.1.1 = Some Terms.no_metrics.
Proof.
  apply (same_millisecond_handles_collide (PerformanceMonitor.new None None)
           (PerformanceMonitor.mkContext "findAll" "User" "req_1")
           (Runtime.mk (fun _ => 1700000000000) 0 []) [Terms.Execution 5]);
    reflexivity.
Defined.

(** ** Sorting: the processor and the builder *)

Section SortProperties.
Import SortProcessor Terms.

Variable schema : gmap string ColumnSchema.
Variable sq : Sequelize.

(** With a Sequelize instance at hand a condition never throws: it gives an
    instruction and no error, or no instruction and one error, which is
    pushed on the errors collected so far. *)
Lemma processSortCondition_outcome (c : SortCondition) (errors : list string) :
  exists o extra,
    processSortCondition schema (Some sq) c [] = (Ok o, extra) /\
    processSortCondition schema (Some sq) c errors = (Ok o, errors ++ extra) /\
    (length (option_list o) + length extra = 1)%nat.
Proof.
  unfold processSortCondition.
  repeat match goal with
    | |- context [if ?b then _ else _] => destruct b
    end;
    do 2 eexists; (split; [reflexivity|]); rewrite ?app_nil_r; split; reflexivity.
Qed.

Lemma processSortArray_outcome (l : list SortCondition) (errors : list string) :
  exists os extra,
    processSortArray schema (Some sq) l [] = (Ok os, extra) /\
    processSortArray schema (Some sq) l errors = (Ok os, errors ++ extra) /\
    (length os + length extra = length l)%nat.
Proof.
  revert errors. induction l as [|c l IH]; intros errors.
  - exists [], []. rewrite app_nil_r. repeat split; reflexivity.
  - cbn [processSortArray].
    destruct (processSortCondition_outcome c errors) as (o & e1 & -> & -> & Hlen1).
    destruct (IH e1) as (os & e2 & Hnil & -> & Hlen2).
    destruct (IH (errors ++ e1)) as (os' & e2' & Hnil' & -> & _).
    rewrite Hnil in Hnil'. injection Hnil' as <- <-.
    exists (match o with Some x => x :: os | None => os end), (e1 ++ e2).
    rewrite <- app_assoc. split; [reflexivity|]. split; [reflexivity|].
    destruct o; cbn in *; rewrite length_app; cbn; lia.
Qed.

(** X16.  With a Sequelize instance at hand, compiling a list of sort
    conditions gives the instructions of the accepted conditions in the order
    of the list, and one error for every rejected condition: the result for
    two lists put end to end is the two results put end to end, and the
    instructions and the errors together are as many as the conditions. *)
Theorem sort_conditions_compile_in_order (l1 l2 : list SortCondition) :
  let compiled l := process schema (Some sq) (inr l) in
  elements (order_ (compiled (l1 ++ l2)))
  = elements (order_ (compiled l1)) ++ elements (order_ (compiled l2)) /\
  errors (compiled (l1 ++ l2)) = errors (compiled l1) ++ errors (compiled l2) /\
  (length (elements (order_ (compiled l1))) + length (errors (compiled l1))
   = length l1)%nat.
Proof.
  cbv zeta. unfold process.
  assert (forall l e,
            processSortArray schema (Some sq) (l1 ++ l) e
            = (let a := processSortArray schema (Some sq) l1 e in
               let b := processSortArray schema (Some sq) l a.2 in
               (match a.1, b.1 with
                | Ok x, Ok y => Ok (x ++ y)
                | Throw t, _ | _, Throw t => Throw t
                end, b.2))) as Happ.
  { induction l1 as [|c l IH]; intros l' e.
    - cbn. destruct (processSortArray_outcome l' e) as (os & ex & _ & -> & _). reflexivity.
    - cbn [app processSortArray].
      destruct (processSortCondition_outcome c e) as (o & e1 & _ & -> & _).
      rewrite IH. cbv zeta.
      destruct (processSortArray_outcome l (e ++ e1)) as (os & ex & _ & -> & _).
      cbn [fst snd].
      destruct (processSortArray_outcome l' ((e ++ e1) ++ ex)) as (os' & ex' & _ & -> & _).
      cbn [fst snd]. destruct o; reflexivity. }
  rewrite Happ. cbv zeta.
  destruct (processSortArray_outcome l1 []) as (os1 & e1 & -> & _ & Hlen1).
  cbn [fst snd].
  destruct (processSortArray_outcome l2 e1) as (os2 & e2 & -> & -> & _).
  cbn [fst snd order_ errors elements]. auto.
Qed.

End SortProperties.

(** The builder, with the processor that its constructor makes. *)

Section SortBuilderProperties.
Import SortProcessor Terms.

Lemma accepted_is_valid (c : SortCondition) :
  sort_accepted c -> validateCondition c = true.
Proof.
  unfold sort_accepted, SortBuilder.validateCondition, validateCondition.
  destruct (String.eqb (column c) ""); [discriminate|].
  destruct (str_truthy (order c) && negb (includes ["ASC"; "DESC"] (default "" (order c))));
    [discriminate|].
  destruct (str_truthy (nulls c) && negb (includes ["first"; "last"] (default "" (nulls c))));
    [discriminate | reflexivity].
Qed.

Lemma accepted_compiles (c : SortCondition) (errors : list string) :
  sort_accepted c -> prototype_member (column c) = false ->
  processSortCondition ∅ None c errors
  = if bool_decide (caseSensitive c = Some false)
    then (Throw (TypeError "Cannot read properties of undefined (reading 'fn')"), errors)
    else (Ok (Some (plain_instruction c)), errors).
Proof.
  intros Hacc Hown. unfold processSortCondition, plain_instruction.
  rewrite (accepted_is_valid c Hacc), lookup_empty, Hown. cbn [negb mbind option_bind].
  rewrite orb_false_r.
  destruct (bool_decide (caseSensitive c = Some false)); [reflexivity|].
  unfold str_or.
  destruct (str_truthy (nulls c)) eqn:Hn, (str_truthy (order c)) eqn:Ho; cbn;
    rewrite ?Hn, ?Ho; cbn; try reflexivity;
    destruct (order c); cbn in *; try discriminate; reflexivity.
Qed.

(** X17.  Sort conditions that passed the builder's validation, whose
    columns are not named after a member of [Object.prototype] and which do
    not ask for a case-insensitive comparison, always build without an error,
    to one ordering instruction per condition, in the order they were
    added. *)
Theorem accepted_sorts_build (sorts : list SortCondition) :
  Forall sort_accepted sorts ->
  Forall (fun c => prototype_member (column c) = false) sorts ->
  Forall (fun c => caseSensitive c <> Some false) sorts ->
  SortBuilder.build sorts = mkSortResult (VArr (map plain_instruction sorts)) [] [].
Proof.
  intros Hacc Hown Hcs.
  assert (forall e, processSortArray ∅ None sorts e
                    = (Ok (map plain_instruction sorts), e)) as Harr.
  { induction sorts as [|c l IH]; intros e; [reflexivity|].
    cbn [processSortArray map].
    rewrite accepted_compiles by first [exact (Forall_inv Hacc) | exact (Forall_inv Hown)].
    rewrite bool_decide_eq_false_2 by (eapply (Forall_inv Hcs)).
    rewrite IH by (eapply Forall_inv_tail; eassumption). reflexivity. }
  destruct sorts as [|c l]; [reflexivity|].
  unfold SortBuilder.build, process. rewrite Harr. reflexivity.
Qed.

(** X18.  The processor that the builder's constructor makes has no
    Sequelize instance, so with it a case-insensitive sort cannot be built:
    as soon as one of the accepted conditions, whose columns are not named
    after a member of [Object.prototype], has [caseSensitive: false], [build]
    returns an empty order and the one error of the failed call, dropping
    the instructions of all other conditions. *)
Theorem case_insensitive_sort_never_builds (sorts : list SortCondition) :
  Forall sort_accepted sorts ->
  Forall (fun c => prototype_member (column c) = false) sorts ->
  Exists (fun c => caseSensitive c = Some false) sorts ->
  SortBuilder.build sorts
  = mkSortResult (VArr [])
      ["Sort processing error: Cannot read properties of undefined (reading 'fn')"] [].
Proof.
  intros Hacc Hown Hex.
  assert (forall e, processSortArray ∅ None sorts e
                    = (Throw (TypeError "Cannot read properties of undefined (reading 'fn')"),
                       e)) as Harr.
  { induction Hex as [c l Hc | c l Hex IH]; intros e; cbn [processSortArray];
      rewrite accepted_compiles by first [exact (Forall_inv Hacc) | exact (Forall_inv Hown)].
    - rewrite bool_decide_eq_true_2 by assumption. reflexivity.
    - destruct (bool_decide (caseSensitive c = Some false)); [reflexivity|].
      rewrite IH by (eapply Forall_inv_tail; eassumption). reflexivity. }
  destruct sorts as [|c l]; [inversion Hex|].
  unfold SortBuilder.build, process. rewrite Harr. reflexivity.
Qed.

Lemma addSort_accepted (sorts : list SortCondition) (c : SortCondition) :
  Forall sort_accepted sorts -> Forall sort_accepted (SortBuilder.addSort sorts c).2.
Proof.
  intros H. unfold SortBuilder.addSort.
  destruct (SortBuilder.validateCondition c) as [[]|t] eqn:Hv; cbn; [|assumption].
  apply Forall_app. split; [assumption | constructor; [exact Hv | constructor]].
Qed.

(** X19.  The methods that change the list of the sort builder ([addSort],
    and with it the [orderBy] helpers, [addSorts], [setPrimarySort],
    [setSecondarySort] and [removeSortsByColumn]) keep the invariant that the
    list holds only conditions that pass the builder's validation; [addSorts]
    adds the conditions up to the first rejected one, and all of them when it
    does not throw. *)
Theorem sort_builder_invariant (sorts conditions : list SortCondition) (c : SortCondition)
    (column : string) :
  Forall sort_accepted sorts ->
  Forall sort_accepted (SortBuilder.addSort sorts c).2 /\
  Forall sort_accepted (SortBuilder.addSorts sorts conditions).2 /\
  Forall sort_accepted (SortBuilder.setPrimarySort sorts c).2 /\
  Forall sort_accepted (SortBuilder.setSecondarySort sorts c).2 /\
  Forall sort_accepted (SortBuilder.removeSortsByColumn sorts column) /\
  (exists n, (SortBuilder.addSorts sorts conditions).2 = sorts ++ take n conditions /\
             ((SortBuilder.addSorts sorts conditions).1 = Ok tt -> n = length conditions)).
Proof.
  intros H.
  assert (forall l s, Forall sort_accepted s ->
            Forall sort_accepted (SortBuilder.addSorts s l).2 /\
            exists n, (SortBuilder.addSorts s l).2 = s ++ take n l /\
                      ((SortBuilder.addSorts s l).1 = Ok tt -> n = length l)) as Hall.
  { induction l as [|x l IH]; intros s Hs; cbn [SortBuilder.addSorts].
    - split; [assumption|]. exists 0%nat. rewrite app_nil_r. auto.
    - pose proof (addSort_accepted s x Hs) as Hx. unfold SortBuilder.addSort in *.
      destruct (SortBuilder.validateCondition x) as [[]|t]; cbn in *.
      + destruct (IH (s ++ [x]) Hx) as [HF (n & Heq & Hn)]. split; [assumption|].
        exists (S n). cbn. rewrite Heq, <- app_assoc. split; [reflexivity|].
        intros Hok. f_equal. auto.
      + split; [assumption|]. exists 0%nat. rewrite app_nil_r. split; [reflexivity|].
        discriminate. }
  split; [apply addSort_accepted; assumption|].
  split; [apply Hall; assumption|].
  split; [|split; [|split; [|apply Hall; assumption]]].
  - unfold SortBuilder.setPrimarySort.
    destruct (SortBuilder.validateCondition c) as [[]|t] eqn:Hv; cbn; [|assumption].
    destruct sorts as [|s0 rest]; constructor; try exact Hv; try constructor.
    eapply Forall_inv_tail; eauto.
  - unfold SortBuilder.setSecondarySort.
    destruct (SortBuilder.validateCondition c) as [[]|t] eqn:Hv; cbn; [|assumption].
    destruct sorts as [|s0 [|s1 rest]].
    + constructor; [exact Hv | constructor].
    + apply Forall_app. split; [assumption | constructor; [exact Hv | constructor]].
    + inversion H as [|? ? H0 Ht]; subst. inversion Ht; subst.
      constructor; [assumption|]. constructor; [exact Hv | assumption].
  - unfold SortBuilder.removeSortsByColumn. rewrite Forall_forall in *.
    intros x Hx. apply H. apply list_elem_of_In. apply list_elem_of_In in Hx.
    apply filter_In in Hx. tauto.
Qed.

End SortBuilderProperties.

Lemma accepted_sorts_build_witness :
  let sorts :=
    [SortProcessor.mkSortCondition "createdAt" (Some "DESC") (Some "last") None;
     SortProcessor.mkSortCondition "name" None None (Some true)] in
  SortBuilder.build sorts
  = SortProcessor.mkSortResult (VArr (map Terms.plain_instruction sorts)) [] [].
Proof.
  apply (accepted_sorts_build
           [SortProcessor.mkSortCondition "createdAt" (Some "DESC") (Some "last") None;
            SortProcessor.mkSortCondition "name" None None (Some true)]).
  - repeat constructor.
  - repeat constructor.
  - repeat constructor; discriminate.
Defined.

Lemma case_insensitive_sort_never_builds_witness :
  let sorts :=
    (SortBuilder.orderByCaseInsensitive
       (SortBuilder.orderByDesc [] "createdAt").2 "name" None).2 in
  length sorts = 2%nat /\
  SortBuilder.build sorts
  = SortProcessor.mkSortResult (VArr [])
      ["Sort processing error: Cannot read properties of undefined (reading 'fn')"] [].
Proof.
  split; [reflexivity|].
  apply (case_insensitive_sort_never_builds
           (SortBuilder.orderByCaseInsensitive
              (SortBuilder.orderByDesc [] "createdAt").2 "name" None).2).
  - repeat constructor.
  - repeat constructor.
  - apply Exists_cons_tl. apply Exists_cons_hd. reflexivity.
Defined.

Lemma sort_builder_invariant_witness :
  let sorts := [SortProcessor.mkSortCondition "name" (Some "ASC") None None] in
  let good := SortProcessor.mkSortCondition "age" (Some "DESC") None None in
  let bad := SortProcessor.mkSortCondition "age" (Some "down") None None in
  Forall Terms.sort_accepted (SortBuilder.addSort sorts good).2 /\
  Forall Terms.sort_accepted (SortBuilder.addSorts sorts [good; bad; good]).2 /\
  Forall Terms.sort_accepted (SortBuilder.setPrimarySort sorts good).2 /\
  Forall Terms.sort_accepted (SortBuilder.setSecondarySort sorts good).2 /\
  Forall Terms.sort_accepted (SortBuilder.removeSortsByColumn sorts "name") /\
  (exists n, (SortBuilder.addSorts sorts [good; bad; good]).2
             = sorts ++ take n [good; bad; good] /\
             ((SortBuilder.addSorts sorts [good; bad; good]).1 = Ok tt ->
              n = length [good; bad; good])).
Proof.
  apply (sort_builder_invariant
           [SortProcessor.mkSortCondition "name" (Some "ASC") None None]
           [SortProcessor.mkSortCondition "age" (Some "DESC") None None;
            SortProcessor.mkSortCondition "age" (Some "down") None None;
            SortProcessor.mkSortCondition "age" (Some "DESC") None None]
           (SortProcessor.mkSortCondition "age" (Some "DESC") None None) "name").
  repeat constructor.
Defined.

(** ** Filters: the processor and the builder *)

Section FilterProperties.
Import FilterProcessor Terms.

Lemma map_conditions_app (schema : gmap string FieldSchema) (l1 l2 : list FilterCondition)
    (e : list string) :
  map_conditions schema (l1 ++ l2) e
  = match map_conditions schema l1 e with
    | (Throw t, e1) => (Throw t, e1)
    | (Ok ws1, e1) =>
        match map_conditions schema l2 e1 with
        | (Throw t, e2) => (Throw t, e2)
        | (Ok ws2, e2) => (Ok (ws1 ++ ws2), e2)
        end
    end.
Proof.
  revert e. induction l1 as [|c l1 IH]; intros e; cbn [app map_conditions].
  - destruct (map_conditions schema l2 e) as [[ws|t] e2]; reflexivity.
  - destruct (processFilterCondition schema c e) as [[w|t] e1]; [|reflexivity].
    rewrite IH. destruct (map_conditions schema l1 e1) as [[ws1|t] e1']; [|reflexivity].
    destruct (map_conditions schema l2 e1') as [[ws2|t] e2]; reflexivity.
Qed.

(** X20.  The search branch of [processFromOptions] never yields a
    predicate.  Whenever the options have a truthy [search] and an array as
    [searchFields] (an empty one too), the result has an empty [where] and
    the single error of the unsupported operator [or], whatever the other
    options are; the equality filters of the other options are lost. *)
Theorem search_never_compiles (options : FilterBuilder.FilterOptions) (fields : list value) :
  truthy (FilterBuilder.get options "search") = true ->
  FilterBuilder.get options "searchFields" = VArr fields ->
  FilterBuilder.processFromOptions options
  = Ok (mkFilterResult (VObj []) ["Filter processing error: Unsupported operator: or"] []).
Proof.
  intros Hs Hf. unfold FilterBuilder.processFromOptions.
  rewrite Hs, Hf. cbn [truthy andb bind app]. reflexivity.
Qed.

(** X21.  Without the search members, [processFromOptions] compiles the
    options to the conjunction of one equality predicate per entry, in the
    order in which [Object.entries] lists them, with no error, provided no
    key is empty or the name of a member of [Object.prototype] and no value
    is [null] or [undefined]. *)
Theorem options_compile_to_equalities (options : FilterBuilder.FilterOptions) :
  Forall (fun kv : string * value =>
            kv.1 <> "" /\ kv.1 <> "search" /\ kv.1 <> "searchFields" /\
            prototype_member kv.1 = false /\ is_nullish kv.2 = false) options ->
  FilterBuilder.processFromOptions options
  = Ok (mkFilterResult (VObj [(KSym Op_and, VArr (map equality options))]) [] []).
Proof.
  intros H. unfold FilterBuilder.processFromOptions.
  assert (FilterBuilder.get options "search" = VUndefined) as ->.
  { induction H as [|[k v] l (_ & Hk & _) _ IH]; [reflexivity|]. cbn in *.
    apply String.eqb_neq in Hk. rewrite Hk. exact IH. }
  cbn [truthy andb bind app]. unfold process, processFilterArray.
  assert (forall e,
            map_conditions ∅
              (omap (fun kv : string * value =>
                       if String.eqb kv.1 "search" || String.eqb kv.1 "searchFields" then None
                       else if is_nullish kv.2 then None
                       else Some (mkFilterCondition kv.1 "eq" kv.2 None)) options) e
            = (Ok (map equality options), e)) as ->; [|reflexivity].
  induction H as [|[k v] l (Hk & Hs & Hf & Hown & Hv) _ IH]; intros e; [reflexivity|].
  cbn in Hk, Hs, Hf, Hown, Hv. cbn [omap list_omap fst snd].
  apply String.eqb_neq in Hk, Hs, Hf. rewrite Hs, Hf, Hv. cbn [orb map_conditions].
  unfold processFilterCondition at 1, validateCondition.
  cbn [field operator cvalue caseSensitive]. rewrite Hk, Hv, lookup_empty, Hown.
  cbn. rewrite IH. reflexivity.
Qed.

(** X22.  [process] reads a list of conditions as the group [and] of these
    conditions, and reads every group operator other than the string [and]
    (a misspelt one too) as [or]. *)
Theorem group_operator_reading (schema : gmap string FieldSchema) (l : list FilterCondition)
    (op : string) (conds : list (FilterCondition + FilterGroup)) :
  process schema (OfArray l) = process schema (OfGroup (mkFilterGroup "and" (map inl l))) /\
  (op <> "and" ->
   process schema (OfGroup (mkFilterGroup op conds))
   = process schema (OfGroup (mkFilterGroup "or" conds))).
Proof.
  split.
  - unfold process, processFilterArray. cbn [processFilterGroup].
    assert (forall e,
              (fix map_items (l : list (FilterCondition + FilterGroup)) (errors : list string)
                 {struct l} : result (list value) * list string :=
                 match l with
                 | [] => (Ok [], errors)
                 | x :: rest =>
                     match
                       match x with
                       | inl c => processFilterCondition schema c errors
                       | inr g' => processFilterGroup schema g' errors
                       end
                     with
                     | (Throw t, errors1) => (Throw t, errors1)
                     | (Ok w, errors1) =>
                         match map_items rest errors1 with
                         | (Throw t, errors2) => (Throw t, errors2)
                         | (Ok ws, errors2) => (Ok (w :: ws), errors2)
                         end
                     end
                 end) (map inl l) e
              = map_conditions schema l e) as ->; [|reflexivity].
    induction l as [|c l IH]; intros e; [reflexivity|]. cbn [map map_conditions].
    destruct (processFilterCondition schema c e) as [[w|t] e1]; [|reflexivity].
    rewrite IH. reflexivity.
  - intros Hop. apply String.eqb_neq in Hop. unfold process. cbn [processFilterGroup].
    rewrite Hop. reflexivity.
Qed.

(** X23.  The builder's validation and the processor's disagree on [null]:
    the builder accepts every condition that the processor accepts, and the
    conditions it accepts beyond these are those with the value [null] (and
    an operator other than [is] and [isNot]); such a condition is stored by
    [addFilter] and then builds to an empty predicate and an error. *)
Theorem null_value_passes_builder_only (c : FilterCondition) (filters : list FilterCondition) :
  (validateCondition c = true -> filter_accepted c) /\
  (filter_accepted c -> validateCondition c = false ->
   cvalue c = VNull /\
   FilterBuilder.addFilter filters c = (Ok tt, filters ++ [c]) /\
   FilterBuilder.build [c]
   = mkFilterResult (VObj [(KSym Op_and, VArr [VObj []])])
       ["Invalid filter condition for field: " +:+ field c] []).
Proof.
  unfold filter_accepted, FilterBuilder.addFilter, FilterBuilder.build, process,
    processFilterArray, map_conditions, processFilterCondition,
    FilterBuilder.validateCondition, validateCondition.
  destruct (String.eqb (field c) ""), (String.eqb (operator c) ""); cbn [orb];
    try (split; intros; discriminate).
  destruct (cvalue c) eqn:Hv; cbn [is_nullish is_undefined andb];
    destruct (includes ["is"; "isNot"] (operator c)); cbn [negb];
    split; intros; try discriminate; try reflexivity.
  repeat split.
Qed.

Lemma FilterGroup_nested_ind (P : FilterGroup -> Prop) :
  (forall op conds,
     Forall (fun x => match x with inl _ => True | inr g' => P g' end) conds ->
     P (mkFilterGroup op conds)) ->
  forall g, P g.
Proof.
  intros H. fix ind 1. intros [op conds]. apply H.
  induction conds as [|[c|g'] r IH]; constructor; auto.
Qed.

Lemma flatten_accepted (g : FilterGroup) :
  forall filters, Forall filter_accepted (leaves g) ->
    FilterBuilder.flattenFilterGroup filters g = (Ok tt, filters ++ leaves g).
Proof.
  induction g as [op conds IH] using FilterGroup_nested_ind.
  cbn [FilterBuilder.flattenFilterGroup leaves].
  induction IH as [|x rest Hx _ IHrest]; intros filters Hacc.
  - rewrite app_nil_r. reflexivity.
  - destruct x as [c|g'].
    + inversion Hacc as [|? ? Hc Hrest]; subst.
      unfold FilterBuilder.addFilter at 1. unfold filter_accepted in Hc. rewrite Hc.
      rewrite IHrest by assumption. rewrite <- app_assoc. reflexivity.
    + apply Forall_app in Hacc as [Hg Hrest].
      rewrite Hx by assumption. rewrite IHrest by assumption.
      rewrite <- app_assoc. reflexivity.
Qed.

(** X24.  [addFilterGroup] keeps nothing of the structure of a group.  For a
    group that passes validation and whose leaves are all accepted, it adds
    the leaves, left to right, as single conditions; the operators of the
    group and of the groups nested in it are not kept, and what [build] makes
    of the builder's conditions is never a disjunction. *)
Theorem addFilterGroup_flattens (filters : list FilterCondition) (g : FilterGroup) :
  FilterBuilder.validateFilterGroup g = Ok tt ->
  Forall filter_accepted (leaves g) ->
  FilterBuilder.addFilterGroup filters g = (Ok tt, filters ++ leaves g) /\
  forall ws, where_ (FilterBuilder.build (filters ++ leaves g)) <> VObj [(KSym Op_or, ws)].
Proof.
  intros Hv Hacc. split.
  - unfold FilterBuilder.addFilterGroup. rewrite Hv. apply flatten_accepted. assumption.
  - intros ws. unfold FilterBuilder.build.
    destruct (filters ++ leaves g) as [|c l]; [discriminate|].
    unfold process, processFilterArray.
    destruct (map_conditions ∅ (c :: l) []) as [[ws'|t] e]; discriminate.
Qed.

(** X25.  The [caseSensitive] argument of [whereLike], [whereStartsWith] and
    [whereContains] changes neither whether the call is accepted nor what
    [build] returns afterwards. *)
Theorem like_helpers_ignore_case_flag (filters : list FilterCondition) (fld : string)
    (v : value) (cs1 cs2 : option bool) :
  let same (add : option bool -> result unit * list FilterCondition) :=
    (add cs1).1 = (add cs2).1 /\
    FilterBuilder.build (add cs1).2 = FilterBuilder.build (add cs2).2 in
  same (FilterBuilder.whereLike filters fld v) /\
  same (FilterBuilder.whereStartsWith filters fld v) /\
  same (FilterBuilder.whereContains filters fld v).
Proof.
  assert (forall c1 c2 : FilterCondition,
            field c1 = field c2 -> cvalue c1 = cvalue c2 ->
            operator c1 <> "" -> operator c2 <> "" ->
            includes ["is"; "isNot"] (operator c1) = includes ["is"; "isNot"] (operator c2) ->
            (forall e, processFilterCondition ∅ c1 e = processFilterCondition ∅ c2 e) ->
            (FilterBuilder.addFilter filters c1).1 = (FilterBuilder.addFilter filters c2).1 /\
            FilterBuilder.build (FilterBuilder.addFilter filters c1).2
            = FilterBuilder.build (FilterBuilder.addFilter filters c2).2) as Hsame.
  { intros c1 c2 Hf Hv Ho1 Ho2 Hi Hp.
    unfold FilterBuilder.addFilter, FilterBuilder.validateCondition.
    apply String.eqb_neq in Ho1, Ho2. rewrite Hf, Hv, Ho1, Ho2, Hi.
    destruct (String.eqb (field c2) ""); [split; reflexivity|].
    destruct (is_undefined (cvalue c2) && negb (includes ["is"; "isNot"] (operator c2)));
      [split; reflexivity|].
    cbn [fst snd]. split; [reflexivity|].
    unfold FilterBuilder.build.
    destruct (filters ++ [c1]) as [|x l] eqn:H1; [destruct filters; discriminate|].
    destruct (filters ++ [c2]) as [|y l'] eqn:H2; [destruct filters; discriminate|].
    rewrite <- H1, <- H2. unfold process, processFilterArray.
    rewrite !map_conditions_app. cbn [map_conditions].
    destruct (map_conditions ∅ filters []) as [[ws|t] e]; [|reflexivity].
    rewrite Hp. reflexivity. }
  cbv zeta. unfold FilterBuilder.whereLike, FilterBuilder.whereStartsWith,
    FilterBuilder.whereContains.
  repeat split; apply Hsame; cbn [field cvalue operator]; try reflexivity;
    try (destruct (default true cs1), (default true cs2); cbn; congruence);
    intros e; unfold processFilterCondition, validateCondition;
    cbn [field cvalue operator caseSensitive];
    destruct (default true cs1), (default true cs2); reflexivity.
Qed.

End FilterProperties.

Lemma search_never_compiles_witness :
  FilterBuilder.processFromOptions
    [("search", VStr "ann"); ("searchFields", VArr [VStr "name"; VStr "email"]);
     ("status", VStr "active")]
  = Ok (FilterProcessor.mkFilterResult (VObj [])
          ["Filter processing error: Unsupported operator: or"] []).
Proof.
  apply (search_never_compiles
           [("search", VStr "ann"); ("searchFields", VArr [VStr "name"; VStr "email"]);
            ("status", VStr "active")]
           [VStr "name"; VStr "email"]); reflexivity.
Defined.

Lemma options_compile_to_equalities_witness :
  FilterBuilder.processFromOptions [("status", VStr "active"); ("age", VNum (Int 30))]
  = Ok (FilterProcessor.mkFilterResult
          (VObj [(KSym Op_and,
                  VArr (map Terms.equality
                          [("status", VStr "active"); ("age", VNum (Int 30))]))]) [] []).
Proof.
  apply (options_compile_to_equalities [("status", VStr "active"); ("age", VNum (Int 30))]).
  repeat constructor; discriminate.
Defined.

Lemma group_operator_reading_witness :
  let c := FilterProcessor.mkFilterCondition "age" "gt" (VNum (Int 18)) None in
  FilterProcessor.process ∅ (FilterProcessor.OfArray [c])
  = FilterProcessor.process ∅
      (FilterProcessor.OfGroup (FilterProcessor.mkFilterGroup "and" (map inl [c]))) /\
  ("AND" <> "and" ->
   FilterProcessor.process ∅
     (FilterProcessor.OfGroup (FilterProcessor.mkFilterGroup "AND" [inl c]))
   = FilterProcessor.process ∅
       (FilterProcessor.OfGroup (FilterProcessor.mkFilterGroup "or" [inl c]))).
Proof.
  apply (group_operator_reading ∅
           [FilterProcessor.mkFilterCondition "age" "gt" (VNum (Int 18)) None] "AND"
           [inl (FilterProcessor.mkFilterCondition "age" "gt" (VNum (Int 18)) None)]).
Defined.

Lemma null_value_passes_builder_only_witness :
  let c := FilterProcessor.mkFilterCondition "deletedAt" "eq" VNull None in
  Terms.filter_accepted c /\ FilterProcessor.validateCondition c = false /\
  FilterProcessor.cvalue c = VNull /\
  FilterBuilder.addFilter [] c = (Ok tt, [] ++ [c]) /\
  FilterBuilder.build [c]
  = FilterProcessor.mkFilterResult (VObj [(KSym Op_and, VArr [VObj []])])
      ["Invalid filter condition for field: " +:+ FilterProcessor.field c] [].
Proof.
  split; [reflexivity|]. split; [reflexivity|].
  apply (null_value_passes_builder_only
           (FilterProcessor.mkFilterCondition "deletedAt" "eq" VNull None) []);
    reflexivity.
Defined.

Lemma addFilterGroup_flattens_witness :
  let a := FilterProcessor.mkFilterCondition "role" "eq" (VStr "admin") None in
  let b := FilterProcessor.mkFilterCondition "age" "gt" (VNum (Int 65)) None in
  let c := FilterProcessor.mkFilterCondition "status" "eq" (VStr "active") None in
  let g :=
    FilterProcessor.mkFilterGroup "or"
      [inl a; inr (FilterProcessor.mkFilterGroup "and" [inl b; inl c])] in
  FilterBuilder.addFilterGroup [] g = (Ok tt, [] ++ Terms.leaves g) /\
  forall ws,
    FilterProcessor.where_ (FilterBuilder.build ([] ++ Terms.leaves g))
    <> VObj [(KSym Op_or, ws)].
Proof.
  apply (addFilterGroup_flattens []
           (FilterProcessor.mkFilterGroup "or"
              [inl (FilterProcessor.mkFilterCondition "role" "eq" (VStr "admin") None);
               inr (FilterProcessor.mkFilterGroup "and"
                      [inl (FilterProcessor.mkFilterCondition "age" "gt" (VNum (Int 65)) None);
                       inl (FilterProcessor.mkFilterCondition "status" "eq" (VStr "active")
                              None)])])).
  - reflexivity.
  - repeat constructor.
Defined.

(** ** The advanced query builder *)

Section BuilderProperties.
Import Runtime AdvancedQueryBuilder Terms.

Lemma addJoins_valid (joins js : list JoinBuilder.JoinOptions) :
  Forall (fun j => JoinBuilder.validateJoin j = Ok tt) js ->
  JoinBuilder.addJoins joins js = (Ok tt, joins ++ js).
Proof.
  intros H. revert joins. induction H as [|j js Hj _ IH]; intros joins; cbn.
  - rewrite app_nil_r. reflexivity.
  - rewrite Hj, IH, <- app_assoc. reflexivity.
Qed.

(** X26.  The join builder is never emptied by [buildQueryOptions]: every
    call adds the joins of the specification once more.  When the joins are
    all valid and a first call returns options, their [include] holds the
    joins already in the builder followed by those of the specification, and
    a second call on the same specification succeeds with an [include] that
    holds the joins of the specification twice; only [reset] empties the
    builder, after which the options built are empty. *)
Theorem joins_accumulate (b b1 : AdvancedQueryBuilder) (js : list JoinBuilder.JoinOptions)
    (o1 : list (key * value)) :
  joins (currentOptions b) = Some js ->
  Forall (fun j => JoinBuilder.validateJoin j = Ok tt) js ->
  buildQueryOptions b = (Ok o1, b1) ->
  obj_get o1 (KStr "include") = JoinBuilder.build (joinBuilder b ++ js) /\
  (exists o2 b2,
     buildQueryOptions b1 = (Ok o2, b2) /\
     obj_get o2 (KStr "include") = JoinBuilder.build ((joinBuilder b ++ js) ++ js)) /\
  buildQueryOptions (reset b1) = (Ok [], reset b1).
Proof.
  intros Hj Hv. destruct b as [m cf rq pb jb cm pm cur].
  destruct cur as [pg fl so jo at' wh gr hv di su be lo]. cbn in Hj. subst jo.
  unfold buildQueryOptions.
  cbn [currentOptions paginationBuilder joinBuilder pagination filters sorting joins
       attributes where_ group having distinct subQuery benchmark logging].
  rewrite addJoins_valid by assumption.
  destruct pg as [p|]; [destruct (PaginationBuilder.process pb p) as [r|t] eqn:Hp|];
    cbn [bind]; try discriminate;
    (destruct fl as [f|];
       [destruct (FilterBuilder.processFromOptions f) as [[w [|e es] wn]|t] eqn:Hf|];
       cbn [bind FilterProcessor.errors FilterProcessor.where_]; try discriminate);
    (destruct so as [s|];
       [destruct (SortBuilder.processFromOptions (s !! 0%nat)) as [[o [|e2 es2] wn2]|t2] eqn:Hs|];
       cbn [bind SortProcessor.errors SortProcessor.order_]; try discriminate);
    intros [= <- <-];
    cbn [set_joinBuilder currentOptions paginationBuilder joinBuilder pagination filters
         sorting joins attributes where_ group having distinct subQuery benchmark logging
         model config requestId cacheManager performanceMonitor bind];
    rewrite ?addJoins_valid by assumption;
    rewrite ?Hp, ?Hf, ?Hs;
    cbn [bind FilterProcessor.errors FilterProcessor.where_ SortProcessor.errors
         SortProcessor.order_];
    (split; [|split; [do 2 eexists; split; [reflexivity|] | reflexivity]]);
    repeat case_match;
    repeat first [ rewrite obj_get_opt_set_ne by congruence
                 | rewrite obj_get_set_ne by congruence ];
    first [ apply obj_get_set_eq | reflexivity ].
Qed.

Variable JSON_stringify : AdvancedQueryOptions -> result string.

Lemma fromError_shape (t0 : thrown) (code : string) :
  exists e, fromError t0 code = ThrowError e /\
    ((err_name e = "QueryError" /\ err_code e = Some code /\
      forall e0, t0 = ThrowError e0 -> err_message e = err_message e0)
     \/ (err_name e = "TypeError" /\ (t0 = ThrowValue VNull \/ t0 = ThrowValue VUndefined))).
Proof.
  destruct t0 as [e0|v]; cbn.
  - eexists. split; [reflexivity|]. left. cbn. repeat split. intros ? [= <-]. reflexivity.
  - destruct v; eexists; (split; [reflexivity|]); cbn;
      first [ right; split; [reflexivity|]; auto; fail
            | left; repeat split; intros; discriminate ].
Qed.

Lemma get_only_shrinks (c : CacheManager.CacheManager nat) (key : string) (r : Runtime.t)
    (k : string) (v : nat * number) :
  CacheManager.cache (CacheManager.provider (CacheManager.get c key r).1.2) !! k = Some v ->
  CacheManager.cache (CacheManager.provider c) !! k = Some v.
Proof.
  unfold CacheManager.get, CacheManager.provider_get.
  destruct (negb (CacheManager.enabled c)); [auto|].
  destruct (CacheManager.cache (CacheManager.provider c) !! (CacheManager.keyPrefix c +:+ key))
    as [[x expires]|]; [|auto].
  cbn. destruct (num_gtb _ expires); cbn; [|auto].
  intros H. apply lookup_delete_Some in H. tauto.
Qed.

Lemma execute_try_throw (b b' : AdvancedQueryBuilder) (w w' : world) (monitorId : string)
    (t : thrown) :
  execute_try JSON_stringify b w monitorId = (Throw t, b', w') ->
  heap w' = heap w /\
  (forall k v,
     CacheManager.cache (CacheManager.provider (cacheManager b')) !! k = Some v ->
     CacheManager.cache (CacheManager.provider (cacheManager b)) !! k = Some v) /\
  PerformanceMonitor.enabled (performanceMonitor b')
  = PerformanceMonitor.enabled (performanceMonitor b).
Proof.
  unfold execute_try.
  destruct (generateCacheKey JSON_stringify b "") as [key|t0]; [|intros [= <- <- <-]; auto].
  pose proof (get_only_shrinks (cacheManager b) key (rt w)) as Hget.
  assert (exists cached cm rt1,
            (if CacheManager.isEnabled (cacheManager b)
             then CacheManager.get (cacheManager b) key (rt w)
             else (None, cacheManager b, rt w)) = (cached, cm, rt1) /\
            forall k v, CacheManager.cache (CacheManager.provider cm) !! k = Some v ->
                        CacheManager.cache (CacheManager.provider (cacheManager b)) !! k
                        = Some v) as (cached & cm & rt1 & -> & Hcm).
  { destruct (CacheManager.isEnabled (cacheManager b)).
    - destruct (CacheManager.get (cacheManager b) key (rt w)) as [[cached cm] rt1].
      do 3 eexists. split; [reflexivity | exact Hget].
    - do 3 eexists. split; [reflexivity | auto]. }
  clear Hget. destruct cached as [ref|]; [discriminate|].
  match goal with |- context [buildQueryOptions ?B] =>
    destruct (buildQueryOptions_frame B) as [j Hj];
    destruct (buildQueryOptions B) as [[queryOptions|t0] b0] end;
    cbn [snd] in Hj; subst b0.
  2: { intros [= <- <- <-]. cbn. auto. }
  unfold Date_now.
  cbn [set_joinBuilder set_cacheManager set_performanceMonitor model config requestId
       paginationBuilder joinBuilder cacheManager performanceMonitor currentOptions rt calls
       heap].
  destruct (findAll (model b) (VObj queryOptions)) as [rows|t0].
  2: { intros [= <- <- <-]. cbn. auto. }
  assert (forall pm id x,
            PerformanceMonitor.enabled (PerformanceMonitor.recordQueryExecution pm id x)
            = PerformanceMonitor.enabled pm) as Hrec.
  { intros pm id x. unfold PerformanceMonitor.recordQueryExecution.
    destruct (negb (PerformanceMonitor.enabled pm) || String.eqb id ""); reflexivity. }
  destruct (pagination (currentOptions b)) as [p|].
  - destruct (PaginationBuilder.process (paginationBuilder b) p) as [r|t0].
    + destruct (model_count (model b) _) as [total|t0].
      * cbn. destruct (CacheManager.isEnabled cm);
          [destruct (CacheManager.set cm key _ None _) as [cm' rt4] | ];
          destruct (PerformanceMonitor.endMonitoring _ monitorId _) as [[metrics pm0] rt5];
          discriminate.
      * intros [= <- <- <-]. cbn. rewrite Hrec. auto.
    + intros [= <- <- <-]. cbn. rewrite Hrec. auto.
  - cbn. destruct (CacheManager.isEnabled cm);
      [destruct (CacheManager.set cm key _ None _) as [cm' rt4] | ];
      destruct (PerformanceMonitor.endMonitoring _ monitorId _) as [[metrics pm0] rt5];
      discriminate.
Qed.

Lemma endMonitoring_closes (pm : PerformanceMonitor.PerformanceMonitor) (monitorId : string)
    (r : Runtime.t) :
  PerformanceMonitor.enabled pm = true -> monitorId <> "" ->
  PerformanceMonitor.metrics (PerformanceMonitor.endMonitoring pm monitorId r).1.2
    !! monitorId = None.
Proof.
  intros He Hid. unfold PerformanceMonitor.endMonitoring.
  apply String.eqb_neq in Hid. rewrite He, Hid. cbn [negb orb].
  destruct (PerformanceMonitor.metrics pm !! monitorId) eqn:Hm; [|exact Hm].
  cbn. apply lookup_delete_eq.
Qed.

(** X27.  Whatever makes [execute] fail, the caller gets an [Error] that
    hides it: a [QueryError] with the code [ADVANCED_QUERY_ERROR], whatever
    the name and the code of the original error were (or the [TypeError]
    that [fromError] runs into when what was thrown is [null] or
    [undefined]).  A failed call creates no envelope, adds no entry to the
    cache, and on an enabled monitor its handle is closed. *)
Theorem failed_execute_is_relabelled (b b' : AdvancedQueryBuilder) (w w' : world)
    (t : thrown) :
  execute JSON_stringify b w = (Throw t, b', w') ->
  (exists e, t = ThrowError e /\
     ((err_name e = "QueryError" /\ err_code e = Some "ADVANCED_QUERY_ERROR")
      \/ err_name e = "TypeError")) /\
  heap w' = heap w /\
  (forall k v,
     CacheManager.cache (CacheManager.provider (cacheManager b')) !! k = Some v ->
     CacheManager.cache (CacheManager.provider (cacheManager b)) !! k = Some v) /\
  (PerformanceMonitor.enabled (performanceMonitor b) = true ->
   PerformanceMonitor.getMetrics (performanceMonitor b')
     (handle (PerformanceMonitor.mkContext "findAll" (name (model b)) (requestId b))
        (clock (rt w) (S (reads (rt w))))) = None).
Proof.
  unfold execute. cbn [Date_now].
  pose proof (monitor_id_not_empty
                (PerformanceMonitor.mkContext "findAll" (name (model b)) (requestId b))
                (Runtime.mk (clock (rt w)) (S (reads (rt w))) (console (rt w)))) as Hid.
  unfold PerformanceMonitor.startMonitoring.
  destruct (PerformanceMonitor.enabled (performanceMonitor b)) eqn:Hen; cbn [negb].
  - destruct (PerformanceMonitor.generateMonitorId _ _) as [monitorId rt1] eqn:Hgen.
    assert (monitorId = handle (PerformanceMonitor.mkContext "findAll" (name (model b))
                                  (requestId b)) (clock (rt w) (S (reads (rt w))))) as Hh.
    { unfold PerformanceMonitor.generateMonitorId, Date_now in Hgen. cbn in Hgen.
      injection Hgen as <- _. reflexivity. }
    cbn [fst] in Hid.
    destruct (execute_try _ _ _ monitorId) as [[[ref|t0] b0] w0] eqn:Htry; [discriminate|].
    apply execute_try_throw in Htry as (Hheap & Hcache & Henabled).
    cbn in Hheap, Hcache, Henabled.
    pose proof (endMonitoring_closes (performanceMonitor b0) monitorId (rt w0)
                  ltac:(congruence) Hid) as Hclosed.
    destruct (PerformanceMonitor.endMonitoring (performanceMonitor b0) monitorId (rt w0))
      as [[metrics pm2] rt2].
    intros [= <- <- <-]. cbn in *.
    destruct (fromError_shape t0 "ADVANCED_QUERY_ERROR") as (e & -> & He).
    split; [exists e; split; [reflexivity|]; tauto|].
    split; [assumption|]. split; [assumption|]. intros _. subst monitorId. exact Hclosed.
  - destruct (execute_try _ _ _ "") as [[[ref|t0] b0] w0] eqn:Htry; [discriminate|].
    apply execute_try_throw in Htry as (Hheap & Hcache & Henabled).
    cbn in Hheap, Hcache, Henabled.
    destruct (PerformanceMonitor.endMonitoring (performanceMonitor b0) "" (rt w0))
      as [[metrics pm2] rt2].
    intros [= <- <- <-]. cbn in *.
    destruct (fromError_shape t0 "ADVANCED_QUERY_ERROR") as (e & -> & He).
    split; [exists e; split; [reflexivity|]; tauto|].
    split; [assumption|]. split; [assumption|]. discriminate.
Qed.

(** X28.  A call of [execute] that is served from the cache never ends its
    monitoring: on an enabled monitor the handle made by [startMonitoring]
    stays in the live map, with one cache hit counted, and the records of
    all other handles stay as they were. *)
Theorem cache_hit_leaves_handle_open (b : AdvancedQueryBuilder) (w : world) (key : string)
    (r : nat) (expires : number) :
  generateCacheKey JSON_stringify b "" = Ok key ->
  CacheManager.enabled (cacheManager b) = true ->
  CacheManager.cache (CacheManager.provider (cacheManager b))
    !! (CacheManager.keyPrefix (cacheManager b) +:+ key) = Some (r, expires) ->
  num_gtb (Int (clock (rt w) (S (S (reads (rt w)))))) expires = false ->
  PerformanceMonitor.enabled (performanceMonitor b) = true ->
  let monitorId :=
    handle (PerformanceMonitor.mkContext "findAll" (name (model b)) (requestId b))
      (clock (rt w) (S (reads (rt w)))) in
  exists b2 w2,
    execute JSON_stringify b w = (Ok r, b2, w2) /\
    PerformanceMonitor.getMetrics (performanceMonitor b2) monitorId
    = Some (PerformanceMonitor.mkMetrics (Int 0) (Int 0) (Int 0) (Int 0) (Int 1) (Int 0)) /\
    forall other, other <> monitorId ->
      PerformanceMonitor.getMetrics (performanceMonitor b2) other
      = PerformanceMonitor.getMetrics (performanceMonitor b) other.
Proof.
  intros Hkey Hen Hcache Hfresh Hpm monitorId.
  pose proof (monitor_id_not_empty
                (PerformanceMonitor.mkContext "findAll" (name (model b)) (requestId b))
                (Runtime.mk (clock (rt w)) (S (reads (rt w))) (console (rt w)))) as Hid.
  unfold execute, PerformanceMonitor.startMonitoring. rewrite Hpm. cbn [negb Date_now].
  unfold PerformanceMonitor.generateMonitorId, Date_now in *. cbn [fst clock reads console] in *.
  fold (handle (PerformanceMonitor.mkContext "findAll" (name (model b)) (requestId b))
          (clock (rt w) (S (reads (rt w))))) in *.
  fold monitorId in Hid |- *.
  unfold execute_try, generateCacheKey in *.
  cbn [cacheManager set_performanceMonitor set_cacheManager rt calls heap currentOptions model
       performanceMonitor] in *.
  rewrite Hkey. unfold CacheManager.isEnabled, CacheManager.get, CacheManager.provider_get.
  rewrite Hen. cbn [negb]. rewrite Hcache. cbn [Date_now reads clock]. unfold Date_now.
  cbn [reads clock]. rewrite Hfresh.
  do 2 eexists. split; [reflexivity|].
  cbn [performanceMonitor set_performanceMonitor set_cacheManager].
  unfold PerformanceMonitor.recordCacheHit, PerformanceMonitor.getMetrics.
  cbn [PerformanceMonitor.enabled PerformanceMonitor.metrics]. rewrite ?Hpm.
  apply String.eqb_neq in Hid. rewrite Hid. cbn [negb orb PerformanceMonitor.metrics].
  split.
  - rewrite lookup_alter_eq, lookup_insert_eq. reflexivity.
  - intros other Hne. rewrite lookup_alter_ne, lookup_insert_ne by congruence. reflexivity.
Qed.

(** X29.  The cap that [withPagination] puts on the page size is the 1000
    of the validation schema, not the [maxPageSize] of the configuration,
    which only [PaginationBuilder.process] applies.  With a smaller maximum, a
    page size between the two is accepted by [withPagination] and makes
    [buildQueryOptions] throw; with a larger maximum, a page size between
    the two is rejected by [withPagination] although the pagination builder
    resolves it. *)
Theorem page_size_caps_disagree (m : Model) (cf : QueryConfig) (rid : string) (mx z : Z) :
  maxPageSize cf = Some (Int mx) -> 0 < mx ->
  let b := new m cf rid in
  let o := PaginationBuilder.mkPaginationOptions None (Some (Int z)) None None in
  (mx < z <= 1000 ->
   exists b', withPagination b o = Ok b' /\
     (buildQueryOptions b').1
     = Throw (PaginationBuilder.PaginationError
                ("Invalid pagination options: Page size cannot exceed " +:+ pretty mx)
                "INVALID_PAGINATION_OPTIONS")) /\
  (1000 < z <= mx -> z <= ValidationUtils.MAX_SAFE_INTEGER ->
   withPagination b o
   = Throw (ThrowError
              (ValidationUtils.fromJoiError
                 (ValidationUtils.quoted "pageSize"
                  +:+ " must be less than or equal to 1000"))) /\
   exists r, PaginationBuilder.process (paginationBuilder b) o = Ok r /\
             PaginationBuilder.r_limit r = Int z).
Proof.
  intros Hmx Hpos b o.
  assert (PaginationBuilder.maxPageSize (paginationBuilder b) = Int mx) as Hmax.
  { subst b. cbn. rewrite Hmx. cbn. unfold num_or. cbn.
    assert ((mx =? 0) = false) as -> by lia. reflexivity. }
  assert (forall lo : Z, lo <= 1 -> 1 <= z <= ValidationUtils.MAX_SAFE_INTEGER ->
            ValidationUtils.joi_integer "pageSize" lo (Some 1000) (Some (Int z))
            = if 1000 <? z
              then Some (ValidationUtils.quoted "pageSize"
                         +:+ " must be less than or equal to 1000")
              else None) as Hjoi.
  { intros lo Hlo Hz. unfold ValidationUtils.joi_integer.
    change ValidationUtils.MAX_SAFE_INTEGER with 9007199254740991 in *.
    repeat match goal with |- context [if ?c then _ else _] => destruct c eqn:? end;
      bool_hyps; try lia; reflexivity. }
  assert (forall s : number, negb (Number_isInteger (Int z)) || num_ltb (Int z) (Int 1) = false
                             \/ z < 1) as Hint.
  { intros _. cbn. destruct (z <? 1) eqn:H1; [right; lia | left; reflexivity]. }
  split.
  - intros Hz. unfold withPagination, ValidationUtils.validatePagination. subst o.
    cbn [PaginationBuilder.page PaginationBuilder.pageSize PaginationBuilder.offset
         PaginationBuilder.limit].
    rewrite Hjoi by (change ValidationUtils.MAX_SAFE_INTEGER with 9007199254740991; lia).
    assert ((1000 <? z) = false) as -> by lia.
    cbn [ValidationUtils.joi_integer ValidationUtils.first_error].
    eexists. split; [reflexivity|].
    unfold buildQueryOptions.
    cbn [currentOptions set_currentOptions set_pagination pagination paginationBuilder].
    unfold PaginationBuilder.process, PaginationBuilder.validate.
    cbn [PaginationBuilder.page PaginationBuilder.pageSize PaginationBuilder.offset
         PaginationBuilder.limit].
    destruct (Hint (Int z)) as [-> | ?]; [|lia].
    fold b. rewrite Hmax. unfold num_gtb. cbn [num_ltb].
    assert ((mx <? z) = true) as -> by lia.
    rewrite num_to_string_safe by lia.
    reflexivity.
  - intros Hz Hsafe. unfold withPagination, ValidationUtils.validatePagination. subst o.
    cbn [PaginationBuilder.page PaginationBuilder.pageSize PaginationBuilder.offset
         PaginationBuilder.limit].
    rewrite Hjoi by lia.
    assert ((1000 <? z) = true) as -> by lia.
    cbn [ValidationUtils.joi_integer ValidationUtils.first_error].
    split; [reflexivity|].
    unfold PaginationBuilder.process, PaginationBuilder.validate.
    cbn [PaginationBuilder.page PaginationBuilder.pageSize PaginationBuilder.offset
         PaginationBuilder.limit].
    destruct (Hint (Int z)) as [-> | ?]; [|lia].
    rewrite Hmax. unfold num_gtb. cbn [num_ltb].
    assert ((mx <? z) = false) as -> by lia.
    cbn. eexists. split; [reflexivity|]. cbn.
    unfold num_or. cbn. assert ((z =? 0) = false) as -> by lia. cbn.
    unfold Math_min. cbn. assert ((mx <? z) = false) as -> by lia. reflexivity.
Qed.

Lemma buildQueryOptions_reads (b : AdvancedQueryBuilder)
    (cm : CacheManager.CacheManager nat) (pm : PerformanceMonitor.PerformanceMonitor) :
  (buildQueryOptions (set_cacheManager (set_performanceMonitor b pm) cm)).1
  = (buildQueryOptions b).1.
Proof.
  destruct b as [m cf rq pb jb cm0 pm0 cur]. unfold buildQueryOptions.
  cbn [set_cacheManager set_performanceMonitor currentOptions paginationBuilder joinBuilder
       model config requestId cacheManager performanceMonitor].
  repeat case_match; simplify_eq; reflexivity.
Qed.

Lemma execute_try_uncached (b b' : AdvancedQueryBuilder) (w w' : world) (monitorId : string)
    (ref : nat) :
  CacheManager.enabled (cacheManager b) = false ->
  execute_try JSON_stringify b w monitorId = (Ok ref, b', w') ->
  cacheManager b' = cacheManager b /\
  ref = length (heap w) /\ length (heap w') = S (length (heap w)) /\
  exists queryOptions,
    (buildQueryOptions b).1 = Ok queryOptions /\
    calls w'
    = calls w ++ CallFindAll (VObj queryOptions)
        :: match pagination (currentOptions b) with
           | Some _ => [CallCount (VObj (countOptions queryOptions))]
           | None => []
           end.
Proof.
  intros Hen. unfold execute_try, CacheManager.isEnabled.
  destruct (generateCacheKey JSON_stringify b "") as [key|t0]; [|discriminate].
  rewrite Hen.
  assert (set_cacheManager b (cacheManager b) = b) as -> by (destruct b; reflexivity).
  destruct (buildQueryOptions_frame b) as [j Hj].
  destruct (buildQueryOptions b) as [[queryOptions|t0] b0]; [|discriminate].
  cbn [fst snd] in *. subst b0. unfold Date_now.
  cbn [set_joinBuilder set_cacheManager set_performanceMonitor model config requestId
       paginationBuilder joinBuilder cacheManager performanceMonitor currentOptions rt calls
       heap].
  rewrite Hen.
  destruct (findAll (model b) (VObj queryOptions)) as [rows|t0]; [|discriminate].
  destruct (pagination (currentOptions b)) as [p|].
  - destruct (PaginationBuilder.process (paginationBuilder b) p) as [r|t0]; [|discriminate].
    destruct (model_count (model b) _) as [total|t0]; [|discriminate].
    cbn [rt calls heap].
    destruct (PerformanceMonitor.endMonitoring _ monitorId _) as [[[mt|] pm0] rt5];
      intros [= <- <- <-]; cbn; rewrite ?length_alter, ?length_app; cbn;
      (split; [reflexivity|]); (split; [reflexivity|]); (split; [lia|]);
      exists queryOptions; rewrite <- app_assoc; split; reflexivity.
  - cbn [rt calls heap].
    destruct (PerformanceMonitor.endMonitoring _ monitorId _) as [[[mt|] pm0] rt5];
      intros [= <- <- <-]; cbn; rewrite ?length_alter, ?length_app; cbn;
      (split; [reflexivity|]); (split; [reflexivity|]); (split; [lia|]);
      exists queryOptions; split; reflexivity.
Qed.

(** X30.  With caching disabled, [execute] never touches the cache and
    every successful call goes to the record store: [findAll] is called
    exactly once, with the options that [buildQueryOptions] makes of the
    specification, [count] is called once after it exactly when the
    specification has pagination, and the envelope returned is a new
    object. *)
Theorem uncached_execute_reaches_store (b b' : AdvancedQueryBuilder) (w w' : world)
    (ref : nat) :
  CacheManager.enabled (cacheManager b) = false ->
  execute JSON_stringify b w = (Ok ref, b', w') ->
  cacheManager b' = cacheManager b /\
  ref = length (heap w) /\ length (heap w') = S (length (heap w)) /\
  exists queryOptions,
    (buildQueryOptions b).1 = Ok queryOptions /\
    calls w'
    = calls w ++ CallFindAll (VObj queryOptions)
        :: match pagination (currentOptions b) with
           | Some _ => [CallCount (VObj (countOptions queryOptions))]
           | None => []
           end.
Proof.
  intros Hen. unfold execute. cbn [Date_now].
  destruct (PerformanceMonitor.startMonitoring _ _ _) as [[monitorId pm] rt1].
  destruct (execute_try _ _ _ monitorId) as [[[r|t0] b0] w0] eqn:Htry.
  - intros [= <- <- <-]. apply execute_try_uncached in Htry; [|exact Hen].
    cbn [set_performanceMonitor cacheManager heap calls currentOptions] in Htry.
    destruct Htry as (Hcm & Href & Hheap & queryOptions & Hq & Hcalls).
    split; [assumption|]. split; [assumption|]. split; [assumption|].
    exists queryOptions. split; [|assumption].
    rewrite <- Hq.
    pose proof (buildQueryOptions_reads b (cacheManager b) pm) as Hr.
    assert (set_cacheManager (set_performanceMonitor b pm) (cacheManager b)
            = set_performanceMonitor b pm) as Heq by reflexivity.
    rewrite Heq in Hr. symmetry. exact Hr.
  - destruct (PerformanceMonitor.endMonitoring _ monitorId _) as [[? ?] ?]. discriminate.
Qed.

End BuilderProperties.

Lemma joins_accumulate_witness :
  let b :=
    AdvancedQueryBuilder.set_currentOptions
      (Index.createQueryBuilder Vocabulary.empty_store Vocabulary.no_overrides "req_1")
      (Terms.only_joins [Terms.join_of "Profile"]) in
  let first := AdvancedQueryBuilder.buildQueryOptions b in
  first.1 = Ok [(KStr "include", VArr [VObj [(KStr "model", VStr "Profile")]])] /\
  (obj_get [(KStr "include", VArr [VObj [(KStr "model", VStr "Profile")]])] (KStr "include")
   = JoinBuilder.build (AdvancedQueryBuilder.joinBuilder b ++ [Terms.join_of "Profile"]) /\
   (exists o2 b2,
      AdvancedQueryBuilder.buildQueryOptions first.2 = (Ok o2, b2) /\
      obj_get o2 (KStr "include")
      = JoinBuilder.build
          ((AdvancedQueryBuilder.joinBuilder b ++ [Terms.join_of "Profile"])
           ++ [Terms.join_of "Profile"])) /\
   AdvancedQueryBuilder.buildQueryOptions (AdvancedQueryBuilder.reset first.2)
   = (Ok [], AdvancedQueryBuilder.reset first.2)).
Proof.
  split; [reflexivity|].
  apply (joins_accumulate
           (AdvancedQueryBuilder.set_currentOptions
              (Index.createQueryBuilder Vocabulary.empty_store Vocabulary.no_overrides "req_1")
              (Terms.only_joins [Terms.join_of "Profile"]))
           _ [Terms.join_of "Profile"]).
  - reflexivity.
  - repeat constructor.
  - reflexivity.
Defined.

Lemma failed_execute_is_relabelled_witness :
  let b := Index.createQueryBuilder Terms.failing_store Vocabulary.no_overrides "req_1" in
  let w := AdvancedQueryBuilder.mkWorld Vocabulary.ticking [] [] in
  let failed := AdvancedQueryBuilder.execute Vocabulary.stringify_empty b w in
  failed.1.1
  = Throw (ThrowError (mkError "QueryError" "connection refused"
                         (Some "ADVANCED_QUERY_ERROR"))) /\
  ((exists e,
      ThrowError (mkError "QueryError" "connection refused" (Some "ADVANCED_QUERY_ERROR"))
      = ThrowError e /\
      ((err_name e = "QueryError" /\ err_code e = Some "ADVANCED_QUERY_ERROR")
       \/ err_name e = "TypeError")) /\
   AdvancedQueryBuilder.heap failed.2 = AdvancedQueryBuilder.heap w /\
   (forall k v,
      CacheManager.cache
        (CacheManager.provider (AdvancedQueryBuilder.cacheManager failed.1.2)) !! k = Some v ->
      CacheManager.cache (CacheManager.provider (AdvancedQueryBuilder.cacheManager b)) !! k
      = Some v) /\
   (PerformanceMonitor.enabled (AdvancedQueryBuilder.performanceMonitor b) = true ->
    PerformanceMonitor.getMetrics (AdvancedQueryBuilder.performanceMonitor failed.1.2)
      (Terms.handle
         (PerformanceMonitor.mkContext "findAll"
            (AdvancedQueryBuilder.name (AdvancedQueryBuilder.model b))
            (AdvancedQueryBuilder.requestId b))
         (Runtime.clock (AdvancedQueryBuilder.rt w)
            (S (Runtime.reads (AdvancedQueryBuilder.rt w))))) = None)).
Proof.
  split; [vm_compute; reflexivity|].
  apply (failed_execute_is_relabelled Vocabulary.stringify_empty
           (Index.createQueryBuilder Terms.failing_store Vocabulary.no_overrides "req_1")
           _ (AdvancedQueryBuilder.mkWorld Vocabulary.ticking [] []) _).
  vm_compute. reflexivity.
Defined.

Lemma cache_hit_leaves_handle_open_witness :
  let b0 := Index.createQueryBuilder Vocabulary.empty_store Vocabulary.caching_on "req_1" in
  let first :=
    AdvancedQueryBuilder.execute Vocabulary.stringify_empty b0
      (AdvancedQueryBuilder.mkWorld Vocabulary.ticking [] []) in
  let b := first.1.2 in
  let w := first.2 in
  let monitorId :=
    Terms.handle
      (PerformanceMonitor.mkContext "findAll"
         (AdvancedQueryBuilder.name (AdvancedQueryBuilder.model b))
         (AdvancedQueryBuilder.requestId b))
      (Runtime.clock (AdvancedQueryBuilder.rt w)
         (S (Runtime.reads (AdvancedQueryBuilder.rt w)))) in
  PerformanceMonitor.metrics (AdvancedQueryBuilder.performanceMonitor b) = ∅ /\
  exists b2 w2,
    AdvancedQueryBuilder.execute Vocabulary.stringify_empty b w = (Ok 0%nat, b2, w2) /\
    PerformanceMonitor.getMetrics (AdvancedQueryBuilder.performanceMonitor b2) monitorId
    = Some (PerformanceMonitor.mkMetrics (Int 0) (Int 0) (Int 0) (Int 0) (Int 1) (Int 0)) /\
    forall other, other <> monitorId ->
      PerformanceMonitor.getMetrics (AdvancedQueryBuilder.performanceMonitor b2) other
      = PerformanceMonitor.getMetrics (AdvancedQueryBuilder.performanceMonitor b) other.
Proof.
  split; [vm_compute; reflexivity|].
  apply (cache_hit_leaves_handle_open Vocabulary.stringify_empty
           (AdvancedQueryBuilder.execute Vocabulary.stringify_empty
              (Index.createQueryBuilder Vocabulary.empty_store Vocabulary.caching_on "req_1")
              (AdvancedQueryBuilder.mkWorld Vocabulary.ticking [] [])).1.2
           (AdvancedQueryBuilder.execute Vocabulary.stringify_empty
              (Index.createQueryBuilder Vocabulary.empty_store Vocabulary.caching_on "req_1")
              (AdvancedQueryBuilder.mkWorld Vocabulary.ticking [] [])).2
           "query:User:{}:" 0%nat (Int 300004)).
  - vm_compute. reflexivity.
  - vm_compute. reflexivity.
  - vm_compute. reflexivity.
  - vm_compute. reflexivity.
  - vm_compute. reflexivity.
Defined.

Lemma page_size_caps_disagree_witness :
  let small :=
    AdvancedQueryBuilder.new Vocabulary.empty_store
      (AdvancedQueryBuilder.mkQueryConfig None (Some (Int 50)) None None None None) "req_1" in
  let large :=
    AdvancedQueryBuilder.new Vocabulary.empty_store
      (AdvancedQueryBuilder.mkQueryConfig None (Some (Int 5000)) None None None None)
      "req_1" in
  (exists b',
     AdvancedQueryBuilder.withPagination small
       (PaginationBuilder.mkPaginationOptions None (Some (Int 200)) None None) = Ok b' /\
     (AdvancedQueryBuilder.buildQueryOptions b').1
     = Throw (PaginationBuilder.PaginationError
                ("Invalid pagination options: Page size cannot exceed " +:+ pretty 50)
                "INVALID_PAGINATION_OPTIONS")) /\
  (AdvancedQueryBuilder.withPagination large
     (PaginationBuilder.mkPaginationOptions None (Some (Int 2000)) None None)
   = Throw (ThrowError
              (ValidationUtils.fromJoiError
                 (ValidationUtils.quoted "pageSize"
                  +:+ " must be less than or equal to 1000"))) /\
   exists r,
     PaginationBuilder.process (AdvancedQueryBuilder.paginationBuilder large)
       (PaginationBuilder.mkPaginationOptions None (Some (Int 2000)) None None) = Ok r /\
     PaginationBuilder.r_limit r = Int 2000).
Proof.
  split.
  - apply (proj1 (page_size_caps_disagree Vocabulary.empty_store
                    (AdvancedQueryBuilder.mkQueryConfig None (Some (Int 50)) None None None
                       None) "req_1" 50 200 eq_refl ltac:(lia))).
    lia.
  - apply (proj2 (page_size_caps_disagree Vocabulary.empty_store
                    (AdvancedQueryBuilder.mkQueryConfig None (Some (Int 5000)) None None None
                       None) "req_1" 5000 2000 eq_refl ltac:(lia))).
    + lia.
    + unfold ValidationUtils.MAX_SAFE_INTEGER. lia.
Defined.

Lemma uncached_execute_reaches_store_witness :
  let b := Index.createQueryBuilder Vocabulary.empty_store Vocabulary.no_overrides "req_1" in
  let w := AdvancedQueryBuilder.mkWorld Vocabulary.ticking [] [] in
  let done := AdvancedQueryBuilder.execute Vocabulary.stringify_empty b w in
  done.1.1 = Ok 0%nat /\
  AdvancedQueryBuilder.cacheManager done.1.2 = AdvancedQueryBuilder.cacheManager b /\
  0%nat = length (AdvancedQueryBuilder.heap w) /\
  length (AdvancedQueryBuilder.heap done.2) = S (length (AdvancedQueryBuilder.heap w)) /\
  exists queryOptions,
    (AdvancedQueryBuilder.buildQueryOptions b).1 = Ok queryOptions /\
    AdvancedQueryBuilder.calls done.2
    = AdvancedQueryBuilder.calls w ++ AdvancedQueryBuilder.CallFindAll (VObj queryOptions)
        :: match AdvancedQueryBuilder.pagination (AdvancedQueryBuilder.currentOptions b) with
           | Some _ =>
               [AdvancedQueryBuilder.CallCount
                  (VObj (AdvancedQueryBuilder.countOptions queryOptions))]
           | None => []
           end.
Proof.
  split; [vm_compute; reflexivity|].
  apply (uncached_execute_reaches_store Vocabulary.stringify_empty
           (Index.createQueryBuilder Vocabulary.empty_store Vocabulary.no_overrides "req_1")
           _ (AdvancedQueryBuilder.mkWorld Vocabulary.ticking [] []) _ 0%nat).
  - reflexivity.
  - vm_compute. reflexivity.
Defined.
